(** * Adaptive schema and delta-merge engine: a shallow embedding

  Sources embedded here:
  - [validators.py]            : [normalize_column_name],
                                 [validate_campaign_data],
                                 [validate_naming_data]
  - [data_processor.py]        : [CampaignDataProcessor] (type inference,
                                 scrubbing, preprocessing)
  - [sql_templates.py]         : the columns of the two CREATE TABLE
                                 statements
  - [snowflake_operations.py]  : [infer_snowflake_type],
                                 [get_table_columns], [expand_table_schema],
                                 [rename_uploaded_file],
                                 [populate_naming_keys_table],
                                 [populate_campaign_data_table]

  Python strings are modelled as [string], read as sequences of code points
  below 256.  pandas and the warehouse session are libraries the sources
  call; they enter as interfaces ([Pandas], [Session]) with one executable
  instance each. *)

From Stdlib Require Import ZArith QArith Qround Bool Ascii String List Lia.
From stdpp Require Import gmap strings list.

Local Open Scope string_scope.

(* ===================================================================== *)
(** ** Python string primitives *)
(* ===================================================================== *)

Module PyStr.

Definition code (c : ascii) : N := N_of_ascii c.

Definition in_range (lo hi : N) (c : ascii) : bool :=
  ((lo <=? code c) && (code c <=? hi))%N.

Definition is_upper_az (c : ascii) : bool := in_range 65 90 c.
Definition is_lower_az (c : ascii) : bool := in_range 97 122 c.
Definition is_digit (c : ascii) : bool := in_range 48 57 c.

(** [str.isspace] on code points below 256. *)
Definition is_space (c : ascii) : bool :=
  in_range 9 13 c || in_range 28 32 c
  || (code c =? 133)%N || (code c =? 160)%N.

(** [str.lower] on one code point below 256: A-Z and the Latin-1 capitals
    (all of 192..222 but the multiplication sign 215) move up by 32. *)
Definition lower_char (c : ascii) : ascii :=
  if is_upper_az c || (in_range 192 222 c && negb (code c =? 215)%N)
  then ascii_of_N (code c + 32) else c.

Fixpoint lower (s : string) : string :=
  match s with
  | EmptyString => EmptyString
  | String c r => String (lower_char c) (lower r)
  end.

(** [str.upper]: a-z and the Latin-1 small letters 224..254 (but the
    division sign 247) move down by 32; sharp s becomes "SS".  The capitals
    of code points 181 and 255 lie above 255 and are left as they are. *)
Fixpoint upper (s : string) : string :=
  match s with
  | EmptyString => EmptyString
  | String c r =>
      if is_lower_az c || (in_range 224 254 c && negb (code c =? 247)%N)
      then String (ascii_of_N (code c - 32)) (upper r)
      else if (code c =? 223)%N then String "S" (String "S" (upper r))
      else String c (upper r)
  end.

Fixpoint filter (keep : ascii -> bool) (s : string) : string :=
  match s with
  | EmptyString => EmptyString
  | String c r => if keep c then String c (filter keep r) else filter keep r
  end.

Fixpoint forallb (p : ascii -> bool) (s : string) : bool :=
  match s with
  | EmptyString => true
  | String c r => p c && forallb p r
  end.

(** [s.replace(a, b)] for one-character [a] and [b]. *)
Fixpoint replace_char (a b : ascii) (s : string) : string :=
  match s with
  | EmptyString => EmptyString
  | String c r =>
      String (if Ascii.eqb c a then b else c) (replace_char a b r)
  end.

Fixpoint lstrip (drop : ascii -> bool) (s : string) : string :=
  match s with
  | EmptyString => EmptyString
  | String c r => if drop c then lstrip drop r else s
  end.

Fixpoint rstrip (drop : ascii -> bool) (s : string) : string :=
  match s with
  | EmptyString => EmptyString
  | String c r =>
      match rstrip drop r with
      | EmptyString => if drop c then EmptyString else String c EmptyString
      | r' => String c r'
      end
  end.

(** [s.strip()] and [s.strip(chars)]. *)
Definition strip_by (drop : ascii -> bool) (s : string) : string :=
  rstrip drop (lstrip drop s).

Definition strip (s : string) : string := strip_by is_space s.

(** [re.sub(c+, c, s)]: every maximal run of [c] becomes one [c]. *)
Fixpoint squeeze (c : ascii) (s : string) : string :=
  match s with
  | EmptyString => EmptyString
  | String a r =>
      if Ascii.eqb a c
      then match r with
           | String b _ =>
               if Ascii.eqb b c then squeeze c r else String a (squeeze c r)
           | EmptyString => String a EmptyString
           end
      else String a (squeeze c r)
  end.

Fixpoint join (sep : string) (l : list string) : string :=
  match l with
  | [] => ""
  | [x] => x
  | x :: r => x ++ sep ++ join sep r
  end.

(** [str(n)] of an integer. *)
Definition digit_char (n : N) : ascii := ascii_of_N (48 + n).

Fixpoint digits_of (fuel : nat) (n : N) (acc : string) : string :=
  match fuel with
  | O => acc
  | S fuel' =>
      let acc' := String (digit_char (n mod 10)) acc in
      if (n <? 10)%N then acc' else digits_of fuel' (n / 10) acc'
  end.

Definition str_int (z : Z) : string :=
  let n := Z.to_N (Z.abs z) in
  let body := digits_of (S (N.to_nat (N.log2 n))) n "" in
  if (z <? 0)%Z then String "-" body else body.

End PyStr.

(* ===================================================================== *)
(** ** validators.py *)
(* ===================================================================== *)

(** The character class [a-zA-Z0-9 ] of the first [re.sub]. *)
Definition keep_class (c : ascii) : bool :=
  PyStr.is_lower_az c || PyStr.is_upper_az c || PyStr.is_digit c
  || Ascii.eqb c " ".

(** [normalize_column_name(col_name)]; [None] is a label for which
  [pd.isna] holds. *)
Definition normalize_column_name (col_name : option string) : string :=
  match col_name with
  | None => ""
  | Some s =>
    let normalized := PyStr.filter keep_class (PyStr.strip s) in
    let normalized := PyStr.lower (PyStr.replace_char " " "_" normalized) in
    let normalized := PyStr.squeeze "_" normalized in
    PyStr.strip_by (Ascii.eqb "_") normalized
  end.

(* ===================================================================== *)
(** ** pandas: the data model and the interface the sources call *)
(* ===================================================================== *)

(** The three missing markers pandas tells apart when it prints them. *)
Inductive null_kind := PyNone | NaN | NaT.

(** One untyped cell of a column. *)
Inductive cell :=
  | Null (k : null_kind)
  | Str (s : string)
  | Num (q : Q)
  | Stamp (t : Z).

(** The storage type of a column, as far as the sources look at it;
  [DObject] stands for every dtype that is inspected by value. *)
Inductive dtype := DObject | DInt | DFloat | DBool | DDatetime.

Record Series := mkSeries { sdtype : dtype; cells : list cell }.

(** A DataFrame: a row count and an ordered list of labelled columns. *)
Record DataFrame := mkFrame { nrows : nat; columns : list (string * Series) }.

(** The four type names the processor works with ('INT', 'FLOAT', 'STRING',
  'DATETIME'). *)
Inductive ctype := INT | FLOAT | STRING | DATETIME.

Definition ctype_eqb (a b : ctype) : bool :=
  match a, b with
  | INT, INT | FLOAT, FLOAT | STRING, STRING | DATETIME, DATETIME => true
  | _, _ => false
  end.

Definition isnull (c : cell) : bool :=
  match c with Null _ => true | _ => false end.

Definition notna (c : cell) : bool := negb (isnull c).

Definition dropna (l : list cell) : list cell := List.filter notna l.

(** [re.match(r'^\d{1,2}:\d{2}:\d{2}$', s)]; [$] also matches just before a
  final newline. *)
Module TimePattern.
Definition newline : ascii := ascii_of_N 10.
Definition colon : ascii := ascii_of_N 58.

Definition at_end (s : string) : bool :=
  match s with
  | EmptyString => true
  | String c EmptyString => Ascii.eqb c newline
  | _ => false
  end.

(** [:\d{2}:\d{2}$] *)
Definition minutes_seconds (s : string) : bool :=
  match s with
  | String c1 (String m1 (String m2 (String c2 (String s1 (String s2 r))))) =>
      Ascii.eqb c1 colon && PyStr.is_digit m1 && PyStr.is_digit m2
      && Ascii.eqb c2 colon && PyStr.is_digit s1 && PyStr.is_digit s2
      && at_end r
  | _ => false
  end.

Definition matches (s : string) : bool :=
  match s with
  | String h r =>
      PyStr.is_digit h
      && (match r with
          | String h2 r2 => PyStr.is_digit h2 && minutes_seconds r2
          | EmptyString => false
          end
          || minutes_seconds r)
  | EmptyString => false
  end.
End TimePattern.

(** What the sources take from pandas.  The conversions are the library's;
  the laws are the facts about them that the proofs below use. *)
Class Pandas := {
(** [pd.to_numeric(x, errors='coerce')] on one element. *)
  to_numeric_cell : cell -> option Q;
(** [pd.to_datetime(xs, errors='coerce')] on a whole column; [None] when
    the call raises. *)
  to_datetime : list cell -> option (list (option Z));
(** [str(x)] of a number and of a timestamp. *)
  str_num : Q -> string;
  str_stamp : Z -> string;
(** dtype of the column [pd.to_numeric] returns (int64 or float64). *)
  numeric_result_dtype : list cell -> dtype;
(** [df.duplicated()]: the rows equal to an earlier row. *)
  duplicated : DataFrame -> list bool;

  to_numeric_null : forall k, to_numeric_cell (Null k) = None;
  to_numeric_clock : forall s,
    TimePattern.matches s = true -> to_numeric_cell (Str s) = None;
  to_datetime_length : forall l r, to_datetime l = Some r -> length r = length l;
  str_num_not_clock : forall q, TimePattern.matches (str_num q) = false;
  str_stamp_not_clock : forall t, TimePattern.matches (str_stamp t) = false;
  numeric_result_numeric : forall l,
    numeric_result_dtype l = DInt \/ numeric_result_dtype l = DFloat;
  duplicated_length : forall df, length (duplicated df) = nrows df
  }.

Section PandasOps.
Context `{Pandas}.

Definition is_datetime64_any_dtype (s : Series) : bool :=
  match sdtype s with DDatetime => true | _ => false end.
Definition is_integer_dtype (s : Series) : bool :=
  match sdtype s with DInt => true | _ => false end.
Definition is_float_dtype (s : Series) : bool :=
  match sdtype s with DFloat => true | _ => false end.
Definition is_bool_dtype (s : Series) : bool :=
  match sdtype s with DBool => true | _ => false end.
Definition is_numeric_dtype (s : Series) : bool :=
  match sdtype s with DInt | DFloat | DBool => true | _ => false end.

(** [str(x)] as [astype(str)] applies it (object-dtype string conversion:
    missing markers become their printed names). *)
Definition astype_str_cell (c : cell) : string :=
  match c with
  | Null PyNone => "None"
  | Null NaN => "nan"
  | Null NaT => "NaT"
  | Str s => s
  | Num q => str_num q
  | Stamp t => str_stamp t
  end.

Definition of_option_num (o : option Q) : cell :=
  match o with Some q => Num q | None => Null NaN end.

Definition of_option_stamp (o : option Z) : cell :=
  match o with Some t => Stamp t | None => Null NaT end.

(** [pd.to_numeric(series, errors='coerce')] *)
Definition to_numeric (s : Series) : Series :=
  mkSeries (numeric_result_dtype (cells s))
           (map (fun c => of_option_num (to_numeric_cell c)) (cells s)).

(** [pd.to_datetime(series, errors='coerce')] *)
Definition to_datetime_series (s : Series) : option Series :=
  match to_datetime (cells s) with
  | Some r => Some (mkSeries DDatetime (map of_option_stamp r))
  | None => None
  end.

(** [series.astype(str).fillna('')] *)
Definition fillna_empty (c : cell) : cell :=
  if isnull c then Str "" else c.

Definition astype_str_fillna (s : Series) : Series :=
  mkSeries DObject (map (fun c => fillna_empty (Str (astype_str_cell c))) (cells s)).

End PandasOps.

(* ===================================================================== *)
(** ** data_processor.py: the type inferrer *)
(* ===================================================================== *)

(** Python's [count / total > 0.8].  The quotient is a float in the source;
  for counts that fit a column the float comparison agrees with the exact
  one, which is what is modelled. *)
Definition success_rate (count total : nat) : Q :=
  (inject_Z (Z.of_nat count) / inject_Z (Z.of_nat total))%Q.

Definition above_threshold (rate : Q) : bool := negb (Qle_bool rate (8 # 10)).

(** [x.astype(int)]: truncation toward zero. *)
Definition astype_int (q : Q) : Z := Z.quot (Qnum q) (Zpos (Qden q)).

(** [x == x.astype(int)] *)
Definition equals_own_int (q : Q) : bool := Qeq_bool q (inject_Z (astype_int q)).

Fixpoint somes {A} (l : list (option A)) : list A :=
  match l with
  | [] => []
  | Some a :: r => a :: somes r
  | None :: r => somes r
  end.

Section Inferrer.
Context `{Pandas}.

Definition _infer_column_type (series : Series) : ctype :=
  if is_datetime64_any_dtype series then DATETIME
  else if is_integer_dtype series then INT
  else if is_float_dtype series then FLOAT
  else if is_bool_dtype series then INT
  else
    let non_null := dropna (cells series) in
    if (length non_null =? 0)%nat then STRING
    else
      let numeric_converted := map to_numeric_cell non_null in
      let numeric_success_rate :=
        success_rate (length (somes numeric_converted)) (length non_null) in
      let numeric_verdict :=
        if above_threshold numeric_success_rate then
          let successful_numeric := somes numeric_converted in
          if (0 <? length successful_numeric)%nat then
            let is_integer := List.forallb equals_own_int successful_numeric in
            Some (if is_integer then INT else FLOAT)
          else None
        else None in
      match numeric_verdict with
      | Some t => t
      | None =>
          (* try: ... except: pass *)
          match to_datetime non_null with
          | Some datetime_converted =>
              let datetime_success_rate :=
                success_rate (length (somes datetime_converted)) (length non_null) in
              if above_threshold datetime_success_rate then DATETIME else STRING
          | None => STRING
          end
      end.

(** [infer_snowflake_type] of snowflake_operations.py: the same procedure
    with the warehouse's type names. *)
Definition infer_snowflake_type (series : Series) : string :=
  if is_datetime64_any_dtype series then "TIMESTAMP"
  else if is_integer_dtype series then "INTEGER"
  else if is_float_dtype series then "FLOAT"
  else if is_bool_dtype series then "BOOLEAN"
  else
    let non_null := dropna (cells series) in
    if (length non_null =? 0)%nat then "STRING"
    else
      let numeric_converted := map to_numeric_cell non_null in
      let numeric_success_rate :=
        success_rate (length (somes numeric_converted)) (length non_null) in
      let numeric_verdict :=
        if above_threshold numeric_success_rate then
          let successful_numeric := somes numeric_converted in
          if (0 <? length successful_numeric)%nat then
            let is_integer := List.forallb equals_own_int successful_numeric in
            Some (if is_integer then "INTEGER" else "FLOAT")
          else None
        else None in
      match numeric_verdict with
      | Some t => t
      | None =>
          match to_datetime non_null with
          | Some datetime_converted =>
              let datetime_success_rate :=
                success_rate (length (somes datetime_converted)) (length non_null) in
              if above_threshold datetime_success_rate then "TIMESTAMP" else "STRING"
          | None => "STRING"
          end
      end.

(** *** The algorithm as the design document words it *)

Definition natively_typed (series : Series) : bool :=
  match sdtype series with DObject => false | _ => true end.

(** "zero fractional part" *)
Definition zero_fractional_part (q : Q) : bool :=
  Qeq_bool (q - inject_Z (Qfloor q)) 0.

(** "count coercible / count non-missing ... ratio > 0.8", exactly. *)
Definition ratio_exceeds (coercible non_missing : nat) : bool :=
  (4 * Z.of_nat non_missing <? 5 * Z.of_nat coercible)%Z.

Definition documented_inference (series : Series) : ctype :=
  let present := dropna (cells series) in
  match present with
  | [] => STRING
  | _ :: _ =>
      let coerced := somes (map to_numeric_cell present) in
      if ratio_exceeds (length coerced) (length present) then
        if List.forallb zero_fractional_part coerced then INT else FLOAT
      else
        match to_datetime present with
        | Some stamps =>
            if ratio_exceeds (length (somes stamps)) (length present)
            then DATETIME else STRING
        | None => STRING
        end
  end.

End Inferrer.

(* ===================================================================== *)
(** ** DataFrame access as the sources use it *)
(* ===================================================================== *)

Fixpoint assoc_get {A} (l : list (string * A)) (k : string) : option A :=
  match l with
  | [] => None
  | (k', v) :: r => if String.eqb k k' then Some v else assoc_get r k
  end.

(** Assignment to a label: in place when the label exists, appended at the
    end otherwise. *)
Fixpoint assoc_set {A} (l : list (string * A)) (k : string) (v : A)
  : list (string * A) :=
  match l with
  | [] => [(k, v)]
  | (k', v') :: r =>
      if String.eqb k k' then (k', v) :: r else (k', v') :: assoc_set r k v
  end.

Definition column_names (df : DataFrame) : list string := map fst (columns df).

(** [col in df.columns] *)
Definition has_column (df : DataFrame) (col : string) : bool :=
  existsb (String.eqb col) (column_names df).

(** [df[col]] *)
Definition get_column (df : DataFrame) (col : string) : option Series :=
  assoc_get (columns df) col.

(** [df[col] = series] *)
Definition set_column (df : DataFrame) (col : string) (s : Series) : DataFrame :=
  mkFrame (nrows df) (assoc_set (columns df) col s).

(** The column a scalar assignment [df[col] = value] broadcasts. *)
Definition scalar_column (df : DataFrame) (d : dtype) (value : cell) : Series :=
  mkSeries d (repeat value (nrows df)).

(** [xs[mask]] *)
Fixpoint select {A} (mask : list bool) (xs : list A) : list A :=
  match mask, xs with
  | m :: mask', x :: xs' => if m then x :: select mask' xs' else select mask' xs'
  | _, _ => []
  end.

(** [target[mask] = source[mask]], row by row. *)
Fixpoint fill_where (mask : list bool) (target source : list cell) : list cell :=
  match mask, target, source with
  | m :: mask', t :: target', s :: source' =>
      (if m then s else t) :: fill_where mask' target' source'
  | _, _, _ => target
  end.

(** [target[mask] = None] *)
Fixpoint clear_where (mask : list bool) (target : list cell) : list cell :=
  match mask, target with
  | m :: mask', t :: target' =>
      (if m then Null PyNone else t) :: clear_where mask' target'
  | _, _ => target
  end.

Definition any (mask : list bool) : bool := existsb (fun b => b) mask.

(* ===================================================================== *)
(** ** validators.py: the two validators *)
(* ===================================================================== *)

(** [df.empty]: no row or no column. *)
Definition frame_empty (df : DataFrame) : bool :=
  (nrows df =? 0)%nat || (length (columns df) =? 0)%nat.

(** [x in xs] on names. *)
Definition name_in (x : string) (xs : list string) : bool :=
  existsb (String.eqb x) xs.

(** [expected_columns] of [validate_campaign_data]. *)
Definition validator_campaign_columns : list string :=
  [
    "campaign_name"; "ad_name"; "ad_set_name"; "ad_delivery"; "starts";
    "ends"; "reporting_starts"; "reporting_ends"; "last_significant_edit";
    "wave_number"; "attribution_setting"; "amount_spent_usd";
    "ad_set_budget"; "ad_set_budget_type"; "bid"; "bid_type"; "cpm_usd";
    "results"; "result_indicator"; "cost_per_result"; "frequency"; "reach";
    "impressions"; "unique_link_clicks"; "landing_page_views";
    "email_signups"; "kpv_community"; "kpv_tool"; "kpv_transformation";
    "kpv_support"; "kpv_nohero"; "kpv_inspiration"; "kpv_authentic";
    "kpv_nextlevel"; "kpv_nextchapter"; "kpv_workshop"; "kpv_openhouse";
    "lead_openhouse"; "lead_workshop"; "lead_info"; "click_findout";
    "click_letschat"; "click_openhouse"; "click_workshop"; "click_info";
    "adds_to_cart"; "in_app_adds_to_cart"; "website_adds_to_cart";
    "offline_adds_to_cart"; "meta_add_to_cart"; "checkouts_initiated";
    "in_app_checkouts"; "website_checkouts"; "offline_checkouts";
    "meta_checkouts"; "purchases"; "in_app_purchases"; "website_purchases";
    "offline_purchases"; "meta_purchases"; "registrations_completed";
    "in_app_registrations"; "website_registrations"; "offline_registrations";
    "instagram_profile_visits"; "post_comments"; "post_reactions";
    "post_saves"; "post_shares"; "post_engagements"; "video_avg_play_time" ].

(** [expected_naming_columns] of [validate_naming_data]. *)
Definition validator_naming_columns : list string :=
  [
    "ad_set_name"; "audience"; "concept"; "position"; "ad_descriptor";
    "ad_direction"; "landing_page" ].

(** [[normalize_column_name(col) for col in df.columns]] *)
Definition normalized_columns (df : DataFrame) : list string :=
  map (fun col => normalize_column_name (Some col)) (column_names df).

(** [pd.to_numeric(df[col], errors='coerce')] raises when [df[col]] is a
    frame and not a column, which it is for a label that occurs more than
    once; on a column it coerces and does not raise. *)
Definition to_numeric_raises (df : DataFrame) (col : string) : bool :=
  (1 <? length (List.filter (String.eqb col) (column_names df)))%nat.

(** The optional columns [validate_campaign_data] finds missing. *)
Definition missing_optional_campaign (df : DataFrame) : list string :=
  List.filter
    (fun exp_col =>
       negb (name_in exp_col (normalized_columns df))
       && negb (name_in exp_col ["ad_name"; "ad_set_name"]))
    validator_campaign_columns.

(** [validate_campaign_data(df)]: (is_valid, errors, warnings). *)
Definition validate_campaign_data (df : DataFrame)
  : bool * list string * list string :=
  if frame_empty df then (false, ["Campaign data file is empty"], [])
  else
    let normalized_columns := normalized_columns df in
    let has_ad_name := name_in "ad_name" normalized_columns in
    let has_ad_set_name := name_in "ad_set_name" normalized_columns in
    let '(errors, warnings) :=
      if negb has_ad_name && negb has_ad_set_name then
        (["Missing critical columns (required): ['ad_name', 'ad_set_name']"
          ++ " - at least one of ad_name or ad_set_name must be present"],
         [])
      else if negb has_ad_name then
        ([], ["ad_name column missing - will use ad_set_name as fallback"])
      else if negb has_ad_set_name then
        ([], ["ad_set_name column missing - will use ad_name as fallback"])
      else ([], []) in
    let missing_optional := missing_optional_campaign df in
    let warnings :=
      match missing_optional with
      | [] => warnings
      | _ =>
          let message :=
            "Missing optional campaign columns (will be filled with NULL): "
            ++ PyStr.join ", " (firstn 10 missing_optional)
            ++ (if (10 <? length missing_optional)%nat
                then " and "
                     ++ PyStr.str_int (Z.of_nat (length missing_optional - 10))
                     ++ " more"
                else "") in
          (warnings ++ [message])%list
      end in
    let type_errors :=
      map (fun col => "Cannot convert " ++ col ++ " to numeric")
        (List.filter
           (fun col => name_in col (column_names df) && to_numeric_raises df col)
           ["Impressions"; "Results"; "Reach"]) in
    let errors := (errors ++ type_errors)%list in
    ((length errors =? 0)%nat, errors, warnings).

(** The optional columns [validate_naming_data] finds missing. *)
Definition missing_optional_naming (df : DataFrame) : list string :=
  List.filter
    (fun exp_col =>
       negb (name_in exp_col (normalized_columns df))
       && negb (String.eqb exp_col "ad_set_name"))
    validator_naming_columns.

(** [validate_naming_data(df)]: (is_valid, errors, warnings). *)
Definition validate_naming_data (df : DataFrame)
  : bool * list string * list string :=
  if frame_empty df then (false, ["Naming key file is empty"], [])
  else
    let normalized_columns := normalized_columns df in
    let errors :=
      if negb (name_in "ad_set_name" normalized_columns)
      then ["Missing critical column: 'ad_set_name' (required as primary key)"]
      else [] in
    let missing_optional := missing_optional_naming df in
    let warnings :=
      match missing_optional with
      | [] => []
      | _ =>
          ["Missing optional naming columns (will be filled with NULL): "
           ++ PyStr.join ", " missing_optional]
      end in
    ((length errors =? 0)%nat, errors, warnings).

(* ===================================================================== *)
(** ** sql_templates.py: the tables as created *)
(* ===================================================================== *)

(** The columns of the CREATE TABLE statement under
    ['create_naming_keys_table'] of [generate_schema_creation_statements],
    with the type each is declared with, in the order of the statement. *)
Definition naming_table_columns : list (string * string) :=
  [
    ("wave_number", "INT"); ("ad_set_name", "STRING");
    ("audience", "STRING"); ("concept", "STRING"); ("position", "STRING");
    ("ad_descriptor", "STRING"); ("ad_direction", "STRING");
    ("landing_page", "STRING"); ("upload_timestamp", "TIMESTAMP") ].

(** The columns of the statement under
    ['create_processed_campaign_data_table']. *)
Definition campaign_table_columns : list (string * string) :=
  [
    ("campaign_name", "STRING"); ("ad_name", "STRING");
    ("ad_set_name", "STRING"); ("ad_delivery", "STRING");
    ("starts", "DATETIME"); ("ends", "DATETIME");
    ("reporting_starts", "DATETIME"); ("reporting_ends", "DATETIME");
    ("last_significant_edit", "DATETIME"); ("wave_number", "INT");
    ("attribution_setting", "STRING"); ("amount_spent_usd", "FLOAT");
    ("ad_set_budget", "FLOAT"); ("ad_set_budget_type", "STRING");
    ("bid", "FLOAT"); ("bid_type", "STRING"); ("cpm_usd", "FLOAT");
    ("results", "INT"); ("result_indicator", "STRING");
    ("cost_per_result", "FLOAT"); ("frequency", "FLOAT"); ("reach", "INT");
    ("impressions", "INT"); ("unique_link_clicks", "INT");
    ("landing_page_views", "INT"); ("email_signups", "INT");
    ("kpv_community", "INT"); ("kpv_tool", "INT");
    ("kpv_transformation", "INT"); ("kpv_support", "INT");
    ("kpv_nohero", "INT"); ("kpv_inspiration", "INT");
    ("kpv_authentic", "INT"); ("kpv_nextlevel", "INT");
    ("kpv_nextchapter", "INT"); ("kpv_workshop", "INT");
    ("kpv_openhouse", "INT"); ("lead_openhouse", "INT");
    ("lead_workshop", "INT"); ("lead_info", "INT"); ("click_findout", "INT");
    ("click_letschat", "INT"); ("click_openhouse", "INT");
    ("click_workshop", "INT"); ("click_info", "INT");
    ("adds_to_cart", "INT"); ("in_app_adds_to_cart", "INT");
    ("website_adds_to_cart", "INT"); ("offline_adds_to_cart", "INT");
    ("meta_add_to_cart", "INT"); ("checkouts_initiated", "INT");
    ("in_app_checkouts", "INT"); ("website_checkouts", "INT");
    ("offline_checkouts", "INT"); ("meta_checkouts", "INT");
    ("purchases", "INT"); ("in_app_purchases", "INT");
    ("website_purchases", "INT"); ("offline_purchases", "INT");
    ("meta_purchases", "INT"); ("registrations_completed", "INT");
    ("in_app_registrations", "INT"); ("website_registrations", "INT");
    ("offline_registrations", "INT"); ("instagram_profile_visits", "INT");
    ("post_comments", "INT"); ("post_reactions", "INT");
    ("post_saves", "INT"); ("post_shares", "INT");
    ("post_engagements", "INT"); ("video_avg_play_time", "FLOAT");
    ("upload_timestamp", "TIMESTAMP") ].

(* ===================================================================== *)
(** ** snowflake_operations.py: file names *)
(* ===================================================================== *)

(** [rename_uploaded_file(original_filename, wave_number, client_name,
    platform, year, file_type)] *)
Definition rename_uploaded_file (original_filename : string) (wave_number : Z)
  (client_name platform : string) (year : Z) (file_type : string) : string :=
  let client_clean := PyStr.replace_char " " "_" (PyStr.lower client_name) in
  let platform_clean := PyStr.replace_char " " "_" (PyStr.lower platform) in
  client_clean ++ "_" ++ platform_clean ++ "_" ++ PyStr.str_int year
  ++ "_wave" ++ PyStr.str_int wave_number ++ "_" ++ file_type ++ ".csv".

(* ===================================================================== *)
(** ** data_processor.py: CampaignDataProcessor *)
(* ===================================================================== *)

Definition expected_campaign_columns : list (string * ctype) :=
  [ ("campaign_name", STRING); ("ad_name", STRING); ("ad_set_name", STRING);
    ("ad_delivery", STRING);
    ("starts", DATETIME); ("ends", DATETIME); ("reporting_starts", DATETIME);
    ("reporting_ends", DATETIME); ("last_significant_edit", DATETIME);
    ("wave_number", INT); ("attribution_setting", STRING);
    ("amount_spent_usd", FLOAT); ("ad_set_budget", FLOAT);
    ("ad_set_budget_type", STRING);
    ("bid", FLOAT); ("bid_type", STRING); ("cpm_usd", FLOAT);
    ("results", INT); ("result_indicator", STRING); ("cost_per_result", FLOAT);
    ("frequency", FLOAT); ("reach", INT); ("impressions", INT);
    ("unique_link_clicks", INT); ("landing_page_views", INT);
    ("email_signups", INT);
    ("kpv_community", INT); ("kpv_tool", INT); ("kpv_transformation", INT);
    ("kpv_support", INT); ("kpv_nohero", INT); ("kpv_inspiration", INT);
    ("kpv_authentic", INT); ("kpv_nextlevel", INT); ("kpv_nextchapter", INT);
    ("kpv_workshop", INT); ("kpv_openhouse", INT);
    ("lead_openhouse", INT); ("lead_workshop", INT); ("lead_info", INT);
    ("click_findout", INT); ("click_letschat", INT); ("click_openhouse", INT);
    ("click_workshop", INT); ("click_info", INT);
    ("adds_to_cart", INT); ("in_app_adds_to_cart", INT);
    ("website_adds_to_cart", INT);
    ("offline_adds_to_cart", INT); ("meta_add_to_cart", INT);
    ("checkouts_initiated", INT); ("in_app_checkouts", INT);
    ("website_checkouts", INT);
    ("offline_checkouts", INT); ("meta_checkouts", INT);
    ("purchases", INT); ("in_app_purchases", INT); ("website_purchases", INT);
    ("offline_purchases", INT); ("meta_purchases", INT);
    ("registrations_completed", INT); ("in_app_registrations", INT);
    ("website_registrations", INT); ("offline_registrations", INT);
    ("instagram_profile_visits", INT); ("post_comments", INT);
    ("post_reactions", INT);
    ("post_saves", INT); ("post_shares", INT); ("post_engagements", INT);
    ("video_avg_play_time", FLOAT) ].

Definition expected_naming_columns : list (string * ctype) :=
  [ ("ad_set_name", STRING); ("audience", STRING); ("concept", STRING);
    ("position", STRING); ("ad_descriptor", STRING); ("ad_direction", STRING);
    ("landing_page", STRING) ].

Section Processor.
Context `{Pandas}.

(** [col_as_str.str.match(time_pattern, na=False)] on [df[col].astype(str)] *)
Definition time_mask (series : Series) : list bool :=
  map (fun c => TimePattern.matches (astype_str_cell c)) (cells series).

(** One turn of the loop of [_clean_time_formatted_values]. *)
Definition clean_column (df : DataFrame) (col : string) : DataFrame :=
  match get_column df col with
  | None => df
  | Some series =>
      if is_numeric_dtype series then df
      else
        let inferred_type := _infer_column_type series in
        if ctype_eqb inferred_type INT || ctype_eqb inferred_type FLOAT then
          let mask := time_mask series in
          if any mask
          then set_column df col
                 (mkSeries (sdtype series) (clear_where mask (cells series)))
          else df
        else df
  end.

(** [_clean_time_formatted_values(df)]: the frame is changed in place; the
    embedding returns its new value. *)
Definition _clean_time_formatted_values (df : DataFrame) : DataFrame :=
  fold_left clean_column (column_names df) df.

(** [processed_df.rename(columns=column_mapping)] with the mapping built from
    [normalize_column_name]. *)
Definition normalize_columns (df : DataFrame) : DataFrame :=
  mkFrame (nrows df)
    (map (fun '(col, s) => (normalize_column_name (Some col), s)) (columns df)).

(** [series.isnull() | (series.astype(str).str.strip() == '')] *)
Definition null_or_blank (c : cell) : bool :=
  isnull c || String.eqb (PyStr.strip (astype_str_cell c)) "".

Definition null_mask (series : Series) : list bool :=
  map null_or_blank (cells series).

(** dtype of a column after cells of another column were written into it. *)
Definition merged_dtype (a b : dtype) : dtype :=
  match a, b with
  | DObject, DObject => DObject
  | DInt, DInt => DInt
  | DFloat, DFloat => DFloat
  | DBool, DBool => DBool
  | DDatetime, DDatetime => DDatetime
  | _, _ => DObject
  end.

(** [df.loc[mask, target] = df.loc[mask, source]], guarded by [mask.any()]. *)
Definition fill_from (df : DataFrame) (target source : string) : DataFrame :=
  match get_column df target, get_column df source with
  | Some t, Some s =>
      let mask := null_mask t in
      if any mask
      then set_column df target
             (mkSeries (merged_dtype (sdtype t) (sdtype s))
                       (fill_where mask (cells t) (cells s)))
      else df
  | _, _ => df
  end.

(** The ad_name / ad_set_name fallback block of [preprocess_campaign_data]. *)
Definition reconcile_keys (processed_df : DataFrame) : DataFrame :=
  if negb (has_column processed_df "ad_name")
     && has_column processed_df "ad_set_name" then
    match get_column processed_df "ad_set_name" with
    | Some s => set_column processed_df "ad_name" s
    | None => processed_df
    end
  else if has_column processed_df "ad_name"
          && negb (has_column processed_df "ad_set_name") then
    match get_column processed_df "ad_name" with
    | Some s => set_column processed_df "ad_set_name" s
    | None => processed_df
    end
  else if has_column processed_df "ad_name"
          && has_column processed_df "ad_set_name" then
    let processed_df := fill_from processed_df "ad_name" "ad_set_name" in
    fill_from processed_df "ad_set_name" "ad_name"
  else processed_df.

(** "Add missing columns with default values": one turn of the loop. *)
Definition add_missing_column (df : DataFrame) (entry : string * ctype)
  : DataFrame :=
  let '(col, dtype) := entry in
  if has_column df col then df
  else match dtype with
       | INT => set_column df col (scalar_column df DObject (Null PyNone))
       | FLOAT => set_column df col (scalar_column df DObject (Null PyNone))
       | STRING => set_column df col (scalar_column df DObject (Str ""))
       | DATETIME => set_column df col (scalar_column df DObject (Null PyNone))
       end.

Definition add_missing_columns (expected : list (string * ctype))
  (df : DataFrame) : DataFrame :=
  fold_left add_missing_column expected df.

(** The conversion applied for a type name; [None] when pandas raises. *)
Definition convert_series (dtype : ctype) (series : Series) : option Series :=
  match dtype with
  | INT => Some (to_numeric series)
  | FLOAT => Some (to_numeric series)
  | STRING => Some (astype_str_fillna series)
  | DATETIME => to_datetime_series series
  end.

(** "Convert data types for EXPECTED columns": one turn of the loop. *)
Definition convert_expected_column (acc : option DataFrame)
  (entry : string * ctype) : option DataFrame :=
  match acc with
  | None => None
  | Some df =>
      let '(col, dtype) := entry in
      match get_column df col with
      | None => Some df
      | Some series =>
          match convert_series dtype series with
          | Some converted => Some (set_column df col converted)
          | None => None
          end
      end
  end.

Definition convert_expected_columns (expected : list (string * ctype))
  (df : DataFrame) : option DataFrame :=
  fold_left convert_expected_column expected (Some df).

Definition in_schema (expected : list (string * ctype)) (col : string) : bool :=
  existsb (String.eqb col) (map fst expected).

Definition convert_new_column (acc : option DataFrame) (col : string)
  : option DataFrame :=
  match acc with
  | None => None
  | Some df =>
      match get_column df col with
      | None => Some df
      | Some series =>
          let inferred_type := _infer_column_type series in
          match convert_series inferred_type series with
          | Some converted => Some (set_column df col converted)
          | None => None
          end
      end
  end.

(** [_process_new_columns(df)] *)
Definition _process_new_columns (df : DataFrame) : option DataFrame :=
  let new_cols :=
    List.filter (fun col => negb (in_schema expected_campaign_columns col))
                (column_names df) in
  fold_left convert_new_column new_cols (Some df).

(** [df.drop_duplicates()] *)
Definition drop_duplicates (df : DataFrame) : DataFrame :=
  let keep := map negb (duplicated df) in
  mkFrame (length (List.filter (fun b => b) keep))
    (map (fun '(col, s) => (col, mkSeries (sdtype s) (select keep (cells s))))
         (columns df)).

Definition assign_wave_number (df : DataFrame) (wave_number : Z) : DataFrame :=
  set_column df "wave_number" (scalar_column df DInt (Num (inject_Z wave_number))).

(** [preprocess_campaign_data] up to, and without, the final
    [drop_duplicates()]. *)
Definition preprocess_campaign_steps (df : DataFrame) (wave_number : Z)
  : option DataFrame :=
  let processed_df := normalize_columns df in
  let processed_df := _clean_time_formatted_values processed_df in
  let processed_df := assign_wave_number processed_df wave_number in
  let processed_df := reconcile_keys processed_df in
  let processed_df := add_missing_columns expected_campaign_columns processed_df in
  match convert_expected_columns expected_campaign_columns processed_df with
  | None => None
  | Some processed_df => _process_new_columns processed_df
  end.

(** [preprocess_campaign_data(df, wave_number)]; [None] when a conversion
    raises. *)
Definition preprocess_campaign_data (df : DataFrame) (wave_number : Z)
  : option DataFrame :=
  match preprocess_campaign_steps df wave_number with
  | None => None
  | Some processed_df => Some (drop_duplicates processed_df)
  end.

Definition preprocess_naming_steps (df : DataFrame) (wave_number : Z)
  : option DataFrame :=
  let processed_df := normalize_columns df in
  let processed_df := assign_wave_number processed_df wave_number in
  let processed_df := add_missing_columns expected_naming_columns processed_df in
  convert_expected_columns expected_naming_columns processed_df.

(** [preprocess_naming_data(df, wave_number)] *)
Definition preprocess_naming_data (df : DataFrame) (wave_number : Z)
  : option DataFrame :=
  match preprocess_naming_steps df wave_number with
  | None => None
  | Some processed_df => Some (drop_duplicates processed_df)
  end.

End Processor.

(* ===================================================================== *)
(** ** An executable pandas, for running the embedding on concrete tables

    It reads plain decimal numerals ("12", "-3.5"), accepts as timestamps
    only cells that already hold one, prints exact numbers as integers or
    fractions, and marks a row as duplicated when an earlier row holds equal
    cells. *)
(* ===================================================================== *)

Module ToyPandas.

(** Digits with at most one point, at least one digit. *)
Fixpoint scan (s : string) (seen_point : bool) (num : Z) (den : positive)
  (ndigits : nat) : option Q :=
  match s with
  | EmptyString => if (ndigits =? 0)%nat then None else Some (num # den)
  | String c r =>
      if PyStr.is_digit c then
        scan r seen_point (10 * num + Z.of_N (PyStr.code c - 48))%Z
             (if seen_point then (10 * den)%positive else den) (S ndigits)
      else if Ascii.eqb c "." && negb seen_point then scan r true num den ndigits
      else None
  end.

Definition parse_decimal (s : string) : option Q :=
  match s with
  | String c r =>
      if Ascii.eqb c "-" then option_map Qopp (scan r false 0 1 0)
      else scan s false 0 1 0
  | EmptyString => None
  end.

Definition to_numeric_cell (c : cell) : option Q :=
  match c with
  | Null _ => None
  | Str s => parse_decimal s
  | Num q => Some q
  | Stamp _ => None
  end.

Definition to_datetime (l : list cell) : option (list (option Z)) :=
  Some (map (fun c => match c with Stamp t => Some t | _ => None end) l).

Definition str_num (q : Q) : string :=
  let r := Qred q in
  if (Qden r =? 1)%positive then PyStr.str_int (Qnum r)
  else PyStr.str_int (Qnum r) ++ "/" ++ PyStr.str_int (Zpos (Qden r)).

Definition str_stamp (t : Z) : string := "@" ++ PyStr.str_int t.

Definition numeric_result_dtype (l : list cell) : dtype :=
  if List.forallb (fun c => match to_numeric_cell c with
                            | Some q => equals_own_int q
                            | None => false
                            end) l
  then DInt else DFloat.

Definition cell_eqb (a b : cell) : bool :=
  match a, b with
  | Null _, Null _ => true
  | Str s, Str t => String.eqb s t
  | Num p, Num q => Qeq_bool p q
  | Stamp s, Stamp t => Z.eqb s t
  | _, _ => false
  end.

Definition row (df : DataFrame) (i : nat) : list cell :=
  map (fun '(_, s) => nth i (cells s) (Null NaN)) (columns df).

Fixpoint row_eqb (a b : list cell) : bool :=
  match a, b with
  | [], [] => true
  | x :: a', y :: b' => cell_eqb x y && row_eqb a' b'
  | _, _ => false
  end.

Definition duplicated (df : DataFrame) : list bool :=
  map (fun i => existsb (fun j => row_eqb (row df j) (row df i)) (seq 0 i))
      (seq 0 (nrows df)).

End ToyPandas.

(* ===================================================================== *)
(** ** snowflake_operations.py: the warehouse session *)
(* ===================================================================== *)

(** A table name as the f-strings build it: [schema.table], or
    [database.schema.table] once the current database has been asked for. *)
Record TableRef := mkRef {
  ref_database : option string;
  ref_schema : string;
  ref_table : string
}.

(** The MERGE statement, by its parts. *)
Record MergePlan := mkPlan {
  merge_target : TableRef;
  merge_source : TableRef;
  merge_key : string;
  merge_update : list string;
  merge_insert : list string
}.

(** What the sources send through the session.  [SaveAsTable] is
    [conn.create_dataframe(df).write.save_as_table(name, mode="overwrite")];
    the others are [conn.sql(text).collect()]. *)
Inductive Statement :=
| DescribeTable (table : TableRef)
| AlterTableAddColumn (table : TableRef) (column sql_type : string)
| SelectCurrentDatabase
| SaveAsTable (table : TableRef) (frame : DataFrame)
| MergeInto (plan : MergePlan)
| DropTableIfExists (table : TableRef).

(** The SQL text of the statements, as the sources format it (the line
    breaks and indentation of the MERGE text apart). *)
Module Sql.

Definition dquote : string := String (ascii_of_N 34) EmptyString.

Definition name (t : TableRef) : string :=
  match ref_database t with
  | Some db => db ++ "." ++ ref_schema t ++ "." ++ ref_table t
  | None => ref_schema t ++ "." ++ ref_table t
  end.

Definition source_column (col : string) : string :=
  "source." ++ dquote ++ col ++ dquote.

Definition text (s : Statement) : string :=
  match s with
  | DescribeTable t => "DESCRIBE TABLE " ++ name t
  | AlterTableAddColumn t column sql_type =>
      "ALTER TABLE " ++ name t ++ " ADD COLUMN " ++ column ++ " " ++ sql_type
  | SelectCurrentDatabase => "SELECT CURRENT_DATABASE() AS DB"
  | SaveAsTable t _ => name t
  | MergeInto p =>
      let update_set_clause :=
        PyStr.join ", "
          (map (fun col => col ++ " = " ++ source_column col) (merge_update p)) in
      let insert_columns := PyStr.join ", " (merge_insert p) in
      let insert_values := PyStr.join ", " (map source_column (merge_insert p)) in
      "MERGE INTO " ++ name (merge_target p) ++ " AS target"
      ++ " USING " ++ name (merge_source p) ++ " AS source"
      ++ " ON target." ++ merge_key p ++ " = " ++ source_column (merge_key p)
      ++ " WHEN MATCHED THEN UPDATE SET " ++ update_set_clause
      ++ " WHEN NOT MATCHED THEN INSERT (" ++ insert_columns ++ ")"
      ++ " VALUES (" ++ insert_values ++ ")"
  | DropTableIfExists t => "DROP TABLE IF EXISTS " ++ name t
  end.

End Sql.

(** What a call on the session comes back with: an exception, or the rows
    collected (each row a list of fields). *)
Inductive Reply :=
| Raised (message : string)
| Returned (rows : list (list string)).

(** A live session: the warehouse behind it and how a statement acts on it. *)
Class Session := {
  World : Type;
  execute : Statement -> World -> World * Reply
}.

(** The two upsert functions differ in these constants only. *)
Record UpsertKind := mkKind {
  table_suffix : string;
  temp_infix : string;
  key_column : string;
  data_word : string;
  data_title : string;
  records_word : string;
  warning_tail : string
}.

Definition naming_keys : UpsertKind := {|
  table_suffix := "_NAMING_KEYS";
  temp_infix := "_NAMING_KEYS_TEMP_";
  key_column := "ad_set_name";
  data_word := "naming";
  data_title := "Naming";
  records_word := "naming key";
  warning_tail :=
    "Existing rows keep old values, new rows will have NULLs for these columns."
|}.

Definition campaign_data : UpsertKind := {|
  table_suffix := "_PROCESSED_CAMPAIGN_DATA";
  temp_infix := "_CAMPAIGN_DATA_TEMP_";
  key_column := "ad_name";
  data_word := "campaign";
  data_title := "Campaign";
  records_word := "campaign data";
  warning_tail := "Existing rows keep old metrics, new rows will have NULLs."
|}.

(** The warning sign that opens the warning text, as its UTF-8 bytes. *)
Definition warning_sign : string :=
  string_of_list_ascii
    (map ascii_of_N [226; 154; 160; 239; 184; 143]%N).

(** [str(list_of_names)] for names without quotes or escapes. *)
Definition str_list (l : list string) : string :=
  "[" ++ PyStr.join ", " (map (fun c => "'" ++ c ++ "'") l) ++ "]".

Inductive Conn := LiveSession.

Inductive Outcome (A : Type) :=
| Done (a : A)
| Fault (message : string).
Arguments Done {A} a.
Arguments Fault {A} message.

Section Engine.
Context `{Session}.

(** The state a call runs in: the warehouse, the statements sent so far with
    their replies, and the DataFrame object the caller passed. *)
Record Machine := mkMachine {
  warehouse : World;
  journal : list (Statement * Reply);
  caller_df : DataFrame
}.

Definition Run (A : Type) : Type := Machine -> Machine * Outcome A.

Definition ret {A} (a : A) : Run A := fun m => (m, Done a).

Definition raise {A} (message : string) : Run A := fun m => (m, Fault message).

Definition bind {A B} (c : Run A) (k : A -> Run B) : Run B :=
  fun m =>
    match c m with
    | (m', Done a) => k a m'
    | (m', Fault e) => (m', Fault e)
    end.

(** [try: body  except Exception as e: handler(e)] *)
Definition try_except {A} (body : Run A) (handler : string -> Run A) : Run A :=
  fun m =>
    match body m with
    | (m', Done a) => (m', Done a)
    | (m', Fault e) => handler e m'
    end.

(** [try: body  finally: final] *)
Definition try_finally {A} (body : Run A) (final : Run unit) : Run A :=
  fun m =>
    match body m with
    | (m', outcome) =>
        match final m' with
        | (m'', Done _) => (m'', outcome)
        | (m'', Fault e) => (m'', Fault e)
        end
    end.

(** One call on the session, recorded in the journal. *)
Definition send (s : Statement) : Run (list (list string)) :=
  fun m =>
    let '(w, reply) := execute s (warehouse m) in
    let m' := mkMachine w (journal m ++ [(s, reply)])%list (caller_df m) in
    match reply with
    | Raised e => (m', Fault e)
    | Returned rows => (m', Done rows)
    end.

Definition read_df : Run DataFrame := fun m => (m, Done (caller_df m)).

Definition write_df (df : DataFrame) : Run unit :=
  fun m => (mkMachine (warehouse m) (journal m) df, Done tt).

End Engine.

Notation "x <- c ;; k" := (bind c (fun x => k))
  (at level 100, c at next level, right associativity, only parsing).

Section Operations.
Context `{Pandas} `{Session}.

(** [row[0]] of every row; [None] when a row has no field. *)
Fixpoint first_fields (rows : list (list string)) : option (list string) :=
  match rows with
  | [] => Some []
  | [] :: _ => None
  | (f :: _) :: rest =>
      match first_fields rest with
      | Some fs => Some (f :: fs)
      | None => None
      end
  end.

(** [get_table_columns(table_name, session)] *)
Definition get_table_columns (table_name : TableRef) : Run (gset string) :=
  try_except
    (result <- send (DescribeTable table_name) ;;
     match first_fields result with
     | Some names => ret (list_to_set (map PyStr.lower names))
     | None => raise "tuple index out of range"
     end)
    (fun _ => ret ∅).

(** [next((c for c in df.columns if c.lower() == col_name), col_name)] *)
Definition original_column (df : DataFrame) (col_name : string) : string :=
  match find (fun c => String.eqb (PyStr.lower c) col_name) (column_names df) with
  | Some c => c
  | None => col_name
  end.

(** The loop "Add each new column" of [expand_table_schema]. *)
Fixpoint add_new_columns (table_name : TableRef) (df : DataFrame)
  (new_columns : list string) (columns_added : nat) : Run nat :=
  match new_columns with
  | [] => ret columns_added
  | col_name :: rest =>
      let original_col := original_column df col_name in
      match get_column df original_col with
      | None => raise ("KeyError: " ++ original_col)
      | Some series =>
          let snowflake_type := infer_snowflake_type series in
          let alter :=
            AlterTableAddColumn table_name (PyStr.upper col_name) snowflake_type in
          columns_added <-
            try_except (_ <- send alter ;; ret (S columns_added))
                       (fun _ => ret columns_added) ;;
          add_new_columns table_name df rest columns_added
      end
  end.

Definition lower_set (names : list string) : gset string :=
  list_to_set (map PyStr.lower names).

(** [expand_table_schema(table_name, df, session, exclude_columns)] *)
Definition expand_table_schema (table_name : TableRef) (df : DataFrame)
  (exclude_columns : list string) : Run (bool * string * nat) :=
  try_except
    (existing_columns <- get_table_columns table_name ;;
     if bool_decide (existing_columns = ∅) then
       ret (false, "Could not read schema for table " ++ Sql.name table_name, O)
     else
       let df_columns := lower_set (column_names df) in
       let new_columns :=
         df_columns ∖ existing_columns ∖ lower_set exclude_columns in
       if bool_decide (new_columns = ∅) then
         ret (true, "Schema is up to date", O)
       else
         columns_added <-
           add_new_columns table_name df (elements new_columns) O ;;
         ret (true,
              "Successfully added " ++ PyStr.str_int (Z.of_nat columns_added)
              ++ " new column(s) to " ++ Sql.name table_name,
              columns_added))
    (fun e => ret (false, "Schema expansion error: " ++ e, O)).

(** [df[filtered_columns].copy()] *)
Definition select_columns (df : DataFrame) (cols : list string) : DataFrame :=
  mkFrame (nrows df)
    (omap (fun c => option_map (pair c) (get_column df c)) cols).

(** The first lines of both upsert functions: the caller's frame gets a
    wave number if it has none, and the upload timestamp. *)
Definition stamp (df : DataFrame) (wave_number : Z) (now : Z) : DataFrame :=
  let df :=
    if has_column df "wave_number" then df
    else set_column df "wave_number"
           (scalar_column df DInt (Num (inject_Z wave_number))) in
  set_column df "upload_timestamp" (scalar_column df DDatetime (Stamp now)).

Definition warning_text (kind : UpsertKind) (missing_for_upload : list string)
  : string :=
  warning_sign ++ " " ++ data_title kind ++ " data is missing "
  ++ PyStr.str_int (Z.of_nat (length missing_for_upload))
  ++ " column(s) present in Snowflake table: " ++ str_list missing_for_upload
  ++ ". " ++ warning_tail kind.

(** "Execute MERGE with error handling and guaranteed cleanup". *)
Definition merge_then_drop (plan : MergePlan) (full_temp_table : TableRef)
  : Run unit :=
  try_finally
    (try_except (_ <- send (MergeInto plan) ;; ret tt)
                (fun merge_error => raise merge_error))
    (try_except (_ <- send (DropTableIfExists full_temp_table) ;; ret tt)
                (fun _ => ret tt)).

(** From "Refresh table columns after schema expansion" to the end of the
    function body. *)
Definition write_rows (kind : UpsertKind) (df : DataFrame)
  (schema_name prefix : string) (wave_number : Z) : Run (bool * string) :=
  let table := prefix ++ table_suffix kind in
  let full_table_name_for_schema := mkRef None schema_name table in
  existing_columns <- get_table_columns full_table_name_for_schema ;;
  let filtered_columns :=
    List.filter (fun col => bool_decide (PyStr.lower col ∈ existing_columns))
                (column_names df) in
  let missing_for_upload :=
    List.filter (fun col => negb (bool_decide (PyStr.lower col ∈ existing_columns)))
                (column_names df) in
  let warning_msg :=
    match missing_for_upload with
    | [] => None
    | _ => Some (warning_text kind missing_for_upload)
    end in
  match filtered_columns with
  | [] =>
      ret (false, "No matching columns between uploaded " ++ data_word kind
                  ++ " data and table schema")
  | _ =>
      let df_filtered := select_columns df filtered_columns in
      let temp_table_unqualified :=
        prefix ++ temp_infix kind ++ PyStr.str_int wave_number in
      db_rows <- send SelectCurrentDatabase ;;
      match db_rows with
      | [] => raise "list index out of range"
      | [] :: _ => raise "tuple index out of range"
      | (current_db :: _) :: _ =>
          let full_temp_table :=
            mkRef (Some current_db) schema_name temp_table_unqualified in
          let full_table_name := mkRef (Some current_db) schema_name table in
          _ <- send (SaveAsTable full_temp_table df_filtered) ;;
          let all_columns := filtered_columns in
          let update_columns :=
            List.filter
              (fun col => negb (String.eqb (PyStr.lower col) (key_column kind)))
              all_columns in
          let plan :=
            mkPlan full_table_name full_temp_table (key_column kind)
                   update_columns all_columns in
          _ <- merge_then_drop plan full_temp_table ;;
          let result_message :=
            "Inserted/Updated " ++ PyStr.str_int (Z.of_nat (nrows df_filtered))
            ++ " " ++ records_word kind ++ " records" in
          let result_message :=
            match warning_msg with
            | Some w => result_message ++ " | " ++ w
            | None => result_message
            end in
          ret (true, result_message)
      end
  end.

(** The body shared by [populate_naming_keys_table] and
    [populate_campaign_data_table].  [conn] is the argument of that name,
    [provider] what [get_snowflake_connection()] returns, [now] the reading
    of [datetime.now()]. *)
Definition populate_table (kind : UpsertKind)
  (schema_name platform : string) (wave_number : Z)
  (conn provider : option Conn) (now : Z) : Run (bool * string) :=
  try_except
    (match (match conn with Some c => Some c | None => provider end) with
     | None => ret (false, "Failed to establish Snowflake connection")
     | Some _ =>
         df <- read_df ;;
         let df := stamp df wave_number now in
         _ <- write_df df ;;
         let prefix := PyStr.upper platform in
         let full_table_name_for_schema :=
           mkRef None schema_name (prefix ++ table_suffix kind) in
         _ <- expand_table_schema full_table_name_for_schema df
                ["upload_timestamp"] ;;
         write_rows kind df schema_name prefix wave_number
     end)
    (fun e => ret (false, "Error: " ++ e)).

Definition populate_naming_keys_table := populate_table naming_keys.

Definition populate_campaign_data_table := populate_table campaign_data.

End Operations.

(* ===================================================================== *)
(** ** An executable warehouse

    Tables are kept by database, schema and name, folded to upper case as
    unquoted identifiers are.  A table has an ordered list of column names
    and a list of rows; a row maps column names to cells, a column without an
    entry reading as NULL.  Constraints, defaults and column types are not
    kept. *)
(* ===================================================================== *)

Module Warehouse.

Record Table := mkTable {
  table_columns : list string;
  table_rows : list (gmap string cell)
}.

Record State := mkState {
  current_database : string;
  tables : gmap (string * string * string) Table
}.

Definition resolve (w : State) (t : TableRef) : string * string * string :=
  (PyStr.upper (match ref_database t with
                | Some db => db
                | None => current_database w
                end),
   PyStr.upper (ref_schema t),
   PyStr.upper (ref_table t)).

(** An identifier that may be written without quotes. *)
Definition identifier_start (c : ascii) : bool :=
  PyStr.is_lower_az c || PyStr.is_upper_az c || Ascii.eqb c "_".

Definition identifier_part (c : ascii) : bool :=
  identifier_start c || PyStr.is_digit c || Ascii.eqb c "$".

Definition valid_identifier (s : string) : bool :=
  match s with
  | EmptyString => false
  | String c r => identifier_start c && PyStr.forallb identifier_part r
  end.

Definition mem (x : string) (l : list string) : bool := existsb (String.eqb x) l.

Fixpoint distinct (l : list string) : bool :=
  match l with
  | [] => true
  | x :: r => negb (mem x r) && distinct r
  end.

(** Row [i] of a frame, keyed by the labels as written. *)
Definition frame_row (frame : DataFrame) (i : nat) : gmap string cell :=
  list_to_map
    (map (fun '(col, s) => (col, nth i (cells s) (Null NaN))) (columns frame)).

Definition frame_rows (frame : DataFrame) : list (gmap string cell) :=
  map (frame_row frame) (seq 0 (nrows frame)).

Definition field (r : gmap string cell) (col : string) : cell :=
  default (Null NaN) (r !! col).

(** SQL [=] as a join condition: never true on NULL. *)
Definition sql_eq (a b : cell) : bool :=
  match a, b with
  | Str s, Str t => String.eqb s t
  | Num p, Num q => Qeq_bool p q
  | Stamp s, Stamp t => Z.eqb s t
  | _, _ => false
  end.

(** [target.key = source."key"] *)
Definition joins (key : string) (t s : gmap string cell) : bool :=
  sql_eq (field t (PyStr.upper key)) (field s key).

Definition assign (s : gmap string cell) (t : gmap string cell) (col : string)
  : gmap string cell :=
  <[PyStr.upper col := field s col]> t.

(** WHEN MATCHED THEN UPDATE SET ... *)
Definition update_row (plan : MergePlan) (source : list (gmap string cell))
  (t : gmap string cell) : gmap string cell :=
  match List.filter (joins (merge_key plan) t) source with
  | s :: _ => fold_left (assign s) (merge_update plan) t
  | [] => t
  end.

(** WHEN NOT MATCHED THEN INSERT ... VALUES ... *)
Definition insert_row (plan : MergePlan) (s : gmap string cell)
  : gmap string cell :=
  fold_left (assign s) (merge_insert plan) ∅.

Definition unmatched (plan : MergePlan) (target : list (gmap string cell))
  (s : gmap string cell) : bool :=
  negb (existsb (fun t => joins (merge_key plan) t s) target).

(** A target row joined by more than one source row makes the statement
    fail. *)
Definition deterministic (plan : MergePlan)
  (target source : list (gmap string cell)) : bool :=
  List.forallb
    (fun t => (length (List.filter (joins (merge_key plan) t) source) <=? 1)%nat)
    target.

(** The column references of the statement resolve, and no target column is
    named twice. *)
Definition well_formed (plan : MergePlan) (target source : Table) : bool :=
  mem (merge_key plan) (table_columns source)
  && mem (PyStr.upper (merge_key plan)) (table_columns target)
  && List.forallb valid_identifier (merge_key plan :: merge_insert plan)
  && List.forallb (fun c => mem c (table_columns source)) (merge_insert plan)
  && List.forallb (fun c => mem (PyStr.upper c) (table_columns target))
       (merge_insert plan)
  && List.forallb (fun c => mem c (merge_insert plan)) (merge_update plan)
  && distinct (map PyStr.upper (merge_insert plan))
  && distinct (map PyStr.upper (merge_update plan)).

Definition merged_rows (plan : MergePlan)
  (target source : list (gmap string cell)) : list (gmap string cell) :=
  (map (update_row plan source) target
   ++ map (insert_row plan) (List.filter (unmatched plan target) source))%list.

Definition execute (s : Statement) (w : State) : State * Reply :=
  match s with
  | DescribeTable t =>
      match tables w !! resolve w t with
      | Some tb => (w, Returned (map (fun c => [c]) (table_columns tb)))
      | None => (w, Raised "Table does not exist or not authorized")
      end
  | AlterTableAddColumn t column _ =>
      match tables w !! resolve w t with
      | Some tb =>
          if negb (valid_identifier column) then
            (w, Raised "syntax error")
          else if mem (PyStr.upper column) (table_columns tb) then
            (w, Raised "column already exists")
          else
            (mkState (current_database w)
               (<[resolve w t :=
                    mkTable (table_columns tb ++ [PyStr.upper column])%list
                            (table_rows tb)]> (tables w)),
             Returned [["Statement executed successfully."]])
      | None => (w, Raised "Table does not exist or not authorized")
      end
  | SelectCurrentDatabase => (w, Returned [[current_database w]])
  | SaveAsTable t frame =>
      (mkState (current_database w)
         (<[resolve w t := mkTable (column_names frame) (frame_rows frame)]>
            (tables w)),
       Returned [])
  | MergeInto plan =>
      match tables w !! resolve w (merge_target plan),
            tables w !! resolve w (merge_source plan) with
      | Some target, Some source =>
          if well_formed plan target source
             && deterministic plan (table_rows target) (table_rows source)
          then
            (mkState (current_database w)
               (<[resolve w (merge_target plan) :=
                    mkTable (table_columns target)
                      (merged_rows plan (table_rows target) (table_rows source))]>
                  (tables w)),
             Returned [["rows merged"]])
          else (w, Raised "SQL compilation error")
      | _, _ => (w, Raised "Table does not exist or not authorized")
      end
  | DropTableIfExists t =>
      (mkState (current_database w) (delete (resolve w t) (tables w)),
       Returned [["Drop statement executed successfully."]])
  end.

End Warehouse.

#[export] Instance toy_warehouse : Session := {|
  World := Warehouse.State;
  execute := Warehouse.execute
|}.

(* ===================================================================== *)
(** * Properties *)
(* ===================================================================== *)

(** ** Name normalizer *)

Example normalize_ex1 :
  normalize_column_name (Some "  Amount Spent (USD) ") = "amount_spent_usd".
Proof. reflexivity. Qed.

Example normalize_ex2 :
  normalize_column_name (Some "CPM  -  Cost") = "cpm_cost".
Proof. reflexivity. Qed.

Example time_pattern_ex :
  map TimePattern.matches ["0:00:00"; "12:34:56"; "1:2:3"; "123:00:00"; "0:00:00 "; "5"]
  = [true; true; false; false; false; false].
Proof. reflexivity. Qed.

(** ** Type inferrer *)

Lemma above_threshold_exact (count total : nat) :
  (0 < total)%nat ->
  above_threshold (success_rate count total) = ratio_exceeds count total.
Proof.
  intros Hpos. unfold above_threshold, success_rate, ratio_exceeds.
  destruct total as [|n]; [lia|].
  set (k := Z.of_nat count).
  assert (Hk : (0 <= k)%Z) by (subst k; lia).
  destruct (Z.of_nat (S n)) as [|p|p] eqn:Hp; try lia.
  clearbody k.
  destruct (Qle_bool (inject_Z k / inject_Z (Z.pos p)) (8 # 10)) eqn:Hle; simpl.
  - apply Qle_bool_iff in Hle. unfold Qle, Qdiv, Qmult, Qinv in Hle. simpl in Hle.
    symmetry. apply Z.ltb_ge. lia.
  - symmetry. apply Z.ltb_lt.
    destruct (Z_lt_le_dec (4 * Z.pos p) (5 * k)) as [Hlt|Hge]; [exact Hlt|].
    exfalso. assert (Hq : Qle_bool (inject_Z k / inject_Z (Z.pos p)) (8 # 10) = true).
    { apply Qle_bool_iff. unfold Qle, Qdiv, Qmult, Qinv. simpl. lia. }
    congruence.
Qed.

Lemma ratio_exceeds_positive (count total : nat) :
  ratio_exceeds count total = true -> (0 < count)%nat.
Proof. unfold ratio_exceeds. intros Hr. apply Z.ltb_lt in Hr. lia. Qed.

Lemma equals_own_int_divides (q : Q) :
  equals_own_int q = true <-> (Zpos (Qden q) | Qnum q)%Z.
Proof.
  unfold equals_own_int, astype_int. rewrite Qeq_bool_iff.
  destruct q as [n d]. unfold Qeq, inject_Z. simpl. rewrite Z.mul_1_r.
  split.
  - intros Hq. exists (n ÷ Z.pos d)%Z. exact Hq.
  - intros [z Hz]. subst n. now rewrite Z.quot_mul by lia.
Qed.

Lemma zero_fractional_part_divides (q : Q) :
  zero_fractional_part q = true <-> (Zpos (Qden q) | Qnum q)%Z.
Proof.
  unfold zero_fractional_part. rewrite Qeq_bool_iff.
  destruct q as [n d]. unfold Qeq, Qminus, Qplus, Qopp, Qfloor, inject_Z. simpl.
  split.
  - intros Hq. exists (n / Z.pos d)%Z. lia.
  - intros [z Hz]. subst n. rewrite Z.div_mul by lia. lia.
Qed.

Lemma equals_own_int_fractional (q : Q) :
  equals_own_int q = zero_fractional_part q.
Proof.
  apply eq_true_iff_eq.
  now rewrite equals_own_int_divides, zero_fractional_part_divides.
Qed.

Lemma forallb_pointwise {A} (f g : A -> bool) (l : list A) :
  (forall x, f x = g x) -> List.forallb f l = List.forallb g l.
Proof. intros Hfg. induction l as [|x l IH]; simpl; [reflexivity|]. now rewrite Hfg, IH. Qed.


Section InferrerFacts.
Context `{Pandas}.

Lemma infer_object_documented (series : Series) :
  natively_typed series = false ->
  _infer_column_type series = documented_inference series.
Proof.
  intros Hnative. unfold _infer_column_type, documented_inference.
  unfold natively_typed in Hnative.
  unfold is_datetime64_any_dtype, is_integer_dtype, is_float_dtype, is_bool_dtype.
  destruct (sdtype series); try discriminate. clear Hnative.
  destruct (dropna (cells series)) as [|c present] eqn:Hpresent; [reflexivity|].
  cbv zeta.
  set (non_null := c :: present).
  assert (Hlen : (0 < length non_null)%nat) by (subst non_null; simpl; lia).
  replace (length non_null =? 0)%nat with false
    by (symmetry; apply Nat.eqb_neq; lia).
  rewrite !above_threshold_exact by exact Hlen.
  destruct (ratio_exceeds (length (somes (map to_numeric_cell non_null)))
                          (length non_null)) eqn:Hnum.
  - apply ratio_exceeds_positive in Hnum.
    replace (0 <? length (somes (map to_numeric_cell non_null)))%nat with true
      by (symmetry; apply Nat.ltb_lt; exact Hnum).
    rewrite (forallb_pointwise _ _ _ equals_own_int_fractional).
    reflexivity.
  - destruct (to_datetime non_null) as [stamps|]; [|reflexivity].
    now rewrite above_threshold_exact by exact Hlen.
Qed.



End InferrerFacts.

(** ** The executable pandas satisfies the interface *)

Module ToyPandasFacts.
Import ToyPandas.

Definition no_colon (s : string) : bool :=
  PyStr.forallb (fun c => negb (Ascii.eqb c TimePattern.colon)) s.

Lemma minutes_seconds_head (c : ascii) (r : string) :
  TimePattern.minutes_seconds (String c r) = true -> c = TimePattern.colon.
Proof.
  destruct r as [|m1 [|m2 [|c2 [|s1 [|s2 r]]]]]; simpl; try discriminate.
  intros Hm. repeat (apply andb_prop in Hm; destruct Hm as [Hm _]).
  now apply Ascii.eqb_eq.
Qed.

Lemma minutes_seconds_no_colon (s : string) :
  no_colon s = true -> TimePattern.minutes_seconds s = false.
Proof.
  intros Hn. destruct (TimePattern.minutes_seconds s) eqn:Hm; [|reflexivity].
  destruct s as [|c r]; [discriminate|].
  apply minutes_seconds_head in Hm. subst c. discriminate.
Qed.

Lemma matches_no_colon (s : string) :
  no_colon s = true -> TimePattern.matches s = false.
Proof.
  intros Hn. destruct s as [|h r]; [reflexivity|].
  unfold no_colon in Hn. simpl in Hn. apply andb_prop in Hn. destruct Hn as [_ Hr].
  simpl. rewrite (minutes_seconds_no_colon r Hr).
  destruct r as [|h2 r2]; [now rewrite andb_false_r|].
  simpl in Hr. apply andb_prop in Hr. destruct Hr as [_ Hr2].
  rewrite (minutes_seconds_no_colon r2 Hr2).
  now rewrite !andb_false_r.
Qed.

Lemma no_colon_app (a b : string) :
  no_colon (a ++ b) = no_colon a && no_colon b.
Proof.
  unfold no_colon. induction a as [|c a IH]; simpl; [reflexivity|].
  now rewrite IH, andb_assoc.
Qed.

Lemma digit_char_no_colon (n : N) :
  (n < 10)%N -> Ascii.eqb (PyStr.digit_char n) TimePattern.colon = false.
Proof.
  intros Hn. apply Ascii.eqb_neq. intros Heq.
  apply (f_equal N_of_ascii) in Heq. unfold PyStr.digit_char in Heq.
  rewrite N_ascii_embedding in Heq by lia.
  change (N_of_ascii TimePattern.colon) with 58%N in Heq. lia.
Qed.

Lemma no_colon_cons (c : ascii) (s : string) :
  no_colon (String c s) = negb (Ascii.eqb c TimePattern.colon) && no_colon s.
Proof. reflexivity. Qed.

Lemma digits_of_no_colon (fuel : nat) (n : N) (acc : string) :
  no_colon acc = true -> no_colon (PyStr.digits_of fuel n acc) = true.
Proof.
  revert n acc. induction fuel as [|fuel IH]; intros n acc Hacc; simpl; [exact Hacc|].
  assert (Hstep : no_colon (String (PyStr.digit_char (n mod 10)) acc) = true).
  { rewrite no_colon_cons, Hacc.
    now rewrite digit_char_no_colon by (apply N.mod_lt; lia). }
  destruct (n <? 10)%N; [exact Hstep|]. now apply IH.
Qed.

Lemma str_int_no_colon (z : Z) : no_colon (PyStr.str_int z) = true.
Proof.
  unfold PyStr.str_int. destruct (z <? 0)%Z.
  - rewrite no_colon_cons, digits_of_no_colon; reflexivity.
  - apply digits_of_no_colon. reflexivity.
Qed.

Lemma str_num_no_match (q : Q) : TimePattern.matches (str_num q) = false.
Proof.
  apply matches_no_colon. unfold str_num.
  destruct (Qden (Qred q) =? 1)%positive; [apply str_int_no_colon|].
  rewrite !no_colon_app, !str_int_no_colon. reflexivity.
Qed.

Lemma str_stamp_no_match (t : Z) : TimePattern.matches (str_stamp t) = false.
Proof.
  apply matches_no_colon. unfold str_stamp.
  rewrite no_colon_app, str_int_no_colon. reflexivity.
Qed.

Lemma digit_not_minus (c : ascii) :
  PyStr.is_digit c = true -> Ascii.eqb c "-" = false.
Proof.
  intros Hd. apply Ascii.eqb_neq. intros ->. discriminate.
Qed.

Lemma scan_minutes_seconds (s : string) b n d k :
  TimePattern.minutes_seconds s = true -> scan s b n d k = None.
Proof.
  intros Hm. destruct s as [|c r]; [discriminate|].
  apply minutes_seconds_head in Hm. subst c. reflexivity.
Qed.

Lemma parse_decimal_clock (s : string) :
  TimePattern.matches s = true -> parse_decimal s = None.
Proof.
  intros Hm. destruct s as [|h r]; [discriminate|].
  simpl in Hm. apply andb_prop in Hm. destruct Hm as [Hh Hrest].
  unfold parse_decimal. rewrite (digit_not_minus h Hh).
  simpl. rewrite Hh.
  apply orb_prop in Hrest. destruct Hrest as [Htwo|Hone].
  - destruct r as [|h2 r2]; [discriminate|].
    apply andb_prop in Htwo. destruct Htwo as [Hh2 Hms].
    simpl. rewrite Hh2. now apply scan_minutes_seconds.
  - now apply scan_minutes_seconds.
Qed.

Lemma duplicated_has_length (df : DataFrame) :
  length (duplicated df) = nrows df.
Proof. unfold duplicated. now rewrite length_map, length_seq. Qed.

End ToyPandasFacts.

#[export] Instance toy_pandas : Pandas := {|
  to_numeric_cell := ToyPandas.to_numeric_cell;
  to_datetime := ToyPandas.to_datetime;
  str_num := ToyPandas.str_num;
  str_stamp := ToyPandas.str_stamp;
  numeric_result_dtype := ToyPandas.numeric_result_dtype;
  duplicated := ToyPandas.duplicated;
  to_numeric_null := fun _ => eq_refl;
  to_numeric_clock := ToyPandasFacts.parse_decimal_clock;
  to_datetime_length := fun l r (E : ToyPandas.to_datetime l = Some r) =>
    match E in _ = o return match o with Some r' => length r' = length l | None => True end
    with eq_refl => length_map _ l end;
  str_num_not_clock := ToyPandasFacts.str_num_no_match;
  str_stamp_not_clock := ToyPandasFacts.str_stamp_no_match;
  numeric_result_numeric := fun l =>
    match List.forallb _ l as b
      return (if b then DInt else DFloat) = DInt \/ (if b then DInt else DFloat) = DFloat
    with true => or_introl eq_refl | false => or_intror eq_refl end;
  duplicated_length := ToyPandasFacts.duplicated_has_length
|}.

(* ===================================================================== *)
(** ** Sample tables *)
(* ===================================================================== *)

Module Samples.

(** A campaign export whose impressions column carries a clock value. *)
Definition campaign_raw : DataFrame :=
  mkFrame 2 [ ("Ad Name", mkSeries DObject [Str "a"; Str "b"]);
              ("Impressions", mkSeries DObject [Str "0:00:00"; Str "5"]) ].

Definition campaign_processed : DataFrame :=
  Eval vm_compute in
    match preprocess_campaign_data campaign_raw 1 with
    | Some r => r
    | None => campaign_raw
    end.

(** Five numerals and one clock value: read as INT, so scrubbed. *)
Definition clicks : Series :=
  mkSeries DObject [Str "1"; Str "2"; Str "3"; Str "4"; Str "5"; Str "0:00:00"].

Definition clicks_table : DataFrame := mkFrame 6 [ ("clicks", clicks) ].

(** Both key columns present, each missing where the other is filled. *)
Definition keys_table : DataFrame :=
  mkFrame 3 [ ("ad_name", mkSeries DObject [Str "X"; Str "  "; Str "Z"]);
              ("ad_set_name", mkSeries DObject [Null NaN; Str "Y"; Str "W"]) ].

Definition only_ad_name : DataFrame :=
  mkFrame 2 [ ("ad_name", mkSeries DObject [Str "X"; Str "Y"]) ].

Definition only_ad_set_name : DataFrame :=
  mkFrame 2 [ ("ad_set_name", mkSeries DObject [Str "X"; Str "Y"]) ].

(** A naming-key export with an empty audience cell. *)
Definition naming_raw : DataFrame :=
  mkFrame 1 [ ("Ad Set Name", mkSeries DObject [Str "A1"]);
              ("Audience", mkSeries DObject [Null NaN]) ].

End Samples.


(** ** Name normalizer *)

(** C4. The normalizer is not idempotent on the code as written: the first
    substitution keeps only letters, digits and spaces, so the underscores of
    a canonical name are deleted.  ["Ad Set Name!!"] does normalize to
    ["ad_set_name"], but ["ad_set_name"] normalizes to ["adsetname"]. *)
Theorem normalize_column_name_drops_underscores :
  normalize_column_name (Some "Ad Set Name!!") = "ad_set_name" /\
  normalize_column_name (Some "ad_set_name") = "adsetname" /\
  normalize_column_name (Some (normalize_column_name (Some "Ad Set Name!!")))
    <> normalize_column_name (Some "Ad Set Name!!").
Proof. repeat split. vm_compute. discriminate. Qed.

(** ** Frames *)

Lemma assoc_get_set_eq {A} (l : list (string * A)) k v :
  assoc_get (assoc_set l k v) k = Some v.
Proof.
  induction l as [|[k' v'] l IH]; simpl.
  - now rewrite String.eqb_refl.
  - destruct (String.eqb k k') eqn:E; simpl; rewrite E; [reflexivity|exact IH].
Qed.

Lemma assoc_get_set_ne {A} (l : list (string * A)) k k' v :
  k <> k' -> assoc_get (assoc_set l k v) k' = assoc_get l k'.
Proof.
  intros Hne. induction l as [|[k0 v0] l IH]; simpl.
  - destruct (String.eqb k' k) eqn:E; [|reflexivity].
    apply String.eqb_eq in E. congruence.
  - destruct (String.eqb k k0) eqn:E; simpl.
    + apply String.eqb_eq in E. subst k0.
      destruct (String.eqb k' k) eqn:E'; [|reflexivity].
      apply String.eqb_eq in E'. congruence.
    + now rewrite IH.
Qed.

Lemma assoc_set_same {A} (l : list (string * A)) k v :
  assoc_get l k = Some v -> assoc_set l k v = l.
Proof.
  induction l as [|[k' v'] l IH]; simpl; [discriminate|].
  destruct (String.eqb k k') eqn:E.
  - now intros [= ->].
  - intros Hg. now rewrite IH.
Qed.

Lemma assoc_names_set_present {A} (l : list (string * A)) k v v0 :
  assoc_get l k = Some v0 -> map fst (assoc_set l k v) = map fst l.
Proof.
  induction l as [|[k' v'] l IH]; simpl; [discriminate|].
  destruct (String.eqb k k') eqn:E; simpl; [reflexivity|].
  intros Hg. now rewrite IH.
Qed.

Lemma assoc_names_set_absent {A} (l : list (string * A)) k v :
  assoc_get l k = None -> map fst (assoc_set l k v) = (map fst l ++ [k])%list.
Proof.
  induction l as [|[k' v'] l IH]; simpl; [reflexivity|].
  destruct (String.eqb k k') eqn:E; simpl; [discriminate|].
  intros Hg. now rewrite IH.
Qed.

Lemma assoc_get_names {A} (l : list (string * A)) k :
  existsb (String.eqb k) (map fst l)
  = match assoc_get l k with Some _ => true | None => false end.
Proof.
  induction l as [|[k' v'] l IH]; simpl; [reflexivity|].
  destruct (String.eqb k k'); simpl; [reflexivity|exact IH].
Qed.

Lemma assoc_get_elem_of {A} (l : list (string * A)) k v :
  assoc_get l k = Some v -> k ∈ map fst l.
Proof.
  induction l as [|[k' v'] l IH]; simpl; [discriminate|].
  destruct (String.eqb k k') eqn:E.
  - apply String.eqb_eq in E. subst. intros _. apply elem_of_cons. now left.
  - intros Hg. apply elem_of_cons. right. now apply IH.
Qed.

Lemma assoc_get_None_iff {A} (l : list (string * A)) k :
  assoc_get l k = None <-> k ∉ map fst l.
Proof.
  induction l as [|[k' v'] l IH]; simpl.
  - split; [intros _; apply not_elem_of_nil|reflexivity].
  - rewrite not_elem_of_cons. destruct (String.eqb k k') eqn:E.
    + apply String.eqb_eq in E. subst k'. split; [discriminate|]. intros [Hn _]. congruence.
    + apply String.eqb_neq in E. rewrite IH. tauto.
Qed.

Lemma has_column_get (df : DataFrame) col :
  has_column df col
  = match get_column df col with Some _ => true | None => false end.
Proof. apply assoc_get_names. Qed.

Lemma get_set_column_eq df col s : get_column (set_column df col s) col = Some s.
Proof. apply assoc_get_set_eq. Qed.

Lemma get_set_column_ne df col col' s :
  col <> col' -> get_column (set_column df col s) col' = get_column df col'.
Proof. apply assoc_get_set_ne. Qed.

Lemma set_column_same df col s :
  get_column df col = Some s -> set_column df col s = df.
Proof.
  intros Hg. unfold set_column. rewrite assoc_set_same by exact Hg.
  now destruct df.
Qed.

Lemma names_set_column_present df col s s0 :
  get_column df col = Some s0 ->
  column_names (set_column df col s) = column_names df.
Proof. apply assoc_names_set_present. Qed.

Lemma names_set_column_absent df col s :
  get_column df col = None ->
  column_names (set_column df col s) = (column_names df ++ [col])%list.
Proof. apply assoc_names_set_absent. Qed.


(** *** Loops that rewrite one column per turn *)

Definition column_update : Type := string * (Series -> option Series).

Definition apply_update (acc : option DataFrame) (u : column_update)
  : option DataFrame :=
  match acc with
  | None => None
  | Some df =>
      match get_column df (fst u) with
      | None => Some df
      | Some series =>
          match snd u series with
          | Some converted => Some (set_column df (fst u) converted)
          | None => None
          end
      end
  end.

Lemma fold_update_None (us : list column_update) :
  fold_left apply_update us None = None.
Proof. induction us as [|u us IH]; simpl; [reflexivity|exact IH]. Qed.

Lemma fold_updates_spec (us : list column_update) : forall df df',
  NoDup (map fst us) ->
  fold_left apply_update us (Some df) = Some df' ->
  column_names df' = column_names df /\
  nrows df' = nrows df /\
  forall col,
    get_column df' col =
    match get_column df col with
    | None => None
    | Some series =>
        match assoc_get us col with
        | Some f => f series
        | None => Some series
        end
    end.
Proof.
  induction us as [|[k f] us IH]; intros df df' Hnd Hfold.
  - simpl in Hfold. injection Hfold as <-. repeat split.
    intros col. simpl. now destruct (get_column df col).
  - simpl in Hnd. apply NoDup_cons in Hnd. destruct Hnd as [Hk Hnd].
    simpl in Hfold. destruct (get_column df k) as [s|] eqn:Hget.
    + destruct (f s) as [s'|] eqn:Hf.
      * destruct (IH _ _ Hnd Hfold) as (Hnames & Hrows & Hcols).
        rewrite Hnames, Hrows.
        split; [apply (names_set_column_present _ _ _ _ Hget)|].
        split; [reflexivity|].
        intros col. rewrite Hcols. simpl.
        destruct (String.eqb col k) eqn:E.
        -- apply String.eqb_eq in E. subst col.
           rewrite get_set_column_eq, Hget.
           apply assoc_get_None_iff in Hk. now rewrite Hk.
        -- apply String.eqb_neq in E.
           rewrite get_set_column_ne by congruence. reflexivity.
      * now rewrite fold_update_None in Hfold.
    + destruct (IH _ _ Hnd Hfold) as (Hnames & Hrows & Hcols).
      split; [exact Hnames|]. split; [exact Hrows|].
      intros col. rewrite Hcols. simpl.
      destruct (String.eqb col k) eqn:E; [|reflexivity].
      apply String.eqb_eq in E. subst col. now rewrite Hget.
Qed.

Lemma assoc_get_constant {A} (names : list string) (F : A) col :
  col ∈ names -> assoc_get (map (fun c => (c, F)) names) col = Some F.
Proof.
  induction names as [|n names IH]; intros Hin.
  - now apply elem_of_nil in Hin.
  - simpl. destruct (String.eqb col n) eqn:E; [reflexivity|].
    apply String.eqb_neq in E. apply elem_of_cons in Hin.
    destruct Hin as [Heq|Hin]; [congruence|now apply IH].
Qed.

Lemma assoc_get_mapped {A B} (g : A -> B) (e : list (string * A)) col :
  assoc_get (map (fun '(c, a) => (c, g a)) e) col = option_map g (assoc_get e col).
Proof.
  induction e as [|[c a] e IH]; simpl; [reflexivity|].
  destruct (String.eqb col c); [reflexivity|exact IH].
Qed.

Lemma map_fst_constant {A} (names : list string) (F : A) :
  map fst (map (fun c => (c, F)) names) = names.
Proof. induction names as [|n names IH]; simpl; [reflexivity|now rewrite IH]. Qed.

Lemma map_fst_mapped {A B} (g : A -> B) (e : list (string * A)) :
  map fst (map (fun '(c, a) => (c, g a)) e) = map fst e.
Proof. induction e as [|[c a] e IH]; simpl; [reflexivity|now rewrite IH]. Qed.

Lemma clear_where_none (mask : list bool) (l : list cell) :
  any mask = false -> clear_where mask l = l.
Proof.
  revert l. induction mask as [|m mask IH]; intros l Hany; [now destruct l|].
  destruct l as [|c l]; [reflexivity|]. simpl in *.
  apply orb_false_elim in Hany. destruct Hany as [-> Hany].
  now rewrite IH.
Qed.

Section PipelineFacts.
Context `{Pandas}.

(** What [_clean_time_formatted_values] does to one column. *)
Definition scrubbed (series : Series) : bool :=
  negb (is_numeric_dtype series)
  && (ctype_eqb (_infer_column_type series) INT
      || ctype_eqb (_infer_column_type series) FLOAT).

Definition scrub_cell (active : bool) (c : cell) : cell :=
  if active && TimePattern.matches (astype_str_cell c) then Null PyNone else c.

Definition scrub_series (series : Series) : Series :=
  mkSeries (sdtype series) (map (scrub_cell (scrubbed series)) (cells series)).

Lemma clear_where_map (l : list cell) :
  clear_where (map (fun c => TimePattern.matches (astype_str_cell c)) l) l
  = map (scrub_cell true) l.
Proof. induction l as [|c l IH]; simpl; [reflexivity|]. now rewrite IH. Qed.

Lemma scrub_cell_inactive (l : list cell) : map (scrub_cell false) l = l.
Proof. induction l as [|c l IH]; simpl; [reflexivity|]. now rewrite IH. Qed.

Lemma clean_column_update (df : DataFrame) (col : string) :
  apply_update (Some df) (col, fun s => Some (scrub_series s))
  = Some (clean_column df col).
Proof.
  unfold apply_update, clean_column. simpl.
  destruct (get_column df col) as [series|] eqn:Hget; [|reflexivity].
  f_equal. unfold scrub_series, scrubbed.
  destruct (is_numeric_dtype series); simpl.
  { rewrite scrub_cell_inactive. apply set_column_same. now destruct series. }
  destruct (ctype_eqb (_infer_column_type series) INT
            || ctype_eqb (_infer_column_type series) FLOAT); simpl.
  - unfold time_mask. destruct (any _) eqn:Hany.
    + now rewrite clear_where_map.
    + rewrite <- clear_where_map, clear_where_none by exact Hany.
      apply set_column_same. now destruct series.
  - rewrite scrub_cell_inactive. apply set_column_same. now destruct series.
Qed.

Lemma clean_fold (names : list string) : forall df,
  fold_left apply_update
    (map (fun c => (c, fun s => Some (scrub_series s))) names) (Some df)
  = Some (fold_left clean_column names df).
Proof.
  induction names as [|n names IH]; intros df; [reflexivity|].
  cbn [map fold_left]. rewrite clean_column_update. apply IH.
Qed.

Lemma clean_spec (df : DataFrame) :
  NoDup (column_names df) ->
  column_names (_clean_time_formatted_values df) = column_names df /\
  nrows (_clean_time_formatted_values df) = nrows df /\
  forall col,
    get_column (_clean_time_formatted_values df) col
    = option_map scrub_series (get_column df col).
Proof.
  intros Hnd. unfold _clean_time_formatted_values.
  pose proof (clean_fold (column_names df) df) as Hfold.
  apply fold_updates_spec in Hfold; [|now rewrite map_fst_constant].
  destruct Hfold as (Hnames & Hrows & Hcols).
  split; [exact Hnames|]. split; [exact Hrows|].
  intros col. rewrite Hcols.
  destruct (get_column df col) as [series|] eqn:Hget; [|reflexivity].
  rewrite assoc_get_constant; [reflexivity|].
  eapply assoc_get_elem_of. exact Hget.
Qed.

End PipelineFacts.

Lemma somes_length_le {A} (l : list (option A)) : (length (somes l) <= length l)%nat.
Proof. induction l as [|[a|] l IH]; simpl; lia. Qed.

Lemma ratio_exceeds_shrink (count total total' : nat) :
  (total' <= total)%nat ->
  ratio_exceeds count total = true -> ratio_exceeds count total' = true.
Proof.
  unfold ratio_exceeds. intros Hle Hr.
  apply Z.ltb_lt in Hr. apply Z.ltb_lt. lia.
Qed.

Section ScrubFacts.
Context `{Pandas}.

Lemma clock_text_not_numeric (c : cell) :
  TimePattern.matches (astype_str_cell c) = true -> to_numeric_cell c = None.
Proof.
  destruct c as [k|s|q|t]; simpl; intros Hm.
  - apply to_numeric_null.
  - now apply to_numeric_clock.
  - now rewrite str_num_not_clock in Hm.
  - now rewrite str_stamp_not_clock in Hm.
Qed.

Lemma to_numeric_scrub_cell (active : bool) (c : cell) :
  to_numeric_cell (scrub_cell active c) = to_numeric_cell c.
Proof.
  unfold scrub_cell. destruct active; simpl; [|reflexivity].
  destruct (TimePattern.matches (astype_str_cell c)) eqn:Hm; [|reflexivity].
  now rewrite to_numeric_null, clock_text_not_numeric.
Qed.

Lemma scrub_cell_null (active : bool) (c : cell) :
  isnull c = true -> isnull (scrub_cell active c) = true.
Proof. unfold scrub_cell. now destruct (_ && _). Qed.

Lemma coerced_after_scrub (active : bool) (l : list cell) :
  somes (map to_numeric_cell (dropna (map (scrub_cell active) l)))
  = somes (map to_numeric_cell (dropna l)).
Proof.
  induction l as [|c l IH]; [reflexivity|].
  cbn [map dropna List.filter]. unfold dropna in IH.
  destruct (notna (scrub_cell active c)) eqn:Hs; destruct (notna c) eqn:Hc;
    cbn [map somes]; rewrite ?to_numeric_scrub_cell.
  - now rewrite IH.
  - unfold notna in *. apply negb_false_iff in Hc.
    now rewrite (scrub_cell_null active c Hc) in Hs.
  - assert (Hnone : to_numeric_cell c = None).
    { rewrite <- (to_numeric_scrub_cell active c).
      unfold notna in Hs. apply negb_false_iff in Hs.
      destruct (scrub_cell active c); try discriminate. apply to_numeric_null. }
    rewrite Hnone. exact IH.
  - exact IH.
Qed.

Lemma dropna_after_scrub_length (active : bool) (l : list cell) :
  (length (dropna (map (scrub_cell active) l)) <= length (dropna l))%nat.
Proof.
  induction l as [|c l IH]; [reflexivity|].
  cbn [map dropna List.filter]. unfold dropna in IH.
  destruct (notna (scrub_cell active c)) eqn:Hs; destruct (notna c) eqn:Hc;
    simpl; try lia.
  unfold notna in *. apply negb_false_iff in Hc.
  now rewrite (scrub_cell_null active c Hc) in Hs.
Qed.

(** A by-value column read as numeric: the verdict and its reason. *)
Lemma infer_object_numeric (series : Series) :
  sdtype series = DObject ->
  _infer_column_type series = INT \/ _infer_column_type series = FLOAT ->
  let present := dropna (cells series) in
  let coerced := somes (map to_numeric_cell present) in
  ratio_exceeds (length coerced) (length present) = true /\
  _infer_column_type series
  = if List.forallb zero_fractional_part coerced then INT else FLOAT.
Proof.
  intros Hd Hnum.
  assert (Hnative : natively_typed series = false)
    by (unfold natively_typed; now rewrite Hd).
  rewrite (infer_object_documented series Hnative) in *.
  unfold documented_inference in *. revert Hnum. cbv zeta.
  destruct (dropna (cells series)) as [|c present] eqn:Hp.
  { intros [|]; discriminate. }
  destruct (ratio_exceeds _ _) eqn:Hr; [now split|].
  destruct (to_datetime (c :: present)) as [stamps|].
  - destruct (ratio_exceeds (length (somes stamps)) _); intros [|]; discriminate.
  - intros [|]; discriminate.
Qed.

Lemma numeric_object_inference (series : Series) :
  sdtype series = DObject ->
  let present := dropna (cells series) in
  let coerced := somes (map to_numeric_cell present) in
  ratio_exceeds (length coerced) (length present) = true ->
  _infer_column_type series
  = if List.forallb zero_fractional_part coerced then INT else FLOAT.
Proof.
  intros Hd present coerced Hr.
  assert (Hnative : natively_typed series = false)
    by (unfold natively_typed; now rewrite Hd).
  rewrite (infer_object_documented series Hnative).
  unfold documented_inference. fold present.
  destruct present as [|c rest] eqn:Hp.
  { subst coerced. simpl in Hr. discriminate. }
  fold coerced. now rewrite Hr.
Qed.

(** Scrubbing does not change a numeric verdict. *)
Lemma infer_after_scrub (series : Series) :
  _infer_column_type series = INT \/ _infer_column_type series = FLOAT ->
  _infer_column_type (scrub_series series) = _infer_column_type series.
Proof.
  intros Hnum. destruct (sdtype series) eqn:Hd.
  2-5: (unfold _infer_column_type, is_datetime64_any_dtype, is_integer_dtype,
          is_float_dtype, is_bool_dtype; simpl; now rewrite Hd).
  destruct (infer_object_numeric series Hd Hnum) as [Hr Hv].
  rewrite Hv.
  assert (Hd' : sdtype (scrub_series series) = DObject) by exact Hd.
  rewrite (numeric_object_inference _ Hd'); simpl.
  - now rewrite coerced_after_scrub.
  - rewrite coerced_after_scrub.
    eapply ratio_exceeds_shrink; [apply dropna_after_scrub_length|exact Hr].
Qed.

End ScrubFacts.

Lemma elem_of_List_filter {A} (p : A -> bool) (l : list A) (x : A) :
  x ∈ List.filter p l <-> x ∈ l /\ p x = true.
Proof. rewrite !list_elem_of_In. apply filter_In. Qed.



Section StepFacts.
Context `{Pandas}.

Lemma assign_wave_other df w col :
  col <> "wave_number" ->
  get_column (assign_wave_number df w) col = get_column df col.
Proof. intros Hne. apply get_set_column_ne. congruence. Qed.


Lemma fill_from_other df target source col :
  col <> target ->
  get_column (fill_from df target source) col = get_column df col.
Proof.
  intros Hne. unfold fill_from.
  destruct (get_column df target) as [t|]; [|reflexivity].
  destruct (get_column df source) as [s|]; [|reflexivity].
  destruct (any (null_mask t)); [|reflexivity].
  apply get_set_column_ne. congruence.
Qed.

Lemma fill_from_names df target source :
  column_names (fill_from df target source) = column_names df.
Proof.
  unfold fill_from.
  destruct (get_column df target) as [t|] eqn:Ht; [|reflexivity].
  destruct (get_column df source) as [s|]; [|reflexivity].
  destruct (any (null_mask t)); [|reflexivity].
  eapply names_set_column_present. exact Ht.
Qed.

Lemma reconcile_other df col :
  col <> "ad_name" -> col <> "ad_set_name" ->
  get_column (reconcile_keys df) col = get_column df col.
Proof.
  intros H1 H2. unfold reconcile_keys.
  destruct (negb (has_column df "ad_name") && has_column df "ad_set_name").
  { destruct (get_column df "ad_set_name"); [|reflexivity].
    apply get_set_column_ne. congruence. }
  destruct (has_column df "ad_name" && negb (has_column df "ad_set_name")).
  { destruct (get_column df "ad_name"); [|reflexivity].
    apply get_set_column_ne. congruence. }
  destruct (has_column df "ad_name" && has_column df "ad_set_name"); [|reflexivity].
  now rewrite !fill_from_other.
Qed.


Lemma add_missing_column_present df entry col s :
  get_column df col = Some s ->
  get_column (add_missing_column df entry) col = Some s.
Proof.
  intros Hget. destruct entry as [c ty]. unfold add_missing_column.
  rewrite has_column_get.
  destruct (get_column df c) eqn:Hc; [exact Hget|].
  assert (Hne : c <> col) by congruence.
  destruct ty; now rewrite get_set_column_ne.
Qed.


Lemma add_missing_column_rows df entry :
  nrows (add_missing_column df entry) = nrows df.
Proof.
  destruct entry as [c ty]. unfold add_missing_column.
  destruct (has_column df c); [reflexivity|]. now destruct ty.
Qed.

Lemma add_missing_present (expected : list (string * ctype)) : forall df col s,
  get_column df col = Some s ->
  get_column (add_missing_columns expected df) col = Some s.
Proof.
  induction expected as [|entry expected IH]; intros df col s Hget; [exact Hget|].
  simpl. apply IH. now apply add_missing_column_present.
Qed.


Lemma add_missing_rows (expected : list (string * ctype)) : forall df,
  nrows (add_missing_columns expected df) = nrows df.
Proof.
  induction expected as [|entry expected IH]; intros df; [reflexivity|].
  simpl. rewrite IH. apply add_missing_column_rows.
Qed.

Lemma convert_expected_as_updates (expected : list (string * ctype)) : forall acc,
  fold_left convert_expected_column expected acc
  = fold_left apply_update
      (map (fun '(c, ty) => (c, convert_series ty)) expected) acc.
Proof.
  induction expected as [|[c ty] expected IH]; intros acc; [reflexivity|].
  simpl. rewrite IH. reflexivity.
Qed.

Lemma convert_expected_spec (expected : list (string * ctype)) df df' :
  NoDup (map fst expected) ->
  convert_expected_columns expected df = Some df' ->
  column_names df' = column_names df /\
  nrows df' = nrows df /\
  forall col,
    get_column df' col =
    match get_column df col with
    | None => None
    | Some series =>
        match assoc_get expected col with
        | Some ty => convert_series ty series
        | None => Some series
        end
    end.
Proof.
  intros Hnd Hconv. unfold convert_expected_columns in Hconv.
  rewrite convert_expected_as_updates in Hconv.
  apply fold_updates_spec in Hconv; [|now rewrite map_fst_mapped].
  destruct Hconv as (Hnames & Hrows & Hcols).
  split; [exact Hnames|]. split; [exact Hrows|].
  intros col. rewrite Hcols, assoc_get_mapped.
  destruct (get_column df col); [|reflexivity].
  now destruct (assoc_get expected col).
Qed.

Lemma convert_new_as_updates (cols : list string) : forall acc,
  fold_left convert_new_column cols acc
  = fold_left apply_update
      (map (fun c => (c, fun s => convert_series (_infer_column_type s) s)) cols)
      acc.
Proof.
  induction cols as [|c cols IH]; intros acc; [reflexivity|].
  simpl. rewrite IH. reflexivity.
Qed.


End StepFacts.


Lemma assoc_get_map_values {A B} (g : A -> B) (l : list (string * A)) k :
  assoc_get (map (fun '(c, a) => (c, g a)) l) k = option_map g (assoc_get l k).
Proof. apply assoc_get_mapped. Qed.

Lemma in_schema_assoc_get (expected : list (string * ctype)) col :
  in_schema expected col
  = match assoc_get expected col with Some _ => true | None => false end.
Proof. apply assoc_get_names. Qed.

Lemma expected_campaign_NoDup : NoDup (map fst expected_campaign_columns).
Proof. apply (bool_decide_unpack _). vm_compute. reflexivity. Qed.

Lemma expected_naming_NoDup : NoDup (map fst expected_naming_columns).
Proof. apply (bool_decide_unpack _). vm_compute. reflexivity. Qed.

(** ** Anomaly scrubber *)

Section ScrubberClaims.
Context `{Pandas}.


Lemma drop_duplicates_column (df : DataFrame) (col : string) :
  get_column (drop_duplicates df) col
  = option_map
      (fun s => mkSeries (sdtype s) (select (map negb (duplicated df)) (cells s)))
      (get_column df col).
Proof.
  unfold drop_duplicates, get_column. simpl.
  apply (assoc_get_map_values
           (fun s => mkSeries (sdtype s) (select (map negb (duplicated df)) (cells s)))).
Qed.



Lemma preprocess_campaign_steps_unfold raw wave :
  preprocess_campaign_steps raw wave
  = match convert_expected_columns expected_campaign_columns
            (add_missing_columns expected_campaign_columns
               (reconcile_keys
                  (assign_wave_number
                     (_clean_time_formatted_values (normalize_columns raw)) wave)))
    with
    | None => None
    | Some processed_df => _process_new_columns processed_df
    end.
Proof. reflexivity. Qed.

Lemma campaign_steps_split raw wave out :
  preprocess_campaign_steps raw wave = Some out ->
  exists df6,
    convert_expected_columns expected_campaign_columns
      (add_missing_columns expected_campaign_columns
         (reconcile_keys
            (assign_wave_number
               (_clean_time_formatted_values (normalize_columns raw)) wave)))
    = Some df6 /\
    _process_new_columns df6 = Some out.
Proof.
  intros Hsteps. rewrite preprocess_campaign_steps_unfold in Hsteps.
  destruct (convert_expected_columns _ _) as [df6|] eqn:Hconv; [|discriminate].
  exists df6. split; [reflexivity|exact Hsteps].
Qed.








Lemma campaign_data_split raw wave result :
  preprocess_campaign_data raw wave = Some result ->
  exists out,
    preprocess_campaign_steps raw wave = Some out /\ result = drop_duplicates out.
Proof.
  unfold preprocess_campaign_data.
  destruct (preprocess_campaign_steps raw wave) as [out|]; [|discriminate].
  intros [= <-]. now exists out.
Qed.

Lemma drop_duplicates_keeps_column out col final :
  get_column out col = Some final ->
  get_column (drop_duplicates out) col
  = Some (mkSeries (sdtype final)
            (select (map negb (duplicated out)) (cells final))).
Proof. intros Hout. rewrite drop_duplicates_column, Hout. reflexivity. Qed.


End ScrubberClaims.


(** ** Key reconciliation *)

Lemma fill_where_lookup (p : cell -> bool) (target : list cell) :
  forall (source : list cell) (i : nat) (x y : cell),
    target !! i = Some x -> source !! i = Some y ->
    fill_where (map p target) target source !! i = Some (if p x then y else x).
Proof.
  induction target as [|t target IH]; intros source i x y Hx Hy.
  - destruct i; discriminate.
  - destruct source as [|s source]; [destruct i; discriminate|].
    destruct i as [|i]; simpl in *.
    + injection Hx as ->. injection Hy as ->. reflexivity.
    + now apply IH.
Qed.

Lemma fill_where_none (mask : list bool) : forall (target source : list cell),
  any mask = false -> fill_where mask target source = target.
Proof.
  induction mask as [|m mask IH]; intros target source Hany; [reflexivity|].
  destruct target as [|t target]; [reflexivity|].
  destruct source as [|s source]; [reflexivity|].
  simpl in *. apply orb_false_elim in Hany. destruct Hany as [-> Hany].
  now rewrite IH.
Qed.

Section ReconcileFacts.
Context `{Pandas}.

Lemma fill_from_target df target source t s :
  get_column df target = Some t ->
  get_column df source = Some s ->
  exists t',
    get_column (fill_from df target source) target = Some t' /\
    cells t' = fill_where (null_mask t) (cells t) (cells s).
Proof.
  intros Ht Hs. unfold fill_from. rewrite Ht, Hs.
  destruct (any (null_mask t)) eqn:Hany.
  - eexists. split; [apply get_set_column_eq|reflexivity].
  - exists t. split; [exact Ht|]. now rewrite fill_where_none.
Qed.

Lemma reconcile_both_present df a b :
  get_column df "ad_name" = Some a ->
  get_column df "ad_set_name" = Some b ->
  reconcile_keys df
  = fill_from (fill_from df "ad_name" "ad_set_name") "ad_set_name" "ad_name".
Proof.
  intros Ha Hb. unfold reconcile_keys.
  rewrite !has_column_get, Ha, Hb. reflexivity.
Qed.

Lemma reconcile_rows df a b i x y :
  get_column df "ad_name" = Some a ->
  get_column df "ad_set_name" = Some b ->
  cells a !! i = Some x ->
  cells b !! i = Some y ->
  exists a' b',
    get_column (reconcile_keys df) "ad_name" = Some a' /\
    get_column (reconcile_keys df) "ad_set_name" = Some b' /\
    cells a' !! i = Some (if null_or_blank x then y else x) /\
    cells b' !! i
    = Some (if null_or_blank y
            then (if null_or_blank x then y else x) else y).
Proof.
  intros Ha Hb Hx Hy. rewrite (reconcile_both_present df a b Ha Hb).
  destruct (fill_from_target df "ad_name" "ad_set_name" a b Ha Hb)
    as (a' & Ha' & Hcells_a).
  assert (Hb1 : get_column (fill_from df "ad_name" "ad_set_name") "ad_set_name"
                = Some b) by (rewrite fill_from_other; [exact Hb|discriminate]).
  destruct (fill_from_target _ "ad_set_name" "ad_name" b a' Hb1 Ha')
    as (b' & Hb' & Hcells_b).
  assert (Hxa : cells a' !! i = Some (if null_or_blank x then y else x)).
  { rewrite Hcells_a. unfold null_mask. now apply fill_where_lookup. }
  exists a', b'. split.
  { rewrite fill_from_other; [exact Ha'|discriminate]. }
  split; [exact Hb'|]. split; [exact Hxa|].
  rewrite Hcells_b. unfold null_mask. now apply fill_where_lookup.
Qed.

(** C6. Key reconciliation.  When only [ad_set_name] is present, [ad_name]
    becomes a copy of it, and the other way round.  When both are present,
    a row whose [ad_name] is null or blank and whose [ad_set_name] is
    populated takes the [ad_set_name] value in both columns, and a row whose
    [ad_set_name] is null or blank and whose [ad_name] is populated takes the
    [ad_name] value in both. *)
Theorem key_reconciliation (df : DataFrame) :
  (forall s,
     get_column df "ad_name" = None ->
     get_column df "ad_set_name" = Some s ->
     get_column (reconcile_keys df) "ad_name" = Some s /\
     get_column (reconcile_keys df) "ad_set_name" = Some s)
  /\
  (forall s,
     get_column df "ad_name" = Some s ->
     get_column df "ad_set_name" = None ->
     get_column (reconcile_keys df) "ad_name" = Some s /\
     get_column (reconcile_keys df) "ad_set_name" = Some s)
  /\
  (forall a b i x y,
     get_column df "ad_name" = Some a ->
     get_column df "ad_set_name" = Some b ->
     cells a !! i = Some x ->
     cells b !! i = Some y ->
     exists a' b',
       get_column (reconcile_keys df) "ad_name" = Some a' /\
       get_column (reconcile_keys df) "ad_set_name" = Some b' /\
       (null_or_blank x = true -> null_or_blank y = false ->
        cells a' !! i = Some y /\ cells b' !! i = Some y) /\
       (null_or_blank x = false -> null_or_blank y = true ->
        cells a' !! i = Some x /\ cells b' !! i = Some x)).
Proof.
  split; [|split].
  - intros s Ha Hs. unfold reconcile_keys.
    rewrite !has_column_get, Ha, Hs. cbn [negb andb].
    split; [apply get_set_column_eq|].
    rewrite get_set_column_ne; [exact Hs|discriminate].
  - intros s Ha Hs. unfold reconcile_keys.
    rewrite !has_column_get, Ha, Hs. cbn [negb andb].
    split; [|apply get_set_column_eq].
    rewrite get_set_column_ne; [exact Ha|discriminate].
  - intros a b i x y Ha Hb Hx Hy.
    destruct (reconcile_rows df a b i x y Ha Hb Hx Hy)
      as (a' & b' & Ha' & Hb' & Hxa & Hyb).
    exists a', b'. split; [exact Ha'|]. split; [exact Hb'|]. split.
    + intros Bx By. rewrite Bx in *. rewrite By in *. now split.
    + intros Bx By. rewrite Bx in *. rewrite By in *. now split.
Qed.

End ReconcileFacts.

Lemma key_reconciliation_witness :
  (get_column (reconcile_keys Samples.only_ad_set_name) "ad_name"
   = Some (mkSeries DObject [Str "X"; Str "Y"])) /\
  (get_column (reconcile_keys Samples.only_ad_name) "ad_set_name"
   = Some (mkSeries DObject [Str "X"; Str "Y"])) /\
  (exists a' b',
     get_column (reconcile_keys Samples.keys_table) "ad_name" = Some a' /\
     get_column (reconcile_keys Samples.keys_table) "ad_set_name" = Some b' /\
     cells a' !! 1%nat = Some (Str "Y") /\ cells b' !! 1%nat = Some (Str "Y")) /\
  (exists a' b',
     get_column (reconcile_keys Samples.keys_table) "ad_name" = Some a' /\
     get_column (reconcile_keys Samples.keys_table) "ad_set_name" = Some b' /\
     cells a' !! 0%nat = Some (Str "X") /\ cells b' !! 0%nat = Some (Str "X")).
Proof.
  split; [|split; [|split]].
  - apply (proj1 (@key_reconciliation toy_pandas Samples.only_ad_set_name));
      reflexivity.
  - apply (proj1 (proj2 (@key_reconciliation toy_pandas Samples.only_ad_name)));
      reflexivity.
  - destruct (proj2 (proj2 (@key_reconciliation toy_pandas Samples.keys_table))
                (mkSeries DObject [Str "X"; Str "  "; Str "Z"])
                (mkSeries DObject [Null NaN; Str "Y"; Str "W"])
                1%nat (Str "  ") (Str "Y")
                eq_refl eq_refl eq_refl eq_refl)
      as (a' & b' & Ha & Hb & Hfill & _).
    exists a', b'. split; [exact Ha|]. split; [exact Hb|].
    apply Hfill; reflexivity.
  - destruct (proj2 (proj2 (@key_reconciliation toy_pandas Samples.keys_table))
                (mkSeries DObject [Str "X"; Str "  "; Str "Z"])
                (mkSeries DObject [Null NaN; Str "Y"; Str "W"])
                0%nat (Str "X") (Null NaN)
                eq_refl eq_refl eq_refl eq_refl)
      as (a' & b' & Ha & Hb & _ & Hfill).
    exists a', b'. split; [exact Ha|]. split; [exact Hb|].
    apply Hfill; reflexivity.
Defined.

(** ** String coercion *)

(** C7. On the code as written, STRING coercion does not render a null cell
    as the empty string: [astype(str)] first turns the missing marker into
    its printed name, after which [fillna('')] finds nothing to fill.  An
    empty audience cell of a naming-key export, and an empty campaign name of
    a campaign export, come out as the text ["nan"]. *)
Theorem string_coercion_prints_missing_marker :
  option_map (fun r => get_column r "audience")
    (preprocess_naming_data Samples.naming_raw 1)
  = Some (Some (mkSeries DObject [Str "nan"]))
  /\
  option_map (fun r => get_column r "campaign_name")
    (preprocess_campaign_data
       (mkFrame 1 [ ("Ad Name", mkSeries DObject [Str "a"]);
                    ("Campaign Name", mkSeries DObject [Null NaN]) ]) 1)
  = Some (Some (mkSeries DObject [Str "nan"])).
Proof. split; vm_compute; reflexivity. Qed.

(** ** The session engine *)

Definition returned (e : Statement * Reply) : bool :=
  match snd e with Returned _ => true | Raised _ => false end.

Definition count_returned (entries : list (Statement * Reply)) : nat :=
  length (List.filter returned entries).

(** The column set [get_table_columns] makes of a reply to DESCRIBE. *)
Definition described (r : Reply) : gset string :=
  match r with
  | Returned rows =>
      match first_fields rows with
      | Some names => lower_set names
      | None => ∅
      end
  | Raised _ => ∅
  end.

Section EngineFacts.
Context `{Pandas} `{Session}.

Lemma send_run (s : Statement) (m : Machine) w r :
  execute s (warehouse m) = (w, r) ->
  send s m
  = (mkMachine w (journal m ++ [(s, r)])%list (caller_df m),
     match r with Raised e => Fault e | Returned rows => Done rows end).
Proof. intros He. unfold send. rewrite He. now destruct r. Qed.

Lemma get_table_columns_run (t : TableRef) (m : Machine) w r :
  execute (DescribeTable t) (warehouse m) = (w, r) ->
  get_table_columns t m
  = (mkMachine w (journal m ++ [(DescribeTable t, r)])%list (caller_df m),
     Done (described r)).
Proof.
  intros He. unfold get_table_columns, try_except, bind.
  rewrite (send_run _ _ _ _ He).
  destruct r as [e|rows]; [reflexivity|].
  unfold described. now destruct (first_fields rows).
Qed.

Lemma add_new_columns_run (t : TableRef) (df : DataFrame) (cols : list string) :
  forall (n : nat) (m : Machine),
  (forall c, c ∈ cols -> is_Some (get_column df (original_column df c))) ->
  exists w entries,
    add_new_columns t df cols n m
    = (mkMachine w (journal m ++ entries)%list (caller_df m),
       Done (n + count_returned entries)%nat) /\
    Forall2 (fun c e => exists ty,
               fst e = AlterTableAddColumn t (PyStr.upper c) ty) cols entries.
Proof.
  induction cols as [|c cols IH]; intros n m Hcols.
  - exists (warehouse m), []. split; [|constructor].
    simpl. unfold ret. rewrite app_nil_r, Nat.add_0_r. now destruct m.
  - destruct (Hcols c) as [series Hseries]; [apply elem_of_cons; now left|].
    cbn [add_new_columns]. rewrite Hseries.
    set (alter := AlterTableAddColumn t (PyStr.upper c) (infer_snowflake_type series)).
    destruct (execute alter (warehouse m)) as [w1 r1] eqn:He.
    unfold bind at 1. unfold try_except, bind.
    rewrite (send_run _ _ _ _ He).
    set (m1 := mkMachine w1 (journal m ++ [(alter, r1)])%list (caller_df m)).
    assert (Hrest : forall c', c' ∈ cols ->
                     is_Some (get_column df (original_column df c'))).
    { intros c' Hc'. apply Hcols. apply elem_of_cons. now right. }
    destruct r1 as [e|rows].
    + destruct (IH n m1 Hrest) as (w & entries & Hrun & Hshape).
      exists w, ((alter, Raised e) :: entries). split.
      * unfold ret. rewrite Hrun. subst m1. simpl.
        now rewrite <- app_assoc.
      * constructor; [now exists (infer_snowflake_type series)|exact Hshape].
    + destruct (IH (S n) m1 Hrest) as (w & entries & Hrun & Hshape).
      exists w, ((alter, Returned rows) :: entries). split.
      * unfold ret. rewrite Hrun. subst m1. simpl.
        rewrite <- app_assoc. unfold count_returned. simpl.
        now rewrite Nat.add_succ_r.
      * constructor; [now exists (infer_snowflake_type series)|exact Hshape].
Qed.

Lemma original_column_present (df : DataFrame) (c : string) :
  c ∈ lower_set (column_names df) ->
  is_Some (get_column df (original_column df c)).
Proof.
  unfold lower_set. rewrite elem_of_list_to_set. intros Hc.
  apply list_elem_of_In, in_map_iff in Hc. destruct Hc as (n & Hn & Hin).
  unfold original_column.
  destruct (find _ (column_names df)) as [c'|] eqn:Hfind.
  - apply find_some in Hfind. destruct Hfind as [Hin' _].
    destruct (get_column df c') eqn:Hget; [eauto|].
    apply assoc_get_None_iff in Hget. exfalso. apply Hget.
    now apply list_elem_of_In.
  - exfalso. apply (find_none _ _ Hfind) in Hin.
    apply String.eqb_neq in Hin. congruence.
Qed.

Lemma expand_run (t : TableRef) (df : DataFrame) (exclude : list string)
  (m : Machine) w1 r :
  execute (DescribeTable t) (warehouse m) = (w1, r) ->
  (described r = ∅ ->
   expand_table_schema t df exclude m
   = (mkMachine w1 (journal m ++ [(DescribeTable t, r)])%list (caller_df m),
      Done (false, "Could not read schema for table " ++ Sql.name t, O)))
  /\
  (described r <> ∅ ->
   exists w entries message,
     expand_table_schema t df exclude m
     = (mkMachine w (journal m ++ (DescribeTable t, r) :: entries)%list
          (caller_df m),
        Done (true, message, count_returned entries)) /\
     Forall2 (fun c e => exists ty,
                fst e = AlterTableAddColumn t (PyStr.upper c) ty)
       (elements (lower_set (column_names df) ∖ described r ∖ lower_set exclude))
       entries).
Proof.
  intros He. split; intros Hd.
  - unfold expand_table_schema, try_except. unfold bind at 1.
    rewrite (get_table_columns_run _ _ _ _ He).
    now rewrite bool_decide_eq_true_2.
  - unfold expand_table_schema, try_except. unfold bind at 1.
    rewrite (get_table_columns_run _ _ _ _ He).
    rewrite bool_decide_eq_false_2 by exact Hd.
    set (new := lower_set (column_names df) ∖ described r ∖ lower_set exclude).
    destruct (bool_decide (new = ∅)) eqn:Hnew.
    + apply bool_decide_eq_true in Hnew.
      exists w1, [], "Schema is up to date". split.
      * reflexivity.
      * rewrite Hnew, elements_empty. constructor.
    + set (m1 := mkMachine w1 (journal m ++ [(DescribeTable t, r)])%list (caller_df m)).
      destruct (add_new_columns_run t df (elements new) O m1)
        as (w & entries & Hrun & Hshape).
      { intros c Hc. apply original_column_present.
        apply elem_of_elements in Hc. subst new.
        apply elem_of_difference in Hc. destruct Hc as [Hc _].
        apply elem_of_difference in Hc. now destruct Hc as [Hc _]. }
      exists w, entries. eexists. split; [|exact Hshape].
      unfold bind, ret. rewrite Hrun. subst m1. simpl.
      now rewrite <- app_assoc.
Qed.

End EngineFacts.

(** ** Schema expander *)

Section ExpanderClaims.
Context `{Pandas} `{Session}.


End ExpanderClaims.

(** ** Upsert: shape of a run *)

Definition schema_only (e : Statement * Reply) : Prop :=
  match fst e with
  | DescribeTable _ | AlterTableAddColumn _ _ _ => True
  | _ => False
  end.

(** The staging write went through. *)
Definition staged (e : Statement * Reply) : bool :=
  match e with
  | (SaveAsTable _ _, Returned _) => true
  | _ => false
  end.

Section UpsertShape.
Context `{Pandas} `{Session}.

Lemma alters_schema_only (t : TableRef) (cols : list string)
  (entries : list (Statement * Reply)) :
  Forall2 (fun c e => exists ty,
             fst e = AlterTableAddColumn t (PyStr.upper c) ty) cols entries ->
  Forall schema_only entries.
Proof.
  induction 1 as [|c e cols entries [ty Hty] _ IH]; constructor; [|exact IH].
  unfold schema_only. now rewrite Hty.
Qed.

Lemma expand_total (t : TableRef) (df : DataFrame) (exclude : list string)
  (m : Machine) :
  exists w entries res,
    expand_table_schema t df exclude m
    = (mkMachine w (journal m ++ entries)%list (caller_df m), Done res) /\
    Forall schema_only entries.
Proof.
  destruct (execute (DescribeTable t) (warehouse m)) as [w1 r] eqn:He.
  destruct (expand_run t df exclude m w1 r He) as [Hfail Hok].
  destruct (decide (described r = ∅)) as [Hd|Hd].
  - exists w1, [(DescribeTable t, r)]. eexists. split; [exact (Hfail Hd)|].
    repeat constructor.
  - destruct (Hok Hd) as (w & entries & message & Hrun & Hshape).
    exists w, ((DescribeTable t, r) :: entries). eexists.
    split; [exact Hrun|]. constructor; [exact I|].
    eapply alters_schema_only. exact Hshape.
Qed.

Lemma merge_then_drop_run (plan : MergePlan) (temp : TableRef) (m : Machine)
  w1 r1 w2 r2 :
  execute (MergeInto plan) (warehouse m) = (w1, r1) ->
  execute (DropTableIfExists temp) w1 = (w2, r2) ->
  merge_then_drop plan temp m
  = (mkMachine w2
       (journal m ++ [(MergeInto plan, r1); (DropTableIfExists temp, r2)])%list
       (caller_df m),
     match r1 with Returned _ => Done tt | Raised e => Fault e end).
Proof.
  intros He1 He2. unfold merge_then_drop, try_finally, try_except, bind.
  rewrite (send_run _ _ _ _ He1).
  assert (Hdrop : forall o : Outcome unit,
            (let '(m', outcome) :=
               (mkMachine w1 (journal m ++ [(MergeInto plan, r1)])%list (caller_df m), o) in
             match
               match send (DropTableIfExists temp) m' with
               | (m'0, Done a) => ret tt m'0
               | (m'0, Fault e) => (m'0, Fault e)
               end
             with
             | (m'0, Done a) => (m'0, Done a)
             | (m'0, Fault _) => ret tt m'0
             end
             = (mkMachine w2
                  (journal m ++ [(MergeInto plan, r1); (DropTableIfExists temp, r2)])%list
                  (caller_df m), Done tt))).
  { intros o. cbv zeta iota beta.
    rewrite (send_run (DropTableIfExists temp) (mkMachine w1 _ _) w2 r2 He2).
    cbn [journal caller_df warehouse]. rewrite <- app_assoc.
    now destruct r2. }
  destruct r1 as [e|rows]; cbv beta iota.
  - unfold raise. specialize (Hdrop (Fault e)). cbv zeta iota beta in Hdrop.
    now rewrite Hdrop.
  - unfold ret at 1. specialize (Hdrop (Done tt)). cbv zeta iota beta in Hdrop.
    now rewrite Hdrop.
Qed.

End UpsertShape.

(** The parts of a write, named as in the source. *)
Definition filtered_columns (existing : gset string) (df : DataFrame)
  : list string :=
  List.filter (fun col => bool_decide (PyStr.lower col ∈ existing))
              (column_names df).

Definition missing_for_upload (existing : gset string) (df : DataFrame)
  : list string :=
  List.filter (fun col => negb (bool_decide (PyStr.lower col ∈ existing)))
              (column_names df).

Definition temp_table (kind : UpsertKind) (schema_name prefix : string)
  (wave_number : Z) (current_db : string) : TableRef :=
  mkRef (Some current_db) schema_name
        (prefix ++ temp_infix kind ++ PyStr.str_int wave_number).

Definition merge_plan (kind : UpsertKind) (schema_name prefix : string)
  (wave_number : Z) (current_db : string) (filtered : list string) : MergePlan :=
  mkPlan (mkRef (Some current_db) schema_name (prefix ++ table_suffix kind))
         (temp_table kind schema_name prefix wave_number current_db)
         (key_column kind)
         (List.filter
            (fun col => negb (String.eqb (PyStr.lower col) (key_column kind)))
            filtered)
         filtered.

Definition no_match_message (kind : UpsertKind) : string :=
  "No matching columns between uploaded " ++ data_word kind
  ++ " data and table schema".

Definition success_message (kind : UpsertKind) (df : DataFrame)
  (existing : gset string) : string :=
  let base :=
    "Inserted/Updated "
    ++ PyStr.str_int (Z.of_nat (nrows (select_columns df (filtered_columns existing df))))
    ++ " " ++ records_word kind ++ " records" in
  match missing_for_upload existing df with
  | [] => base
  | missing => base ++ " | " ++ warning_text kind missing
  end.

(** The ways [write_rows] can go after its DESCRIBE, by what it sent and
    what it returns. *)
Inductive WriteShape (kind : UpsertKind) (df : DataFrame)
  (schema_name prefix : string) (wave_number : Z) (existing : gset string)
  : list (Statement * Reply) -> Outcome (bool * string) -> Prop :=
| shape_no_match :
    filtered_columns existing df = [] ->
    WriteShape kind df schema_name prefix wave_number existing
      [] (Done (false, no_match_message kind))
| shape_no_database r e :
    filtered_columns existing df <> [] ->
    WriteShape kind df schema_name prefix wave_number existing
      [(SelectCurrentDatabase, r)] (Fault e)
| shape_not_staged r db e :
    filtered_columns existing df <> [] ->
    WriteShape kind df schema_name prefix wave_number existing
      [(SelectCurrentDatabase, r);
       (SaveAsTable (temp_table kind schema_name prefix wave_number db)
          (select_columns df (filtered_columns existing df)), Raised e)]
      (Fault e)
| shape_merged r db rows r_merge r_drop :
    filtered_columns existing df <> [] ->
    WriteShape kind df schema_name prefix wave_number existing
      [(SelectCurrentDatabase, r);
       (SaveAsTable (temp_table kind schema_name prefix wave_number db)
          (select_columns df (filtered_columns existing df)), Returned rows);
       (MergeInto (merge_plan kind schema_name prefix wave_number db
                     (filtered_columns existing df)), r_merge);
       (DropTableIfExists (temp_table kind schema_name prefix wave_number db),
        r_drop)]
      (match r_merge with
       | Returned _ => Done (true, success_message kind df existing)
       | Raised e => Fault e
       end).

Section WriteRows.
Context `{Pandas} `{Session}.

Lemma write_rows_shape (kind : UpsertKind) (df : DataFrame)
  (schema_name prefix : string) (wave_number : Z) (m : Machine) w1 r1 :
  execute (DescribeTable (mkRef None schema_name (prefix ++ table_suffix kind)))
          (warehouse m) = (w1, r1) ->
  exists w rest out,
    write_rows kind df schema_name prefix wave_number m
    = (mkMachine w
         (journal m
          ++ (DescribeTable (mkRef None schema_name (prefix ++ table_suffix kind)), r1)
             :: rest)%list
         (caller_df m), out) /\
    WriteShape kind df schema_name prefix wave_number (described r1) rest out.
Proof.
  intros He1. unfold write_rows. unfold bind at 1.
  rewrite (get_table_columns_run _ _ _ _ He1).
  fold (filtered_columns (described r1) df).
  fold (missing_for_upload (described r1) df).
  destruct (filtered_columns (described r1) df) as [|c0 cs] eqn:Hf.
  { exists w1, [], (Done (false, no_match_message kind)). split; [reflexivity|].
    now constructor. }
  assert (Hne : filtered_columns (described r1) df <> []) by (rewrite Hf; discriminate).
  set (m1 := mkMachine w1 (journal m ++ [(DescribeTable _, r1)])%list (caller_df m)).
  destruct (execute SelectCurrentDatabase w1) as [w2 r2] eqn:He2.
  unfold bind at 1. rewrite (send_run SelectCurrentDatabase m1 w2 r2 He2).
  subst m1. cbn [journal caller_df warehouse]. rewrite <- app_assoc. cbn [app].
  destruct r2 as [e2|[|[|db fields] rows2]].
  - exists w2, [(SelectCurrentDatabase, Raised e2)], (Fault e2).
    split; [reflexivity|]. now constructor.
  - exists w2, [(SelectCurrentDatabase, Returned [])].
    eexists. split; [reflexivity|]. now constructor.
  - exists w2, [(SelectCurrentDatabase, Returned ([] :: rows2))].
    eexists. split; [reflexivity|]. now constructor.
  - set (r2 := Returned ((db :: fields) :: rows2)).
    set (temp := mkRef (Some db) schema_name
                   (prefix ++ temp_infix kind ++ PyStr.str_int wave_number)).
    set (frame := select_columns df (c0 :: cs)).
    set (m2 := mkMachine w2 _ (caller_df m)).
    destruct (execute (SaveAsTable temp frame) w2) as [w3 r3] eqn:He3.
    unfold bind at 1. rewrite (send_run (SaveAsTable temp frame) m2 w3 r3 He3).
    subst m2. cbn [journal caller_df warehouse]. rewrite <- app_assoc. cbn [app].
    destruct r3 as [e3|rows3].
    + exists w3, [(SelectCurrentDatabase, r2); (SaveAsTable temp frame, Raised e3)],
        (Fault e3).
      split; [reflexivity|]. subst temp frame. rewrite <- Hf.
      now apply shape_not_staged.
    + set (plan := mkPlan _ temp (key_column kind) _ (c0 :: cs)).
      set (m3 := mkMachine w3 _ (caller_df m)).
      destruct (execute (MergeInto plan) w3) as [w4 r4] eqn:He4.
      destruct (execute (DropTableIfExists temp) w4) as [w5 r5] eqn:He5.
      unfold bind at 1.
      rewrite (merge_then_drop_run plan temp m3 w4 r4 w5 r5 He4 He5).
      subst m3. cbn [journal caller_df warehouse]. rewrite <- app_assoc. cbn [app].
      exists w5,
        [(SelectCurrentDatabase, r2); (SaveAsTable temp frame, Returned rows3);
         (MergeInto plan, r4); (DropTableIfExists temp, r5)],
        (match r4 with
         | Returned _ => Done (true, success_message kind df (described r1))
         | Raised e => Fault e
         end).
      split.
      * destruct r4 as [e4|rows4]; [reflexivity|].
        unfold success_message. rewrite Hf. fold frame.
        now destruct (missing_for_upload (described r1) df).
      * subst plan frame temp r2. rewrite <- Hf.
        exact (shape_merged kind df schema_name prefix wave_number
                 (described r1) _ db rows3 r4 r5 Hne).
Qed.

End WriteRows.

Definition surfaced (out : Outcome (bool * string)) : bool * string :=
  match out with
  | Done res => res
  | Fault e => (false, "Error: " ++ e)
  end.

Section PopulateShape.
Context `{Pandas} `{Session}.

Lemma populate_no_session (kind : UpsertKind) (schema_name platform : string)
  (wave_number now : Z) (m : Machine) :
  populate_table kind schema_name platform wave_number None None now m
  = (m, Done (false, "Failed to establish Snowflake connection")).
Proof. reflexivity. Qed.

Lemma populate_with_session (kind : UpsertKind) (schema_name platform : string)
  (wave_number now : Z) (conn provider : option Conn) (m : Machine) :
  conn <> None \/ provider <> None ->
  let df := stamp (caller_df m) wave_number now in
  let table := mkRef None schema_name (PyStr.upper platform ++ table_suffix kind) in
  exists w entries r rest out,
    populate_table kind schema_name platform wave_number conn provider now m
    = (mkMachine w (journal m ++ entries ++ (DescribeTable table, r) :: rest)%list df,
       Done (surfaced out)) /\
    Forall schema_only entries /\
    WriteShape kind df schema_name (PyStr.upper platform) wave_number
      (described r) rest out.
Proof.
  intros Hsession df table.
  set (m0 := mkMachine (warehouse m) (journal m) df).
  destruct (expand_total table df ["upload_timestamp"] m0)
    as (we & entries & res & Hexpand & Hschema).
  set (m1 := mkMachine we (journal m0 ++ entries)%list (caller_df m0)) in Hexpand.
  destruct (execute (DescribeTable table) (warehouse m1)) as [w1 r] eqn:He.
  destruct (write_rows_shape kind df schema_name (PyStr.upper platform)
              wave_number m1 w1 r He) as (w & rest & out & Hwrite & Hshape).
  exists w, entries, r, rest, out. split; [|split; [exact Hschema|exact Hshape]].
  assert (Hbody :
    (df0 <- read_df ;;
     (let df1 := stamp df0 wave_number now in
      _ <- write_df df1 ;;
      (let prefix := PyStr.upper platform in
       let full := mkRef None schema_name (prefix ++ table_suffix kind) in
       _ <- expand_table_schema full df1 ["upload_timestamp"] ;;
       write_rows kind df1 schema_name prefix wave_number))) m
    = (mkMachine w (journal m ++ entries ++ (DescribeTable table, r) :: rest)%list df,
       out)).
  { unfold bind at 1. unfold read_df. cbv zeta beta iota.
    unfold bind at 1. unfold write_df. cbv beta iota.
    fold df. fold m0. unfold bind at 1. fold table. rewrite Hexpand.
    fold m1. rewrite Hwrite. subst m1 m0. cbn [journal caller_df].
    now rewrite <- app_assoc. }
  assert (Hrun :
    populate_table kind schema_name platform wave_number conn provider now m
    = match
        (df0 <- read_df ;;
         (let df1 := stamp df0 wave_number now in
          _ <- write_df df1 ;;
          (let prefix := PyStr.upper platform in
           let full := mkRef None schema_name (prefix ++ table_suffix kind) in
           _ <- expand_table_schema full df1 ["upload_timestamp"] ;;
           write_rows kind df1 schema_name prefix wave_number))) m
      with
      | (m', Done a) => (m', Done a)
      | (m', Fault e) => (m', Done (false, "Error: " ++ e))
      end).
  { destruct conn as [c|]; [reflexivity|].
    destruct provider as [c|]; [reflexivity|].
    destruct Hsession; congruence. }
  rewrite Hrun, Hbody. now destruct out.
Qed.

End PopulateShape.

Lemma schema_only_not_staged (e : Statement * Reply) :
  schema_only e -> staged e = false.
Proof. destruct e as [[] r]; simpl; intros Hs; try contradiction; reflexivity. Qed.

Lemma Forall_not_staged (entries : list (Statement * Reply)) :
  Forall schema_only entries -> Forall (fun e => staged e = false) entries.
Proof. intros Hs. eapply Forall_impl; [exact Hs|]. exact schema_only_not_staged. Qed.

Section StampFacts.
Context `{Pandas}.

Lemma stamp_has_timestamp (df : DataFrame) (wave_number now : Z) :
  has_column (stamp df wave_number now) "upload_timestamp" = true.
Proof. unfold stamp. now rewrite has_column_get, get_set_column_eq. Qed.

Lemma stamp_has_wave_number (df : DataFrame) (wave_number now : Z) :
  has_column (stamp df wave_number now) "wave_number" = true.
Proof.
  unfold stamp. rewrite has_column_get.
  rewrite get_set_column_ne by discriminate.
  destruct (has_column df "wave_number") eqn:Hw.
  - rewrite has_column_get in Hw. now destruct (get_column df "wave_number").
  - now rewrite get_set_column_eq.
Qed.

End StampFacts.

(** ** Upsert: the claims *)

Section UpsertClaims.
Context `{Pandas} `{Session}.

(** C10 (as the code has it).  Whenever a session is at hand, passed in or
    obtained from the connection provider, the upsert leaves the caller's
    DataFrame stamped: it holds an [upload_timestamp] column and a
    [wave_number] column after the call, whatever the call returns. *)
Theorem caller_frame_stamped_given_session (kind : UpsertKind)
  (schema_name platform : string) (wave_number now : Z)
  (conn provider : option Conn) (m : Machine) :
  conn <> None \/ provider <> None ->
  let after :=
    fst (populate_table kind schema_name platform wave_number conn provider now m) in
  caller_df after = stamp (caller_df m) wave_number now /\
  has_column (caller_df after) "upload_timestamp" = true /\
  has_column (caller_df after) "wave_number" = true.
Proof.
  intros Hsession after. subst after.
  destruct (populate_with_session kind schema_name platform wave_number now
              conn provider m Hsession)
    as (w & entries & r & rest & out & Hrun & _).
  rewrite Hrun. cbn [fst caller_df].
  split; [reflexivity|].
  split; [apply stamp_has_timestamp|apply stamp_has_wave_number].
Qed.

(** C2. Whatever the session answers, a run of either upsert either never
    gets a staging write through, or sends, right after the staging write
    that succeeded, the MERGE and then the DROP TABLE IF EXISTS of that same
    temporary table, and nothing more.  The result is then decided by the
    reply to the MERGE alone: success when it returned, the surfaced error
    when it raised; the reply to the DROP does not enter it. *)
Theorem temporary_table_always_dropped (kind : UpsertKind)
  (schema_name platform : string) (wave_number now : Z)
  (conn provider : option Conn) (m : Machine) :
  let run :=
    populate_table kind schema_name platform wave_number conn provider now m in
  exists added,
    journal (fst run) = (journal m ++ added)%list /\
    (Forall (fun e => staged e = false) added
     \/
     exists before t frame rows plan r_merge r_drop,
       added = (before ++ [(SaveAsTable t frame, Returned rows);
                           (MergeInto plan, r_merge);
                           (DropTableIfExists t, r_drop)])%list /\
       Forall (fun e => staged e = false) before /\
       merge_source plan = t /\
       match r_merge with
       | Returned _ => exists message, snd run = Done (true, message)
       | Raised e => snd run = Done (false, "Error: " ++ e)
       end).
Proof.
  intros run. subst run.
  destruct conn as [c|] eqn:Hconn; [|destruct provider as [c|] eqn:Hprov].
  3: { rewrite populate_no_session. exists []. split; [now rewrite app_nil_r|].
       left. constructor. }
  all: match goal with
       | |- context [populate_table _ _ _ _ ?cn ?pv _ _] =>
           destruct (populate_with_session kind schema_name platform wave_number
                       now cn pv m)
             as (w & entries & r & rest & out & Hrun & Hschema & Hshape);
           [first [left; discriminate | right; discriminate]|]
       end.
  all: rewrite Hrun; cbn [fst snd journal];
       exists (entries ++ (DescribeTable
                 (mkRef None schema_name (PyStr.upper platform ++ table_suffix kind)), r)
               :: rest)%list;
       (split; [reflexivity|]);
       apply Forall_not_staged in Hschema;
       inversion Hshape as [Hf|r2 e Hf|r2 db e Hf|r2 db rows r_merge r_drop Hf];
       subst.
  all: try solve [left; apply Forall_app; split; [exact Hschema|];
                  repeat constructor].
  all: right;
       exists (entries ++ [(DescribeTable
                 (mkRef None schema_name (PyStr.upper platform ++ table_suffix kind)), r);
               (SelectCurrentDatabase, r2)])%list;
       eexists; eexists; exists rows; eexists; exists r_merge, r_drop;
       (split; [rewrite <- app_assoc; reflexivity|]);
       (split; [apply Forall_app; split; [exact Hschema|repeat constructor]|]);
       (split; [reflexivity|]);
       destruct r_merge; [reflexivity|eexists; reflexivity].
Qed.


End UpsertClaims.

(** ** Sample runs on the executable warehouse *)

Module Runs.

Definition campaign_table : TableRef :=
  mkRef None "CLIENT_X_2024" "META_PROCESSED_CAMPAIGN_DATA".

Definition ad2 : gmap string cell :=
  {[ "AD_NAME" := Str "Ad2"; "CAMPAIGN_NAME" := Str "Second";
     "AMOUNT_SPENT_USD" := Num 200; "WAVE_NUMBER" := Num 1;
     "UPLOAD_TIMESTAMP" := Stamp 900 ]}.

(** One campaign table with a row for Ad2. *)
Definition world : Warehouse.State :=
  Warehouse.mkState "DB"
    {[ ("DB", "CLIENT_X_2024", "META_PROCESSED_CAMPAIGN_DATA") :=
         Warehouse.mkTable
           ["AD_NAME"; "CAMPAIGN_NAME"; "AMOUNT_SPENT_USD"; "WAVE_NUMBER";
            "UPLOAD_TIMESTAMP"]
           [ad2] ]}.

(** A frame with two columns the table lacks; one of them has a name that
    cannot be written as an identifier. *)
Definition wide_frame : DataFrame :=
  mkFrame 1 [ ("ad_name", mkSeries DObject [Str "Ad1"]);
              ("cost per click", mkSeries DObject [Str "0.5"]);
              ("reach", mkSeries DObject [Str "7"]) ].

Definition wave1 : DataFrame :=
  mkFrame 1 [ ("ad_name", mkSeries DObject [Str "Ad1"]);
              ("campaign_name", mkSeries DObject [Str "First"]);
              ("amount_spent_usd", mkSeries DFloat [Num 100]) ].

Definition start (df : DataFrame) : Machine := mkMachine world [] df.

End Runs.


(** The failing ALTER comes first in this run and the next one still goes
    out: one column is added of two. *)
Example expansion_continues_after_failure :
  let result :=
    expand_table_schema Runs.campaign_table Runs.wide_frame ["upload_timestamp"]
      (Runs.start Runs.wide_frame) in
  map (fun e => (Sql.text (fst e), returned e)) (journal (fst result))
  = [ ("DESCRIBE TABLE CLIENT_X_2024.META_PROCESSED_CAMPAIGN_DATA", true);
      ("ALTER TABLE CLIENT_X_2024.META_PROCESSED_CAMPAIGN_DATA ADD COLUMN COST PER CLICK FLOAT",
       false);
      ("ALTER TABLE CLIENT_X_2024.META_PROCESSED_CAMPAIGN_DATA ADD COLUMN REACH INTEGER",
       true) ]
  /\ snd result
     = Done (true,
             "Successfully added 1 new column(s) to CLIENT_X_2024.META_PROCESSED_CAMPAIGN_DATA",
             1%nat).
Proof. vm_compute. split; reflexivity. Qed.

(** C10, counterexample: with no session passed and none to be had, the call
    returns before it touches the frame, which gains no column. *)
Lemma frame_untouched_without_session :
  let run :=
    populate_campaign_data_table "CLIENT_X_2024" "meta" 1 None None 1000
      (Runs.start Runs.wave1) in
  snd run = Done (false, "Failed to establish Snowflake connection") /\
  caller_df (fst run) = Runs.wave1 /\
  has_column (caller_df (fst run)) "upload_timestamp" = false /\
  has_column (caller_df (fst run)) "wave_number" = false.
Proof. vm_compute. repeat split; reflexivity. Qed.

Lemma caller_frame_stamped_given_session_witness :
  let after :=
    fst (populate_campaign_data_table "CLIENT_X_2024" "meta" 1
           (Some LiveSession) None 1000 (Runs.start Runs.wave1)) in
  caller_df after = stamp Runs.wave1 1 1000 /\
  has_column (caller_df after) "upload_timestamp" = true /\
  has_column (caller_df after) "wave_number" = true.
Proof.
  apply (@caller_frame_stamped_given_session toy_pandas toy_warehouse
           campaign_data "CLIENT_X_2024" "meta" 1 1000 (Some LiveSession) None
           (Runs.start Runs.wave1)).
  left. discriminate.
Defined.


(** The run above: the column that could not be added is left out of the
    write and named in the warning. *)
Example warning_names_missing_column :
  snd (populate_campaign_data_table "CLIENT_X_2024" "meta" 1 (Some LiveSession)
         None 1000 (Runs.start Runs.wide_frame))
  = Done (true,
          "Inserted/Updated 1 campaign data records | " ++ warning_sign
          ++ " Campaign data is missing 1 column(s) present in Snowflake table: "
          ++ "['cost per click']. "
          ++ "Existing rows keep old metrics, new rows will have NULLs.").
Proof. vm_compute. reflexivity. Qed.

(** ** The executable warehouse: MERGE, twice *)

Module MergeFacts.
Import Warehouse.







Lemma filter_nothing {A} (p : A -> bool) (l : list A) :
  (forall x, x ∈ l -> p x = false) -> List.filter p l = [].
Proof.
  induction l as [|a l IH]; intros Hnone; [reflexivity|].
  cbn [List.filter]. rewrite (Hnone a) by (apply elem_of_cons; now left).
  apply IH. intros x Hx. apply Hnone, elem_of_cons. now right.
Qed.

Section Absorption.
Variable plan : MergePlan.
Variable idx : list nat.
Variables g1 g2 : nat -> gmap string cell.
Variable k : nat -> cell.

Let key := merge_key plan.

Hypothesis key_inserted : key ∈ merge_insert plan.
Hypothesis update_inserted : forall c, c ∈ merge_update plan -> c ∈ merge_insert plan.
Hypothesis update_not_key : key ∉ merge_update plan.
Hypothesis inserted_updated :
  forall c, c ∈ merge_insert plan -> c <> key -> c ∈ merge_update plan.
Hypothesis upper_distinct :
  forall a b, a ∈ merge_insert plan -> b ∈ merge_insert plan ->
              PyStr.upper a = PyStr.upper b -> a = b.
Hypothesis key1 : forall i, i ∈ idx -> field (g1 i) key = k i.
Hypothesis key2 : forall i, i ∈ idx -> field (g2 i) key = k i.
Hypothesis idx_NoDup : NoDup idx.
Hypothesis keys_present : forall i, i ∈ idx -> sql_eq (k i) (k i) = true.
Hypothesis keys_distinct :
  forall i j, i ∈ idx -> j ∈ idx -> i <> j -> sql_eq (k i) (k j) = false.





















End Absorption.

End MergeFacts.

(** ** The executable warehouse: what a run leaves behind *)

Module WarehouseRuns.
Import Warehouse.

(** One turn of the ALTER loop, on the column list. *)
Definition alter_columns (cols : list string) (c : string) : list string :=
  let column := PyStr.upper c in
  if negb (valid_identifier column) then cols
  else if mem (PyStr.upper column) cols then cols
  else (cols ++ [PyStr.upper column])%list.

(** The column list [expand_table_schema] leaves. *)
Definition expand_columns (names exclude cols : list string) : list string :=
  if bool_decide (lower_set cols = ∅) then cols
  else fold_left alter_columns
         (elements (lower_set names ∖ lower_set cols ∖ lower_set exclude)) cols.

Definition set_table (w : State) (t : TableRef) (tb : Table) : State :=
  mkState (current_database w) (<[resolve w t := tb]> (tables w)).

Definition expanded_world (t : TableRef) (names exclude : list string)
  (w : State) : State :=
  match tables w !! resolve w t with
  | None => w
  | Some tb =>
      set_table w t
        (mkTable (expand_columns names exclude (table_columns tb)) (table_rows tb))
  end.

Lemma set_table_same (w : State) (t : TableRef) (tb : Table) :
  tables w !! resolve w t = Some tb -> set_table w t tb = w.
Proof.
  intros Hl. unfold set_table. rewrite insert_id by exact Hl. now destruct w.
Qed.

Lemma set_table_twice (w : State) (t : TableRef) (a b : Table) :
  set_table (set_table w t a) t b = set_table w t b.
Proof. unfold set_table, resolve. cbn. now rewrite insert_insert_eq. Qed.

Lemma lookup_set_table (w : State) (t : TableRef) (tb : Table) :
  tables (set_table w t tb) !! resolve (set_table w t tb) t = Some tb.
Proof. unfold set_table, resolve. cbn. apply lookup_insert_eq. Qed.

Lemma first_fields_singletons (cols : list string) :
  first_fields (map (fun c => [c]) cols) = Some cols.
Proof. induction cols as [|c cols IH]; [reflexivity|]. cbn. now rewrite IH. Qed.

Lemma described_table (cols : list string) :
  described (Returned (map (fun c => [c]) cols)) = lower_set cols.
Proof. unfold described. now rewrite first_fields_singletons. Qed.

Lemma execute_describe_present (w : State) (t : TableRef) (tb : Table) :
  tables w !! resolve w t = Some tb ->
  execute (DescribeTable t) w
  = (w, Returned (map (fun c => [c]) (table_columns tb))).
Proof. intros Hl. cbn. now rewrite Hl. Qed.

Lemma execute_describe_absent (w : State) (t : TableRef) :
  tables w !! resolve w t = None ->
  execute (DescribeTable t) w
  = (w, Raised "Table does not exist or not authorized").
Proof. intros Hl. cbn. now rewrite Hl. Qed.

Lemma execute_alter (w : State) (t : TableRef) (c ty : string) cols rows :
  tables w !! resolve w t = Some (mkTable cols rows) ->
  exists r,
    execute (AlterTableAddColumn t (PyStr.upper c) ty) w
    = (set_table w t (mkTable (alter_columns cols c) rows), r).
Proof.
  intros Hl. unfold execute. rewrite Hl. unfold alter_columns.
  cbn [table_columns table_rows].
  destruct (valid_identifier (PyStr.upper c)); cbn [negb].
  - destruct (mem (PyStr.upper (PyStr.upper c)) cols).
    + rewrite (set_table_same w t _ Hl). eexists. reflexivity.
    + eexists. reflexivity.
  - rewrite (set_table_same w t _ Hl). eexists. reflexivity.
Qed.

Section Runs.
Context `{Pandas}.

Lemma alter_loop (t : TableRef) (df : DataFrame) (l : list string) :
  forall (n : nat) (m : Machine) cols rows,
    tables (warehouse m) !! resolve (warehouse m) t = Some (mkTable cols rows) ->
    (forall c, c ∈ l -> is_Some (get_column df (original_column df c))) ->
    exists j n',
      add_new_columns t df l n m
      = (mkMachine
           (set_table (warehouse m) t (mkTable (fold_left alter_columns l cols) rows))
           j (caller_df m),
         Done n').
Proof.
  induction l as [|c l IH]; intros n m cols rows Hl Hcols.
  - exists (journal m), n. cbn [add_new_columns fold_left]. unfold ret.
    rewrite (set_table_same _ _ _ Hl). now destruct m.
  - destruct (Hcols c) as [series Hseries]; [apply elem_of_cons; now left|].
    cbn [add_new_columns fold_left]. rewrite Hseries.
    destruct (execute_alter (warehouse m) t c (infer_snowflake_type series)
                cols rows Hl) as [r He].
    unfold bind at 1. unfold try_except, bind.
    rewrite (send_run _ m _ r He).
    set (w1 := set_table (warehouse m) t (mkTable (alter_columns cols c) rows)).
    assert (Hl1 : forall j d,
              tables (warehouse (mkMachine w1 j d))
              !! resolve (warehouse (mkMachine w1 j d)) t
              = Some (mkTable (alter_columns cols c) rows)).
    { intros j d. apply lookup_set_table. }
    assert (Hrest : forall c', c' ∈ l ->
                     is_Some (get_column df (original_column df c'))).
    { intros c' Hc'. apply Hcols, elem_of_cons. now right. }
    destruct r as [e|rws]; unfold ret;
      match goal with
      | |- context [add_new_columns t df l ?n0 ?mm] =>
          destruct (IH n0 mm _ _ (Hl1 _ _) Hrest) as (j & n' & Hrun);
          exists j, n'; rewrite Hrun; cbn [warehouse caller_df]; subst w1;
          now rewrite set_table_twice
      end.
Qed.

Lemma expand_world (t : TableRef) (df : DataFrame) (exclude : list string)
  (m : Machine) :
  exists j res,
    expand_table_schema t df exclude m
    = (mkMachine (expanded_world t (column_names df) exclude (warehouse m))
         j (caller_df m),
       Done res).
Proof.
  unfold expanded_world, expand_table_schema, try_except. unfold bind at 1.
  destruct (tables (warehouse m) !! resolve (warehouse m) t) as [[cols rows]|] eqn:Hl.
  - rewrite (get_table_columns_run t m _ _ (execute_describe_present _ _ _ Hl)).
    cbn [table_columns table_rows]. rewrite described_table.
    unfold expand_columns.
    destruct (bool_decide (lower_set cols = ∅)) eqn:Hempty.
    { eexists. eexists. unfold ret.
      now rewrite (set_table_same _ _ _ Hl). }
    set (new := lower_set (column_names df) ∖ lower_set cols ∖ lower_set exclude).
    destruct (bool_decide (new = ∅)) eqn:Hnew.
    { apply bool_decide_eq_true in Hnew. rewrite Hnew, elements_empty.
      cbn [fold_left]. eexists. eexists. unfold ret.
      now rewrite (set_table_same _ _ _ Hl). }
    set (m1 := mkMachine (warehouse m) _ (caller_df m)).
    destruct (alter_loop t df (elements new) O m1 cols rows Hl)
      as (j & n' & Hrun).
    { intros c Hc. apply original_column_present.
      apply elem_of_elements in Hc. subst new.
      apply elem_of_difference in Hc. destruct Hc as [Hc _].
      apply elem_of_difference in Hc. now destruct Hc as [Hc _]. }
    unfold bind, ret. rewrite Hrun. eexists. eexists. reflexivity.
  - rewrite (get_table_columns_run t m _ _ (execute_describe_absent _ _ Hl)).
    cbn [described]. rewrite bool_decide_eq_true_2 by reflexivity.
    eexists. eexists. reflexivity.
Qed.

End Runs.

End WarehouseRuns.

(** ** The executable warehouse: the upsert, twice *)

(** The cells of the key column, one per row of the frame. *)
Definition key_cells (df : DataFrame) (key : string) : list cell :=
  match get_column df key with
  | Some s => map (fun i => nth i (cells s) (Null NaN)) (seq 0 (nrows df))
  | None => []
  end.

(** No key is NULL and no key comes twice. *)
Fixpoint unique_keys (l : list cell) : bool :=
  match l with
  | [] => true
  | a :: r => Warehouse.sql_eq a a && negb (existsb (Warehouse.sql_eq a) r) && unique_keys r
  end.

(** The rows of a table of the warehouse. *)
Definition rows_of (w : Warehouse.State) (t : TableRef)
  : list (gmap string cell) :=
  match Warehouse.tables w !! Warehouse.resolve w t with
  | Some tb => Warehouse.table_rows tb
  | None => []
  end.

Module UpsertTwice.
Import Warehouse WarehouseRuns MergeFacts.





Lemma alter_columns_grows (cols : list string) (c : string) :
  exists extra, alter_columns cols c = (cols ++ extra)%list.
Proof.
  unfold alter_columns.
  destruct (negb _); [exists []; now rewrite app_nil_r|].
  destruct (mem _ _); [exists []; now rewrite app_nil_r|].
  eexists. reflexivity.
Qed.


Lemma fold_alter_grows (l : list string) :
  forall cols, exists extra, fold_left alter_columns l cols = (cols ++ extra)%list.
Proof.
  induction l as [|c l IH]; intros cols; cbn [fold_left].
  - exists []. now rewrite app_nil_r.
  - destruct (alter_columns_grows cols c) as [e1 He1].
    destruct (IH (alter_columns cols c)) as [e2 He2].
    exists (e1 ++ e2)%list. now rewrite He2, He1, app_assoc.
Qed.






(** What MERGE leaves of its target. *)
Definition merged_table (plan : MergePlan) (target source : Table) : Table :=
  if well_formed plan target source
     && deterministic plan (table_rows target) (table_rows source)
  then mkTable (table_columns target)
         (merged_rows plan (table_rows target) (table_rows source))
  else target.

(** The temporary table [save_as_table] makes of the filtered frame. *)
Definition staged_table (df : DataFrame) (filtered : list string) : Table :=
  mkTable (column_names (select_columns df filtered))
          (frame_rows (select_columns df filtered)).

(** The warehouse [write_rows] leaves. *)
Definition written_world (kind : UpsertKind) (df : DataFrame)
  (schema_name prefix : string) (wave_number : Z) (w : State) : State :=
  let t := mkRef None schema_name (prefix ++ table_suffix kind) in
  match tables w !! resolve w t with
  | None => w
  | Some tb =>
      match filtered_columns (lower_set (table_columns tb)) df with
      | [] => w
      | filtered =>
          let db := current_database w in
          mkState db
            (delete (resolve w (temp_table kind schema_name prefix wave_number db))
               (<[resolve w t :=
                    merged_table
                      (merge_plan kind schema_name prefix wave_number db filtered)
                      tb (staged_table df filtered)]> (tables w)))
      end
  end.

Lemma filtered_columns_empty (df : DataFrame) : filtered_columns ∅ df = [].
Proof.
  unfold filtered_columns. apply filter_nothing. intros c _.
  apply bool_decide_eq_false_2. apply not_elem_of_empty.
Qed.

Lemma execute_merge (plan : MergePlan) (w : State) (tb src : Table) :
  tables w !! resolve w (merge_target plan) = Some tb ->
  tables w !! resolve w (merge_source plan) = Some src ->
  exists r,
    execute (MergeInto plan) w
    = (set_table w (merge_target plan) (merged_table plan tb src), r).
Proof.
  intros Ht Hs. unfold execute. rewrite Ht, Hs. unfold merged_table.
  destruct (well_formed plan tb src
            && deterministic plan (table_rows tb) (table_rows src)).
  - eexists. reflexivity.
  - rewrite (set_table_same _ _ _ Ht). eexists. reflexivity.
Qed.

Section Worlds.
Context `{Pandas}.

Lemma write_world (kind : UpsertKind) (df : DataFrame)
  (schema_name prefix : string) (wave_number : Z) (m : Machine) :
  PyStr.upper (prefix ++ table_suffix kind)
  <> PyStr.upper (prefix ++ temp_infix kind ++ PyStr.str_int wave_number) ->
  exists j out,
    write_rows kind df schema_name prefix wave_number m
    = (mkMachine
         (written_world kind df schema_name prefix wave_number (warehouse m))
         j (caller_df m),
       out).
Proof.
  intros Hne. unfold write_rows, written_world. unfold bind at 1.
  set (t := mkRef None schema_name (prefix ++ table_suffix kind)).
  destruct (tables (warehouse m) !! resolve (warehouse m) t) as [tb|] eqn:Hl.
  2:{ rewrite (get_table_columns_run t m _ _ (execute_describe_absent _ _ Hl)).
      cbn [described].
      fold (filtered_columns ∅ df). rewrite filtered_columns_empty.
      eexists. eexists. reflexivity. }
  rewrite (get_table_columns_run t m _ _ (execute_describe_present _ _ _ Hl)).
  rewrite described_table.
  fold (filtered_columns (lower_set (table_columns tb)) df).
  fold (missing_for_upload (lower_set (table_columns tb)) df).
  destruct (filtered_columns (lower_set (table_columns tb)) df) as [|c0 cs] eqn:Hf.
  { eexists. eexists. reflexivity. }
  set (w := warehouse m) in *.
  set (db := current_database w).
  set (m1 := mkMachine w _ (caller_df m)).
  unfold bind at 1.
  rewrite (send_run SelectCurrentDatabase m1 w (Returned [[db]]) eq_refl).
  subst m1. cbn [journal caller_df warehouse].
  set (temp := mkRef (Some db) schema_name
                 (prefix ++ temp_infix kind ++ PyStr.str_int wave_number)).
  set (frame := select_columns df (c0 :: cs)).
  set (w3 := mkState db (<[resolve w temp := staged_table df (c0 :: cs)]> (tables w))).
  set (m2 := mkMachine w _ (caller_df m)).
  unfold bind at 1.
  rewrite (send_run (SaveAsTable temp frame) m2 w3 (Returned []) eq_refl).
  subst m2. cbn [journal caller_df warehouse].
  set (plan := mkPlan _ temp (key_column kind) _ (c0 :: cs)).
  set (m3 := @mkMachine toy_warehouse w3 _ (caller_df m)).
  assert (Hkeys : resolve w t <> resolve w temp).
  { unfold resolve, t, temp. cbn [ref_database ref_schema ref_table].
    intros [= Heq]. exact (Hne Heq). }
  destruct (execute_merge plan w3 tb (staged_table df (c0 :: cs))) as [r4 He4].
  { change (tables w3 !! resolve w3 (merge_target plan))
      with ((<[resolve w temp := staged_table df (c0 :: cs)]> (tables w))
            !! resolve w t).
    rewrite lookup_insert_ne by (intros Heq; now apply Hkeys). exact Hl. }
  { change (tables w3 !! resolve w3 (merge_source plan))
      with ((<[resolve w temp := staged_table df (c0 :: cs)]> (tables w))
            !! resolve w temp).
    apply lookup_insert_eq. }
  set (mt := merged_table plan tb (staged_table df (c0 :: cs))) in *.
  destruct (execute (DropTableIfExists temp) (set_table w3 (merge_target plan) mt))
    as [w5 r5] eqn:He5.
  unfold bind at 1.
  rewrite (merge_then_drop_run plan temp m3 _ r4 w5 r5 He4 He5).
  subst m3. cbn [journal caller_df warehouse].
  assert (Hworld :
    w5
    = mkState db
        (delete (resolve w (temp_table kind schema_name prefix wave_number db))
           (<[resolve w t :=
                merged_table
                  (merge_plan kind schema_name prefix wave_number db (c0 :: cs))
                  tb (staged_table df (c0 :: cs))]> (tables w)))).
  { change (merge_plan kind schema_name prefix wave_number db (c0 :: cs)) with plan.
    change (temp_table kind schema_name prefix wave_number db) with temp.
    fold mt. apply (f_equal fst) in He5. cbn [fst] in He5. rewrite <- He5.
    change (fst (execute (DropTableIfExists temp) (set_table w3 (merge_target plan) mt)))
      with (mkState db
              (delete (resolve w temp)
                 (<[resolve w t := mt]>
                    (<[resolve w temp := staged_table df (c0 :: cs)]> (tables w))))).
    f_equal. rewrite insert_insert_ne by exact Hkeys.
    now rewrite delete_insert_eq. }
  rewrite Hworld.
  destruct r4 as [e4|rows4]; eexists; eexists; reflexivity.
Qed.

End Worlds.


(** *** Stamping and selecting *)














(** *** Names *)

Lemma upper_cons (c : ascii) (r : string) :
  PyStr.upper (String c r) = PyStr.upper (String c "") ++ PyStr.upper r.
Proof.
  cbn [PyStr.upper].
  destruct (PyStr.is_lower_az c
            || PyStr.in_range 224 254 c && negb (PyStr.code c =? 247)%N);
    [reflexivity|].
  now destruct (PyStr.code c =? 223)%N.
Qed.

Lemma append_assoc (a b c : string) : (a ++ b) ++ c = a ++ b ++ c.
Proof.
  induction a as [|x a IH]; [reflexivity|].
  change (String x ((a ++ b) ++ c) = String x (a ++ b ++ c)). now rewrite IH.
Qed.

Lemma upper_app (a b : string) :
  PyStr.upper (a ++ b) = PyStr.upper a ++ PyStr.upper b.
Proof.
  induction a as [|c a IH]; [reflexivity|].
  change (String c a ++ b) with (String c (a ++ b)).
  rewrite (upper_cons c (a ++ b)), (upper_cons c a), IH.
  now rewrite append_assoc.
Qed.



Lemma append_cancel (a x y : string) : a ++ x = a ++ y -> x = y.
Proof.
  induction a as [|c a IH]; [trivial|].
  change (String c (a ++ x) = String c (a ++ y) -> x = y).
  intros [= Heq]. now apply IH.
Qed.

(** The temporary table is not the destination table. *)
Lemma naming_tables_differ (prefix : string) (wave_number : Z) :
  PyStr.upper (prefix ++ table_suffix naming_keys)
  <> PyStr.upper (prefix ++ temp_infix naming_keys ++ PyStr.str_int wave_number).
Proof.
  rewrite !upper_app. intros Heq. apply append_cancel in Heq.
  revert Heq. generalize (PyStr.upper (PyStr.str_int wave_number)).
  intros d. vm_compute. discriminate.
Qed.

Lemma campaign_tables_differ (prefix : string) (wave_number : Z) :
  PyStr.upper (prefix ++ table_suffix campaign_data)
  <> PyStr.upper (prefix ++ temp_infix campaign_data ++ PyStr.str_int wave_number).
Proof.
  rewrite !upper_app. intros Heq. apply append_cancel in Heq.
  revert Heq. generalize (PyStr.upper (PyStr.str_int wave_number)).
  intros d. vm_compute. discriminate.
Qed.

(** *** Keys *)




(** *** MERGE from the same frame, twice *)






(** The warehouse an upsert leaves, by the frame as stamped. *)
Definition stamped_world (kind : UpsertKind) (schema_name prefix : string)
  (wave_number : Z) (df : DataFrame) (w : State) : State :=
  written_world kind df schema_name prefix wave_number
    (expanded_world (mkRef None schema_name (prefix ++ table_suffix kind))
       (column_names df) ["upload_timestamp"] w).

Lemma stamped_world_absent (kind : UpsertKind) (schema_name prefix : string)
  (wave_number : Z) (df : DataFrame) (w : State) :
  tables w !! resolve w (mkRef None schema_name (prefix ++ table_suffix kind))
  = None ->
  stamped_world kind schema_name prefix wave_number df w = w.
Proof.
  intros Hl. unfold stamped_world, expanded_world. rewrite Hl.
  unfold written_world. now rewrite Hl.
Qed.

Lemma stamped_world_present (kind : UpsertKind) (schema_name prefix : string)
  (wave_number : Z) (df : DataFrame) (w : State) (tb : Table) :
  let t := mkRef None schema_name (prefix ++ table_suffix kind) in
  tables w !! resolve w t = Some tb ->
  stamped_world kind schema_name prefix wave_number df w
  = let cols1 :=
      expand_columns (column_names df) ["upload_timestamp"] (table_columns tb) in
    let tb1 := mkTable cols1 (table_rows tb) in
    match filtered_columns (lower_set cols1) df with
    | [] => set_table w t tb1
    | filtered =>
        let db := current_database w in
        mkState db
          (delete (resolve w (temp_table kind schema_name prefix wave_number db))
             (<[resolve w t :=
                  merged_table
                    (merge_plan kind schema_name prefix wave_number db filtered)
                    tb1 (staged_table df filtered)]> (tables w)))
    end.
Proof.
  intros t Hl. unfold stamped_world, expanded_world. fold t. rewrite Hl.
  set (cols1 := expand_columns _ _ _). cbv zeta.
  set (tb1 := mkTable cols1 (table_rows tb)).
  unfold written_world. fold t. rewrite (lookup_set_table w t tb1).
  cbn [table_columns tb1].
  destruct (filtered_columns (lower_set cols1) df) as [|c0 cs]; [reflexivity|].
  cbv zeta. unfold set_table at 1 2 3 4. cbn [current_database tables].
  f_equal. f_equal.
  change (resolve (set_table w t (mkTable cols1 (table_rows tb))) t)
    with (resolve w t).
  apply insert_insert_eq.
Qed.



Section Twice.
Variable kind : UpsertKind.
Variables schema_name prefix : string.
Variables wave_number now1 now2 : Z.
Variable df : DataFrame.

Hypothesis key_lower : PyStr.lower (key_column kind) = key_column kind.
Hypothesis key_not_wave : key_column kind <> "wave_number".
Hypothesis key_not_stamp : key_column kind <> "upload_timestamp".
Hypothesis keys_unique : unique_keys (key_cells df (key_column kind)) = true.


Hypothesis tables_differ :
  PyStr.upper (prefix ++ table_suffix kind)
  <> PyStr.upper (prefix ++ temp_infix kind ++ PyStr.str_int wave_number).


End Twice.


Section Populate.
Context `{Pandas}.

Lemma populate_world (kind : UpsertKind) (schema_name platform : string)
  (wave_number now : Z) (conn provider : option Conn) (m : Machine) :
  PyStr.upper (PyStr.upper platform ++ table_suffix kind)
  <> PyStr.upper (PyStr.upper platform ++ temp_infix kind
                  ++ PyStr.str_int wave_number) ->
  conn <> None \/ provider <> None ->
  exists j out,
    populate_table kind schema_name platform wave_number conn provider now m
    = (@mkMachine toy_warehouse
         (stamped_world kind schema_name (PyStr.upper platform) wave_number
            (stamp (caller_df m) wave_number now) (warehouse m))
         j (stamp (caller_df m) wave_number now),
       Done out).
Proof.
  intros Hne Hsession.
  set (df := stamp (caller_df m) wave_number now).
  set (table := mkRef None schema_name (PyStr.upper platform ++ table_suffix kind)).
  set (m0 := mkMachine (warehouse m) (journal m) df).
  destruct (expand_world table df ["upload_timestamp"] m0) as (j1 & res & Hexpand).
  set (m1 := @mkMachine toy_warehouse
               (expanded_world table (column_names df) ["upload_timestamp"]
                  (warehouse m0))
               j1 (caller_df m0)) in Hexpand.
  destruct (write_world kind df schema_name (PyStr.upper platform) wave_number
              m1 Hne) as (j2 & out & Hwrite).
  assert (Hbody :
    (df0 <- read_df ;;
     (let df1 := stamp df0 wave_number now in
      _ <- write_df df1 ;;
      (let prefix := PyStr.upper platform in
       let full := mkRef None schema_name (prefix ++ table_suffix kind) in
       _ <- expand_table_schema full df1 ["upload_timestamp"] ;;
       write_rows kind df1 schema_name prefix wave_number))) m
    = (@mkMachine toy_warehouse
         (stamped_world kind schema_name (PyStr.upper platform) wave_number df
            (warehouse m))
         j2 df,
       out)).
  { unfold bind at 1. unfold read_df. cbv zeta beta iota.
    unfold bind at 1. unfold write_df. cbv beta iota.
    fold df. fold m0. unfold bind at 1. fold table. rewrite Hexpand.
    fold m1. rewrite Hwrite. reflexivity. }
  assert (Hrun :
    populate_table kind schema_name platform wave_number conn provider now m
    = match
        (df0 <- read_df ;;
         (let df1 := stamp df0 wave_number now in
          _ <- write_df df1 ;;
          (let prefix := PyStr.upper platform in
           let full := mkRef None schema_name (prefix ++ table_suffix kind) in
           _ <- expand_table_schema full df1 ["upload_timestamp"] ;;
           write_rows kind df1 schema_name prefix wave_number))) m
      with
      | (m', Done a) => (m', Done a)
      | (m', Fault e) => (m', Done (false, "Error: " ++ e))
      end).
  { destruct conn as [c|]; [reflexivity|].
    destruct provider as [c|]; [reflexivity|].
    destruct Hsession; congruence. }
  rewrite Hrun, Hbody. destruct out; eexists; eexists; reflexivity.
Qed.


End Populate.

End UpsertTwice.




(** A frame whose key cell is NULL: the row matches nothing, the second call
    inserts it again, and that with the clock at the same reading. *)
Example null_key_inserted_again :
  let frame :=
    mkFrame 1 [ ("ad_name", mkSeries DObject [Null NaN]);
                ("campaign_name", mkSeries DObject [Str "First"]) ] in
  let call :=
    populate_campaign_data_table "CLIENT_X_2024" "meta" 1 (Some LiveSession)
      None 1000 in
  let once := fst (call (Runs.start frame)) in
  let twice := fst (call once) in
  unique_keys (key_cells frame "ad_name") = false
  /\ length (rows_of (warehouse once) Runs.campaign_table) = 2%nat
  /\ length (rows_of (warehouse twice) Runs.campaign_table) = 3%nat.
Proof. vm_compute. repeat split; reflexivity. Qed.

(* ===================================================================== *)
(** * Further properties *)
(* ===================================================================== *)

(** ** The preprocessing pipelines *)

Lemma select_repeat {A} (x : A) (mask : list bool) :
  select mask (repeat x (length mask))
  = repeat x (length (List.filter (fun b => b) mask)).
Proof.
  induction mask as [|b mask IH]; [reflexivity|].
  cbn [length repeat select List.filter]. destruct b; cbn [length repeat];
    now rewrite IH.
Qed.

Lemma filter_length_le {A} (p : A -> bool) (l : list A) :
  (length (List.filter p l) <= length l)%nat.
Proof.
  induction l as [|a l IH]; [reflexivity|]. cbn [List.filter].
  destruct (p a); cbn [length]; lia.
Qed.

Section ProcessorFacts.
Context `{Pandas}.

Lemma fold_updates_names (us : list column_update) : forall df df',
  fold_left apply_update us (Some df) = Some df' ->
  column_names df' = column_names df /\ nrows df' = nrows df.
Proof.
  induction us as [|u us IH]; intros df df' Hrun.
  - cbn in Hrun. injection Hrun as <-. now split.
  - cbn [fold_left] in Hrun. unfold apply_update at 2 in Hrun.
    destruct (get_column df (fst u)) as [series|] eqn:Hg; [|now apply IH].
    destruct (snd u series) as [converted|].
    + destruct (IH _ _ Hrun) as [Hn Hr]. split.
      * rewrite Hn. now apply names_set_column_present with series.
      * exact Hr.
    + now rewrite fold_update_None in Hrun.
Qed.

Lemma convert_expected_names (expected : list (string * ctype)) df df' :
  convert_expected_columns expected df = Some df' ->
  column_names df' = column_names df /\ nrows df' = nrows df.
Proof.
  unfold convert_expected_columns. rewrite convert_expected_as_updates.
  apply fold_updates_names.
Qed.

Lemma process_new_names df df' :
  _process_new_columns df = Some df' ->
  column_names df' = column_names df /\ nrows df' = nrows df.
Proof.
  unfold _process_new_columns. rewrite convert_new_as_updates.
  apply fold_updates_names.
Qed.

Lemma drop_duplicates_names (df : DataFrame) :
  column_names (drop_duplicates df) = column_names df.
Proof.
  unfold drop_duplicates, column_names. cbn [columns]. rewrite map_map.
  apply map_ext. now intros [col s].
Qed.

Lemma drop_duplicates_rows (df : DataFrame) :
  (nrows (drop_duplicates df) <= nrows df)%nat.
Proof.
  unfold drop_duplicates. cbn [nrows].
  rewrite <- (duplicated_length df), <- (length_map negb (duplicated df)).
  apply filter_length_le.
Qed.

Lemma has_column_names (a b : DataFrame) (c : string) :
  column_names a = column_names b -> has_column a c = has_column b c.
Proof. unfold has_column. now intros ->. Qed.

Lemma has_column_elem_of (df : DataFrame) (c : string) :
  has_column df c = true <-> c ∈ column_names df.
Proof.
  unfold has_column. rewrite existsb_exists. split.
  - intros (x & Hx & He). apply String.eqb_eq in He. subst x.
    now apply list_elem_of_In.
  - intros Hc. exists c. split; [now apply list_elem_of_In|apply String.eqb_refl].
Qed.

Lemma add_missing_column_adds (df : DataFrame) (entry : string * ctype) :
  has_column (add_missing_column df entry) (fst entry) = true.
Proof.
  destruct entry as [col ty]. cbn [fst]. unfold add_missing_column.
  destruct (has_column df col) eqn:Hc; [exact Hc|].
  destruct ty; now rewrite has_column_get, get_set_column_eq.
Qed.

Lemma add_missing_keeps (expected : list (string * ctype)) (df : DataFrame)
  (c : string) :
  has_column df c = true ->
  has_column (add_missing_columns expected df) c = true.
Proof.
  rewrite !has_column_get.
  destruct (get_column df c) as [s|] eqn:Hg; [|discriminate]. intros _.
  now rewrite (add_missing_present expected df c s Hg).
Qed.

(** After the backfill every declared column is there. *)
Lemma add_missing_complete (expected : list (string * ctype)) :
  forall (df : DataFrame) (c : string),
    c ∈ map fst expected ->
    has_column (add_missing_columns expected df) c = true.
Proof.
  induction expected as [|entry expected IH]; intros df c Hc;
    [now apply elem_of_nil in Hc|].
  cbn [map] in Hc. apply elem_of_cons in Hc.
  unfold add_missing_columns. cbn [fold_left].
  fold (add_missing_columns expected (add_missing_column df entry)).
  destruct Hc as [->|Hc]; [|now apply IH].
  apply add_missing_keeps, add_missing_column_adds.
Qed.

Lemma assign_wave_has (df : DataFrame) (w : Z) :
  has_column (assign_wave_number df w) "wave_number" = true.
Proof.
  unfold assign_wave_number. now rewrite has_column_get, get_set_column_eq.
Qed.

Lemma convert_strings (expected : list (string * ctype)) :
  Forall (fun entry => snd entry = STRING) expected ->
  forall df, exists df', convert_expected_columns expected df = Some df'.
Proof.
  unfold convert_expected_columns.
  induction 1 as [|[col ty] expected Hty _ IH]; intros df; [now exists df|].
  cbn [snd] in Hty. subst ty. cbn [fold_left convert_expected_column].
  destruct (get_column df col); cbn [convert_series]; apply IH.
Qed.

Lemma naming_all_strings :
  Forall (fun entry : string * ctype => snd entry = STRING)
         expected_naming_columns.
Proof. repeat constructor. Qed.

Lemma naming_data_split raw wave result :
  preprocess_naming_data raw wave = Some result ->
  exists out,
    convert_expected_columns expected_naming_columns
      (add_missing_columns expected_naming_columns
         (assign_wave_number (normalize_columns raw) wave)) = Some out
    /\ result = drop_duplicates out.
Proof.
  unfold preprocess_naming_data, preprocess_naming_steps. cbv zeta.
  destruct (convert_expected_columns _ _) as [out|]; [|discriminate].
  intros [= <-]. now exists out.
Qed.


Lemma clean_column_shape (df : DataFrame) (col : string) :
  column_names (clean_column df col) = column_names df
  /\ nrows (clean_column df col) = nrows df.
Proof.
  unfold clean_column.
  destruct (get_column df col) as [series|] eqn:Hg; [|now split].
  destruct (is_numeric_dtype series); [now split|].
  destruct (_ || _); [|now split].
  destruct (any _); [|now split].
  split; [now apply names_set_column_present with series|reflexivity].
Qed.

Lemma clean_fold_shape (names : list string) : forall df,
  column_names (fold_left clean_column names df) = column_names df
  /\ nrows (fold_left clean_column names df) = nrows df.
Proof.
  induction names as [|c names IH]; intros df; [now split|].
  cbn [fold_left]. destruct (IH (clean_column df c)) as [Hn Hr].
  destruct (clean_column_shape df c) as [Hn1 Hr1].
  split; congruence.
Qed.

Lemma clean_shape (df : DataFrame) :
  column_names (_clean_time_formatted_values df) = column_names df
  /\ nrows (_clean_time_formatted_values df) = nrows df.
Proof. apply clean_fold_shape. Qed.

Lemma fill_from_nrows df target source :
  nrows (fill_from df target source) = nrows df.
Proof.
  unfold fill_from.
  destruct (get_column df target) as [t|]; [|reflexivity].
  destruct (get_column df source) as [s|]; [|reflexivity].
  now destruct (any (null_mask t)).
Qed.

Lemma reconcile_keeps_nrows df : nrows (reconcile_keys df) = nrows df.
Proof.
  unfold reconcile_keys.
  destruct (negb (has_column df "ad_name") && has_column df "ad_set_name").
  { now destruct (get_column df "ad_set_name"). }
  destruct (has_column df "ad_name" && negb (has_column df "ad_set_name")).
  { now destruct (get_column df "ad_name"). }
  destruct (has_column df "ad_name" && has_column df "ad_set_name");
    [|reflexivity].
  now rewrite !fill_from_nrows.
Qed.

(** The frame before the conversions, of the campaign pipeline. *)
Definition campaign_backfilled (raw : DataFrame) (wave : Z) : DataFrame :=
  add_missing_columns expected_campaign_columns
    (reconcile_keys
       (assign_wave_number
          (_clean_time_formatted_values (normalize_columns raw)) wave)).

Lemma campaign_backfilled_unfold raw wave :
  campaign_backfilled raw wave
  = add_missing_columns expected_campaign_columns
      (reconcile_keys
         (assign_wave_number
            (_clean_time_formatted_values (normalize_columns raw)) wave)).
Proof. reflexivity. Qed.

Lemma campaign_backfilled_rows raw wave :
  nrows (campaign_backfilled raw wave) = nrows raw.
Proof.
  rewrite campaign_backfilled_unfold.
  rewrite add_missing_rows, reconcile_keeps_nrows.
  unfold assign_wave_number, set_column. cbn [nrows].
  now destruct (clean_shape (normalize_columns raw)) as [_ ->].
Qed.

Lemma campaign_result_shape raw wave result :
  preprocess_campaign_data raw wave = Some result ->
  exists out,
    result = drop_duplicates out
    /\ column_names out = column_names (campaign_backfilled raw wave)
    /\ nrows out = nrows raw.
Proof.
  intros Hrun. destruct (campaign_data_split _ _ _ Hrun) as (out & Hsteps & ->).
  destruct (campaign_steps_split _ _ _ Hsteps) as (df6 & Hconv & Hnew).
  rewrite <- (campaign_backfilled_unfold raw wave) in Hconv.
  destruct (convert_expected_names _ _ _ Hconv) as [Hn6 Hr6].
  destruct (process_new_names _ _ Hnew) as [Hn Hr].
  exists out. split; [reflexivity|]. split; [congruence|].
  rewrite Hr, Hr6. apply campaign_backfilled_rows.
Qed.

Lemma naming_result_shape raw wave result :
  preprocess_naming_data raw wave = Some result ->
  exists out,
    result = drop_duplicates out
    /\ column_names out
       = column_names (add_missing_columns expected_naming_columns
                         (assign_wave_number (normalize_columns raw) wave))
    /\ nrows out = nrows raw.
Proof.
  intros Hrun. destruct (naming_data_split _ _ _ Hrun) as (out & Hconv & ->).
  destruct (convert_expected_names _ _ _ Hconv) as [Hn Hr].
  exists out. split; [reflexivity|]. split; [exact Hn|].
  rewrite Hr, add_missing_rows. reflexivity.
Qed.

(** X1.  [preprocess_naming_data] returns a frame for every input: each
    declared naming column is a STRING column, and the conversion to text
    cannot raise. *)
Theorem preprocess_naming_data_total (raw : DataFrame) (wave : Z) :
  exists result, preprocess_naming_data raw wave = Some result.
Proof.
  unfold preprocess_naming_data, preprocess_naming_steps. cbv zeta.
  destruct (convert_strings expected_naming_columns naming_all_strings
              (add_missing_columns expected_naming_columns
                 (assign_wave_number (normalize_columns raw) wave)))
    as [out Hout].
  rewrite Hout. eauto.
Qed.

(** X2.  Every column of the declared campaign schema is a column of the
    frame [preprocess_campaign_data] returns, whatever the export had. *)
Theorem campaign_result_has_declared_columns raw wave result col :
  preprocess_campaign_data raw wave = Some result ->
  col ∈ map fst expected_campaign_columns ->
  has_column result col = true.
Proof.
  intros Hrun Hcol.
  destruct (campaign_result_shape _ _ _ Hrun) as (out & -> & Hnames & _).
  rewrite (has_column_names _ out) by apply drop_duplicates_names.
  rewrite (has_column_names _ _ col Hnames).
  now apply add_missing_complete.
Qed.

(** X3.  Every declared naming column, and the wave number, is a column of
    the frame [preprocess_naming_data] returns. *)
Theorem naming_result_has_declared_columns raw wave result col :
  preprocess_naming_data raw wave = Some result ->
  col ∈ map fst expected_naming_columns \/ col = "wave_number" ->
  has_column result col = true.
Proof.
  intros Hrun Hcol.
  destruct (naming_result_shape _ _ _ Hrun) as (out & -> & Hnames & _).
  rewrite (has_column_names _ out) by apply drop_duplicates_names.
  rewrite (has_column_names _ _ col Hnames).
  destruct Hcol as [Hcol| ->]; [now apply add_missing_complete|].
  apply add_missing_keeps, assign_wave_has.
Qed.

(** X4.  Preprocessing never adds a row: the frame returned has at most the
    rows of the export, the difference being the duplicates dropped at the
    end. *)
Theorem preprocessing_never_adds_rows raw wave result :
  preprocess_campaign_data raw wave = Some result
  \/ preprocess_naming_data raw wave = Some result ->
  (nrows result <= nrows raw)%nat.
Proof.
  intros [Hrun|Hrun].
  - destruct (campaign_result_shape _ _ _ Hrun) as (out & -> & _ & <-).
    apply drop_duplicates_rows.
  - destruct (naming_result_shape _ _ _ Hrun) as (out & -> & _ & <-).
    apply drop_duplicates_rows.
Qed.

End ProcessorFacts.

Lemma campaign_result_has_declared_columns_witness :
  has_column Samples.campaign_processed "video_avg_play_time" = true.
Proof.
  apply (@campaign_result_has_declared_columns toy_pandas
           Samples.campaign_raw 1 Samples.campaign_processed
           "video_avg_play_time").
  - vm_compute. reflexivity.
  - apply (bool_decide_unpack _). vm_compute. reflexivity.
Defined.

Lemma naming_result_has_declared_columns_witness :
  exists result,
    preprocess_naming_data Samples.naming_raw 1 = Some result
    /\ has_column result "landing_page" = true.
Proof.
  eexists. split; [vm_compute; reflexivity|].
  eapply (@naming_result_has_declared_columns toy_pandas Samples.naming_raw 1).
  - vm_compute. reflexivity.
  - left. apply (bool_decide_unpack _). vm_compute. reflexivity.
Defined.

Lemma preprocessing_never_adds_rows_witness :
  (nrows Samples.campaign_processed <= nrows Samples.campaign_raw)%nat.
Proof.
  apply (@preprocessing_never_adds_rows toy_pandas Samples.campaign_raw 1).
  left. vm_compute. reflexivity.
Defined.

(** ** Type inference, twice written *)

(** The warehouse's name of a column type. *)
Definition snowflake_name (t : ctype) : string :=
  match t with
  | INT => "INTEGER"
  | FLOAT => "FLOAT"
  | STRING => "STRING"
  | DATETIME => "TIMESTAMP"
  end.

Section InferenceAgreement.
Context `{Pandas}.

(** X5.  [infer_snowflake_type] of snowflake_operations.py and
    [_infer_column_type] of data_processor.py give the same verdict on every
    column that is not of boolean dtype, up to the names of the types; a
    boolean column is BOOLEAN to the first and INT to the second. *)
Theorem inference_agrees_across_modules (series : Series) :
  infer_snowflake_type series
  = if is_bool_dtype series then "BOOLEAN"
    else snowflake_name (_infer_column_type series).
Proof.
  unfold infer_snowflake_type, _infer_column_type.
  unfold is_datetime64_any_dtype, is_integer_dtype, is_float_dtype, is_bool_dtype.
  destruct (sdtype series); try reflexivity.
  cbv zeta.
  destruct (length (dropna (cells series)) =? 0)%nat; [reflexivity|].
  destruct (above_threshold
              (success_rate
                 (length (somes (map to_numeric_cell (dropna (cells series)))))
                 (length (dropna (cells series))))).
  - destruct (0 <? length (somes (map to_numeric_cell (dropna (cells series)))))%nat.
    + now destruct (List.forallb equals_own_int _).
    + destruct (to_datetime (dropna (cells series))); [|reflexivity].
      now destruct (above_threshold _).
  - destruct (to_datetime (dropna (cells series))); [|reflexivity].
    now destruct (above_threshold _).
Qed.

End InferenceAgreement.

(** ** The anomaly scrubber: shape and repetition *)

Lemma assoc_ext {A} (l1 : list (string * A)) : forall l2,
  map fst l1 = map fst l2 ->
  NoDup (map fst l1) ->
  (forall k, assoc_get l1 k = assoc_get l2 k) ->
  l1 = l2.
Proof.
  induction l1 as [|[k1 v1] l1 IH]; intros [|[k2 v2] l2] Hnames Hnd Hget;
    try discriminate; [reflexivity|].
  cbn [map fst] in Hnames, Hnd. injection Hnames as <- Hnames.
  apply NoDup_cons in Hnd. destruct Hnd as [Hk1 Hnd].
  pose proof (Hget k1) as Hhead. cbn [assoc_get] in Hhead.
  rewrite String.eqb_refl in Hhead. injection Hhead as <-.
  f_equal. apply IH; [exact Hnames|exact Hnd|]. intros k.
  destruct (String.eqb k k1) eqn:E.
  - apply String.eqb_eq in E. subst k.
    assert (H1 : assoc_get l1 k1 = None) by now apply assoc_get_None_iff.
    assert (H2 : assoc_get l2 k1 = None).
    { apply assoc_get_None_iff. now rewrite <- Hnames. }
    congruence.
  - specialize (Hget k). cbn [assoc_get] in Hget. now rewrite E in Hget.
Qed.

Lemma frame_ext (a b : DataFrame) :
  nrows a = nrows b ->
  column_names a = column_names b ->
  NoDup (column_names a) ->
  (forall col, get_column a col = get_column b col) ->
  a = b.
Proof.
  destruct a as [na ca], b as [nb cb]. unfold column_names, get_column.
  cbn [nrows columns]. intros -> Hnames Hnd Hget. f_equal.
  now apply assoc_ext.
Qed.

Section ScrubberShape.
Context `{Pandas}.

Lemma scrub_cell_twice (c : cell) :
  scrub_cell true (scrub_cell true c) = scrub_cell true c.
Proof.
  unfold scrub_cell. cbn [andb].
  destruct (TimePattern.matches (astype_str_cell c)) eqn:E; [reflexivity|].
  now rewrite E.
Qed.

Lemma scrub_series_off (series : Series) :
  scrubbed series = false -> scrub_series series = series.
Proof.
  intros Hoff. unfold scrub_series. rewrite Hoff, scrub_cell_inactive.
  now destruct series.
Qed.

Lemma scrubbed_scrub (series : Series) :
  scrubbed (scrub_series series) = scrubbed series.
Proof.
  destruct (scrubbed series) eqn:Hs; [|now rewrite scrub_series_off, Hs].
  unfold scrubbed in Hs |- *.
  apply andb_prop in Hs. destruct Hs as [Hdtype Hty].
  change (is_numeric_dtype (scrub_series series))
    with (is_numeric_dtype series).
  rewrite Hdtype. cbn [andb].
  rewrite infer_after_scrub; [exact Hty|].
  apply orb_prop in Hty.
  destruct (_infer_column_type series); cbn in Hty; intuition discriminate.
Qed.

Lemma scrub_series_twice (series : Series) :
  scrub_series (scrub_series series) = scrub_series series.
Proof.
  destruct (scrubbed series) eqn:Hs.
  - unfold scrub_series at 1. rewrite scrubbed_scrub, Hs.
    unfold scrub_series. rewrite Hs. cbn [sdtype cells]. f_equal.
    rewrite map_map. apply map_ext. intros c. apply scrub_cell_twice.
  - now rewrite !(scrub_series_off series Hs).
Qed.

(** X6.  [_clean_time_formatted_values] keeps the shape of the frame: the
    labels, their order, the number of rows; and each column keeps its dtype
    and its length, a column of numeric dtype being left as it is. *)
Theorem scrubber_keeps_shape (df : DataFrame) (col : string) (series : Series) :
  NoDup (column_names df) ->
  get_column df col = Some series ->
  column_names (_clean_time_formatted_values df) = column_names df
  /\ nrows (_clean_time_formatted_values df) = nrows df
  /\ exists cleaned,
       get_column (_clean_time_formatted_values df) col = Some cleaned
       /\ sdtype cleaned = sdtype series
       /\ length (cells cleaned) = length (cells series)
       /\ (is_numeric_dtype series = true -> cleaned = series).
Proof.
  intros Hnd Hcol. destruct (clean_spec df Hnd) as (Hnames & Hrows & Hget).
  split; [exact Hnames|]. split; [exact Hrows|].
  exists (scrub_series series). rewrite Hget, Hcol. split; [reflexivity|].
  split; [reflexivity|]. split.
  - unfold scrub_series. cbn [cells]. apply length_map.
  - intros Hnum. apply scrub_series_off. unfold scrubbed. now rewrite Hnum.
Qed.

(** X7.  Scrubbing a scrubbed frame changes nothing: the cells cleared are
    missing values afterwards, which the pattern does not match, and the
    verdict of the inference on a scrubbed column is the one it had. *)
Theorem scrubber_idempotent (df : DataFrame) :
  NoDup (column_names df) ->
  _clean_time_formatted_values (_clean_time_formatted_values df)
  = _clean_time_formatted_values df.
Proof.
  intros Hnd. destruct (clean_spec df Hnd) as (Hnames & Hrows & Hget).
  assert (Hnd' : NoDup (column_names (_clean_time_formatted_values df)))
    by now rewrite Hnames.
  destruct (clean_spec _ Hnd') as (Hnames' & Hrows' & Hget').
  apply frame_ext; [exact Hrows'|exact Hnames'| |].
  - now rewrite Hnames'.
  - intros col. rewrite Hget', Hget.
    destruct (get_column df col) as [s|]; [|reflexivity].
    cbn [option_map]. now rewrite scrub_series_twice.
Qed.

End ScrubberShape.

Lemma scrubber_keeps_shape_witness :
  column_names (_clean_time_formatted_values Samples.clicks_table)
  = column_names Samples.clicks_table
  /\ nrows (_clean_time_formatted_values Samples.clicks_table)
     = nrows Samples.clicks_table
  /\ exists cleaned,
       get_column (_clean_time_formatted_values Samples.clicks_table) "clicks"
       = Some cleaned
       /\ sdtype cleaned = sdtype Samples.clicks
       /\ length (cells cleaned) = length (cells Samples.clicks)
       /\ (is_numeric_dtype Samples.clicks = true -> cleaned = Samples.clicks).
Proof.
  apply (@scrubber_keeps_shape toy_pandas Samples.clicks_table "clicks"
           Samples.clicks).
  - apply (bool_decide_unpack _). vm_compute. reflexivity.
  - reflexivity.
Defined.

Lemma scrubber_idempotent_witness :
  _clean_time_formatted_values (_clean_time_formatted_values Samples.clicks_table)
  = _clean_time_formatted_values Samples.clicks_table.
Proof.
  apply (@scrubber_idempotent toy_pandas Samples.clicks_table).
  apply (bool_decide_unpack _). vm_compute. reflexivity.
Defined.

(** ** The preprocessing pipelines: what is put where nothing was *)

(** The column the backfill assigns for a declared type. *)
Definition backfill_series (n : nat) (ty : ctype) : Series :=
  mkSeries DObject
    (repeat (match ty with STRING => Str "" | _ => Null PyNone end) n).

Section BackfillFacts.
Context `{Pandas}.

Lemma add_missing_column_absent (df : DataFrame) (col : string) (ty : ctype) :
  has_column df col = false ->
  add_missing_column df (col, ty)
  = set_column df col (backfill_series (nrows df) ty).
Proof.
  intros Hc. unfold add_missing_column. rewrite Hc. now destruct ty.
Qed.

Lemma add_missing_column_other (df : DataFrame) (entry : string * ctype)
  (col : string) :
  col <> fst entry ->
  get_column (add_missing_column df entry) col = get_column df col.
Proof.
  destruct entry as [c ty]. cbn [fst]. intros Hne. unfold add_missing_column.
  destruct (has_column df c); [reflexivity|].
  destruct ty; apply get_set_column_ne; congruence.
Qed.

(** A declared column the frame lacks gets the default of its type. *)
Lemma add_missing_absent (expected : list (string * ctype)) :
  forall (df : DataFrame) (col : string) (ty : ctype),
    NoDup (map fst expected) ->
    (col, ty) ∈ expected ->
    has_column df col = false ->
    get_column (add_missing_columns expected df) col
    = Some (backfill_series (nrows df) ty).
Proof.
  induction expected as [|[c0 t0] expected IH]; intros df col ty Hnd Hin Hc;
    [now apply elem_of_nil in Hin|].
  cbn [map fst] in Hnd. apply NoDup_cons in Hnd. destruct Hnd as [Hc0 Hnd].
  unfold add_missing_columns. cbn [fold_left].
  fold (add_missing_columns expected (add_missing_column df (c0, t0))).
  apply elem_of_cons in Hin. destruct Hin as [[= -> ->]|Hin].
  - apply add_missing_present.
    rewrite add_missing_column_absent by exact Hc. apply get_set_column_eq.
  - assert (Hne : col <> c0).
    { intros ->. apply Hc0. apply list_elem_of_fmap. now exists (c0, ty). }
    rewrite (IH (add_missing_column df (c0, t0)) col ty Hnd Hin).
    + now rewrite add_missing_column_rows.
    + rewrite has_column_get, add_missing_column_other by exact Hne.
      now rewrite <- has_column_get.
Qed.

Lemma fold_updates_other (us : list column_update) (col : string) :
  col ∉ map fst us ->
  forall df df',
    fold_left apply_update us (Some df) = Some df' ->
    get_column df' col = get_column df col.
Proof.
  induction us as [|u us IH]; intros Hcol df df' Hrun.
  - cbn in Hrun. now injection Hrun as <-.
  - cbn [map] in Hcol. apply not_elem_of_cons in Hcol. destruct Hcol as [Hne Hcol].
    cbn [fold_left] in Hrun. unfold apply_update at 2 in Hrun.
    destruct (get_column df (fst u)) as [series|]; [|now apply IH].
    destruct (snd u series) as [converted|].
    + rewrite (IH Hcol _ _ Hrun). apply get_set_column_ne. congruence.
    + now rewrite fold_update_None in Hrun.
Qed.

(** [_process_new_columns] leaves the declared columns as they are. *)
Lemma process_new_declared df out col :
  in_schema expected_campaign_columns col = true ->
  _process_new_columns df = Some out ->
  get_column out col = get_column df col.
Proof.
  intros Hin Hrun. unfold _process_new_columns in Hrun.
  rewrite convert_new_as_updates in Hrun.
  apply (fold_updates_other _ col) in Hrun; [exact Hrun|].
  rewrite map_map. cbn [fst]. rewrite map_id. intros Hcol.
  apply elem_of_List_filter in Hcol. destruct Hcol as [_ Hcol].
  now rewrite Hin in Hcol.
Qed.

Lemma drop_duplicates_constant out col d x :
  get_column out col = Some (mkSeries d (repeat x (nrows out))) ->
  get_column (drop_duplicates out) col
  = Some (mkSeries d (repeat x (nrows (drop_duplicates out)))).
Proof.
  intros Hcol. rewrite (drop_duplicates_keeps_column _ _ _ Hcol).
  cbn [sdtype cells]. f_equal. f_equal.
  rewrite <- (duplicated_length out), <- (length_map negb (duplicated out)).
  apply select_repeat.
Qed.

Lemma map_repeat {A B} (f : A -> B) (x : A) (n : nat) :
  map f (repeat x n) = repeat (f x) n.
Proof. induction n as [|n IH]; [reflexivity|]. cbn. now rewrite IH. Qed.

Lemma assoc_get_elem {A} (l : list (string * A)) k v :
  NoDup (map fst l) -> (k, v) ∈ l -> assoc_get l k = Some v.
Proof.
  induction l as [|[k' v'] l IH]; intros Hnd Hin; [now apply elem_of_nil in Hin|].
  cbn [map fst] in Hnd. apply NoDup_cons in Hnd. destruct Hnd as [Hk Hnd].
  cbn [assoc_get]. apply elem_of_cons in Hin. destruct Hin as [[= -> ->]|Hin].
  - now rewrite String.eqb_refl.
  - destruct (String.eqb k k') eqn:E; [|now apply IH].
    apply String.eqb_eq in E. subst k'. destruct Hk.
    apply list_elem_of_fmap. now exists (k, v).
Qed.

(** X8.  In the frame [preprocess_naming_data] returns, the wave_number
    column holds the wave number of the call in every row, whatever the
    export had under that label. *)
Theorem naming_wave_number_column raw wave result :
  preprocess_naming_data raw wave = Some result ->
  get_column result "wave_number"
  = Some (mkSeries DInt (repeat (Num (inject_Z wave)) (nrows result))).
Proof.
  intros Hrun. destruct (naming_data_split _ _ _ Hrun) as (out & Hconv & ->).
  destruct (convert_expected_spec _ _ _ expected_naming_NoDup Hconv)
    as (_ & Hrows & Hget).
  apply drop_duplicates_constant. rewrite Hget.
  rewrite (add_missing_present expected_naming_columns
             (assign_wave_number (normalize_columns raw) wave) "wave_number"
             (scalar_column (normalize_columns raw) DInt (Num (inject_Z wave))))
    by apply get_set_column_eq.
  rewrite Hrows, add_missing_rows. reflexivity.
Qed.

(** X9.  A declared naming column that no label of the export normalizes to
    comes out as a column of empty strings. *)
Theorem naming_backfill_is_empty_text raw wave result col :
  preprocess_naming_data raw wave = Some result ->
  col ∈ map fst expected_naming_columns ->
  has_column (normalize_columns raw) col = false ->
  get_column result col
  = Some (mkSeries DObject (repeat (Str "") (nrows result))).
Proof.
  intros Hrun Hcol Habsent.
  destruct (naming_data_split _ _ _ Hrun) as (out & Hconv & ->).
  destruct (convert_expected_spec _ _ _ expected_naming_NoDup Hconv)
    as (_ & Hrows & Hget).
  apply drop_duplicates_constant. rewrite Hget.
  assert (Hentry : (col, STRING) ∈ expected_naming_columns).
  { apply list_elem_of_fmap in Hcol. destruct Hcol as ([c ty] & -> & Hin).
    pose proof naming_all_strings as Hall.
    rewrite Forall_forall in Hall. specialize (Hall _ Hin). cbn in Hall.
    now subst ty. }
  assert (Hwave : col <> "wave_number").
  { intros ->. revert Hcol. apply (bool_decide_unpack _). vm_compute. reflexivity. }
  rewrite (add_missing_absent expected_naming_columns _ col STRING
             expected_naming_NoDup Hentry).
  2:{ rewrite has_column_get, assign_wave_other by congruence.
      now rewrite <- has_column_get. }
  rewrite (assoc_get_elem _ _ _ expected_naming_NoDup Hentry).
  cbn [convert_series]. unfold astype_str_fillna, backfill_series.
  cbn [cells]. rewrite map_repeat. cbn [astype_str_cell fillna_empty isnull].
  rewrite Hrows, add_missing_rows. reflexivity.
Qed.

(** X10.  A declared campaign column of type INT or FLOAT that no label of
    the export normalizes to comes out with a missing value in every row. *)
Theorem campaign_numeric_backfill_is_missing raw wave result col ty :
  preprocess_campaign_data raw wave = Some result ->
  (col, ty) ∈ expected_campaign_columns ->
  ty = INT \/ ty = FLOAT ->
  col <> "wave_number" ->
  has_column (normalize_columns raw) col = false ->
  exists d,
    get_column result col
    = Some (mkSeries d (repeat (Null NaN) (nrows result))).
Proof.
  intros Hrun Hentry Hty Hwave Habsent.
  destruct (campaign_data_split _ _ _ Hrun) as (out & Hsteps & ->).
  destruct (campaign_steps_split _ _ _ Hsteps) as (df6 & Hconv & Hnew).
  rewrite <- (campaign_backfilled_unfold raw wave) in Hconv.
  destruct (convert_expected_spec _ _ _ expected_campaign_NoDup Hconv)
    as (_ & Hrows6 & Hget6).
  destruct (process_new_names _ _ Hnew) as [_ Hrows].
  pose proof (assoc_get_elem _ _ _ expected_campaign_NoDup Hentry) as Hassoc.
  assert (Hkeys : col <> "ad_name" /\ col <> "ad_set_name").
  { split; intros ->.
    - assert (Hk : assoc_get expected_campaign_columns "ad_name" = Some STRING)
        by (vm_compute; reflexivity).
      rewrite Hk in Hassoc. destruct Hty; congruence.
    - assert (Hk : assoc_get expected_campaign_columns "ad_set_name" = Some STRING)
        by (vm_compute; reflexivity).
      rewrite Hk in Hassoc. destruct Hty; congruence. }
  destruct Hkeys as [Hk1 Hk2].
  assert (Hback :
    get_column (campaign_backfilled raw wave) col
    = Some (backfill_series (nrows raw) ty)).
  { rewrite campaign_backfilled_unfold.
    rewrite (add_missing_absent expected_campaign_columns _ col ty
               expected_campaign_NoDup Hentry).
    - rewrite reconcile_keeps_nrows. unfold assign_wave_number, set_column.
      cbn [nrows]. now destruct (clean_shape (normalize_columns raw)) as [_ ->].
    - rewrite has_column_get, reconcile_other by assumption.
      rewrite assign_wave_other by congruence.
      rewrite <- has_column_get.
      rewrite (has_column_names _ (normalize_columns raw))
        by apply clean_shape.
      exact Habsent. }
  exists (numeric_result_dtype (repeat (Null PyNone) (nrows raw))).
  apply drop_duplicates_constant.
  rewrite (process_new_declared df6 out col); [|now rewrite in_schema_assoc_get, Hassoc|exact Hnew].
  rewrite Hget6, Hback, Hassoc.
  assert (Hconvert : convert_series ty (backfill_series (nrows raw) ty)
                     = Some (to_numeric (backfill_series (nrows raw) ty)))
    by (destruct Hty; subst ty; reflexivity).
  rewrite Hconvert. unfold to_numeric, backfill_series. cbn [cells].
  assert (Hcell : (match ty with STRING => Str "" | _ => Null PyNone end)
                  = Null PyNone) by (destruct Hty; subst ty; reflexivity).
  rewrite Hcell, map_repeat, to_numeric_null. cbn [of_option_num].
  rewrite Hrows, Hrows6, campaign_backfilled_rows. reflexivity.
Qed.

End BackfillFacts.

Lemma naming_wave_number_column_witness :
  exists result,
    preprocess_naming_data Samples.naming_raw 7 = Some result
    /\ get_column result "wave_number"
       = Some (mkSeries DInt (repeat (Num (inject_Z 7)) (nrows result))).
Proof.
  eexists. split; [vm_compute; reflexivity|].
  apply (@naming_wave_number_column toy_pandas Samples.naming_raw 7).
  vm_compute. reflexivity.
Defined.

Lemma naming_backfill_is_empty_text_witness :
  exists result,
    preprocess_naming_data Samples.naming_raw 1 = Some result
    /\ get_column result "concept"
       = Some (mkSeries DObject (repeat (Str "") (nrows result))).
Proof.
  eexists. split; [vm_compute; reflexivity|].
  apply (@naming_backfill_is_empty_text toy_pandas Samples.naming_raw 1).
  - vm_compute. reflexivity.
  - apply (bool_decide_unpack _). vm_compute. reflexivity.
  - vm_compute. reflexivity.
Defined.

#[export] Instance ctype_eq_dec : EqDecision ctype.
Proof. solve_decision. Defined.

Lemma campaign_numeric_backfill_is_missing_witness :
  exists d,
    get_column Samples.campaign_processed "reach"
    = Some (mkSeries d (repeat (Null NaN) (nrows Samples.campaign_processed))).
Proof.
  apply (@campaign_numeric_backfill_is_missing toy_pandas Samples.campaign_raw 1
           Samples.campaign_processed "reach" INT).
  - vm_compute. reflexivity.
  - apply (bool_decide_unpack _). vm_compute. reflexivity.
  - left. reflexivity.
  - discriminate.
  - vm_compute. reflexivity.
Defined.

(** ** The name normalizer: the form of its results *)

(** The characters of a canonical name. *)
Definition canonical_char (c : ascii) : bool :=
  PyStr.is_lower_az c || PyStr.is_digit c || Ascii.eqb c "_".

Definition underscore (c : ascii) : bool := Ascii.eqb c "_".

Definition not_underscore (c : ascii) : bool := negb (Ascii.eqb c "_").

Definition not_blank (c : ascii) : bool := negb (Ascii.eqb c " ").

(** No two [c] in a row. *)
Fixpoint no_run (c : ascii) (s : string) : bool :=
  match s with
  | String a ((String b _) as r) =>
      negb (Ascii.eqb a c && Ascii.eqb b c) && no_run c r
  | _ => true
  end.

Definition first_char (s : string) : option ascii :=
  match s with String a _ => Some a | EmptyString => None end.

Fixpoint last_char (s : string) : option ascii :=
  match s with
  | EmptyString => None
  | String a EmptyString => Some a
  | String _ r => last_char r
  end.

Definition is_char (c : ascii) (o : option ascii) : bool :=
  match o with Some a => Ascii.eqb a c | None => false end.

Lemma forallb_impl (p q : ascii -> bool) (s : string) :
  (forall c, p c = true -> q c = true) ->
  PyStr.forallb p s = true -> PyStr.forallb q s = true.
Proof.
  intros Hpq. induction s as [|c s IH]; [reflexivity|]. cbn [PyStr.forallb].
  intros Hs. apply andb_prop in Hs. destruct Hs as [Hc Hs].
  now rewrite (Hpq c Hc), IH.
Qed.

Lemma forallb_filter (p : ascii -> bool) (s : string) :
  PyStr.forallb p (PyStr.filter p s) = true.
Proof.
  induction s as [|c s IH]; [reflexivity|]. cbn [PyStr.filter].
  destruct (p c) eqn:E; [|exact IH]. cbn [PyStr.forallb]. now rewrite E, IH.
Qed.

Lemma forallb_filter_keeps (p q : ascii -> bool) (s : string) :
  PyStr.forallb p s = true -> PyStr.forallb p (PyStr.filter q s) = true.
Proof.
  induction s as [|c s IH]; [reflexivity|]. cbn [PyStr.forallb PyStr.filter].
  intros Hs. apply andb_prop in Hs. destruct Hs as [Hc Hs].
  destruct (q c); [|now apply IH]. cbn [PyStr.forallb]. now rewrite Hc, IH.
Qed.

Lemma forallb_lstrip (p drop : ascii -> bool) (s : string) :
  PyStr.forallb p s = true -> PyStr.forallb p (PyStr.lstrip drop s) = true.
Proof.
  induction s as [|c s IH]; [reflexivity|]. cbn [PyStr.lstrip].
  intros Hs. destruct (drop c); [|exact Hs].
  cbn [PyStr.forallb] in Hs. apply andb_prop in Hs. now apply IH.
Qed.

Lemma forallb_rstrip (p drop : ascii -> bool) (s : string) :
  PyStr.forallb p s = true -> PyStr.forallb p (PyStr.rstrip drop s) = true.
Proof.
  induction s as [|c s IH]; [reflexivity|]. cbn [PyStr.forallb PyStr.rstrip].
  intros Hs. apply andb_prop in Hs. destruct Hs as [Hc Hs]. specialize (IH Hs).
  destruct (PyStr.rstrip drop s) as [|a r].
  - destruct (drop c); [reflexivity|]. cbn [PyStr.forallb]. now rewrite Hc.
  - cbn [PyStr.forallb] in IH |- *. now rewrite Hc, IH.
Qed.

Lemma forallb_strip_by (p drop : ascii -> bool) (s : string) :
  PyStr.forallb p s = true -> PyStr.forallb p (PyStr.strip_by drop s) = true.
Proof. intros Hs. unfold PyStr.strip_by. now apply forallb_rstrip, forallb_lstrip. Qed.

Lemma forallb_squeeze (p : ascii -> bool) (c : ascii) (s : string) :
  PyStr.forallb p s = true -> PyStr.forallb p (PyStr.squeeze c s) = true.
Proof.
  induction s as [|a s IH]; [reflexivity|]. cbn [PyStr.forallb PyStr.squeeze].
  intros Hs. apply andb_prop in Hs. destruct Hs as [Ha Hs]. specialize (IH Hs).
  destruct (Ascii.eqb a c).
  - destruct s as [|b r]; [cbn [PyStr.forallb]; now rewrite Ha|].
    destruct (Ascii.eqb b c); [exact IH|].
    cbn [PyStr.forallb]. now rewrite Ha, IH.
  - cbn [PyStr.forallb]. now rewrite Ha, IH.
Qed.

Lemma forallb_map (p q : ascii -> bool) (f : ascii -> ascii)
  (g : string -> string) (s : string) :
  (forall c r, g (String c r) = String (f c) (g r)) -> g "" = "" ->
  (forall c, p c = true -> q (f c) = true) ->
  PyStr.forallb p s = true -> PyStr.forallb q (g s) = true.
Proof.
  intros Hg Hnil Hpq. induction s as [|c s IH]; [now rewrite Hnil|].
  rewrite Hg. cbn [PyStr.forallb]. intros Hs. apply andb_prop in Hs.
  destruct Hs as [Hc Hs]. now rewrite (Hpq c Hc), IH.
Qed.

(** The class after the replacement of blanks. *)
Definition replaced_char (c : ascii) : bool :=
  PyStr.is_lower_az c || PyStr.is_upper_az c || PyStr.is_digit c
  || Ascii.eqb c "_".

Lemma replace_blank_class (c : ascii) :
  keep_class c = true ->
  replaced_char (if Ascii.eqb c " " then "_"%char else c) = true.
Proof. destruct c as [[] [] [] [] [] [] [] []]; vm_compute; trivial. Qed.

Lemma lower_char_class (c : ascii) :
  replaced_char c = true -> canonical_char (PyStr.lower_char c) = true.
Proof. destruct c as [[] [] [] [] [] [] [] []]; vm_compute; trivial. Qed.

(** Every character of a normalized name is a small letter, a digit or an
    underscore. *)
Lemma normalized_alphabet (label : string) :
  PyStr.forallb canonical_char (normalize_column_name (Some label)) = true.
Proof.
  unfold normalize_column_name.
  apply forallb_strip_by, forallb_squeeze.
  apply (forallb_map replaced_char canonical_char PyStr.lower_char PyStr.lower);
    [reflexivity|reflexivity|exact lower_char_class|].
  apply (forallb_map keep_class replaced_char
           (fun c => if Ascii.eqb c " " then "_"%char else c)
           (PyStr.replace_char " " "_"));
    [reflexivity|reflexivity|exact replace_blank_class|].
  apply forallb_filter.
Qed.


Lemma no_run_cons (c a : ascii) (r : string) :
  no_run c (String a r)
  = negb (Ascii.eqb a c && is_char c (first_char r)) && no_run c r.
Proof. destruct r as [|b r]; [now rewrite andb_false_r|reflexivity]. Qed.

Lemma first_char_squeeze (c : ascii) (s : string) :
  first_char (PyStr.squeeze c s) = first_char s.
Proof.
  induction s as [|a s IH]; [reflexivity|]. cbn [PyStr.squeeze].
  destruct (Ascii.eqb a c) eqn:Ea; [|reflexivity].
  destruct s as [|b r]; [reflexivity|].
  destruct (Ascii.eqb b c) eqn:Eb; [|reflexivity].
  rewrite IH. cbn [first_char]. apply Ascii.eqb_eq in Ea, Eb. congruence.
Qed.

Lemma no_run_squeeze (c : ascii) (s : string) :
  no_run c (PyStr.squeeze c s) = true.
Proof.
  induction s as [|a s IH]; [reflexivity|]. cbn [PyStr.squeeze].
  destruct (Ascii.eqb a c) eqn:Ea.
  - destruct s as [|b r]; [reflexivity|].
    destruct (Ascii.eqb b c) eqn:Eb; [exact IH|].
    rewrite no_run_cons, IH, first_char_squeeze. cbn [first_char is_char].
    now rewrite Eb, andb_false_r.
  - rewrite no_run_cons, IH, Ea. reflexivity.
Qed.

Lemma no_run_tail (c a : ascii) (r : string) :
  no_run c (String a r) = true -> no_run c r = true.
Proof. rewrite no_run_cons. intros Hs. apply andb_prop in Hs. now destruct Hs. Qed.

Lemma no_run_lstrip (c : ascii) (drop : ascii -> bool) (s : string) :
  no_run c s = true -> no_run c (PyStr.lstrip drop s) = true.
Proof.
  induction s as [|a s IH]; [reflexivity|]. cbn [PyStr.lstrip]. intros Hs.
  destruct (drop a); [|exact Hs]. apply IH. now apply no_run_tail in Hs.
Qed.

Lemma first_char_rstrip (drop : ascii -> bool) (s : string) :
  PyStr.rstrip drop s = "" \/ first_char (PyStr.rstrip drop s) = first_char s.
Proof.
  destruct s as [|a s]; [now left|]. cbn [PyStr.rstrip].
  destruct (PyStr.rstrip drop s) as [|b r].
  - destruct (drop a); [now left|now right].
  - now right.
Qed.

Lemma no_run_rstrip (c : ascii) (drop : ascii -> bool) (s : string) :
  no_run c s = true -> no_run c (PyStr.rstrip drop s) = true.
Proof.
  induction s as [|a s IH]; [reflexivity|]. intros Hs.
  rewrite no_run_cons in Hs. apply andb_prop in Hs. destruct Hs as [Ha Hs].
  specialize (IH Hs). cbn [PyStr.rstrip].
  destruct (first_char_rstrip drop s) as [Hnil|Hfirst].
  - rewrite Hnil. now destruct (drop a).
  - destruct (PyStr.rstrip drop s) as [|b r] eqn:Hr.
    + now destruct (drop a).
    + rewrite no_run_cons, IH, Hfirst, Ha. reflexivity.
Qed.

Lemma first_char_lstrip (drop : ascii -> bool) (s : string) :
  match first_char (PyStr.lstrip drop s) with
  | Some a => drop a = false
  | None => True
  end.
Proof.
  induction s as [|a s IH]; [exact I|]. cbn [PyStr.lstrip].
  destruct (drop a) eqn:E; [exact IH|exact E].
Qed.

Lemma last_char_rstrip (drop : ascii -> bool) (s : string) :
  match last_char (PyStr.rstrip drop s) with
  | Some a => drop a = false
  | None => True
  end.
Proof.
  induction s as [|a s IH]; [exact I|]. cbn [PyStr.rstrip].
  destruct (PyStr.rstrip drop s) as [|b r].
  - destruct (drop a) eqn:E; [exact I|exact E].
  - exact IH.
Qed.

(** X11.  The form of a normalized name: small letters, digits and
    underscores only, no two underscores in a row, none at either end. *)
Theorem normalized_name_form (label : string) :
  let name := normalize_column_name (Some label) in
  PyStr.forallb canonical_char name = true
  /\ no_run "_" name = true
  /\ is_char "_" (first_char name) = false
  /\ is_char "_" (last_char name) = false.
Proof.
  cbv zeta. split; [apply normalized_alphabet|].
  unfold normalize_column_name, PyStr.strip_by.
  set (body := PyStr.squeeze "_" _). split; [|split].
  - apply no_run_rstrip, no_run_lstrip, no_run_squeeze.
  - destruct (first_char_rstrip (Ascii.eqb "_")
                (PyStr.lstrip (Ascii.eqb "_") body)) as [-> | ->];
      [reflexivity|].
    pose proof (first_char_lstrip (Ascii.eqb "_") body) as Hfirst.
    destruct (first_char (PyStr.lstrip (Ascii.eqb "_") body)) as [a|];
      [|reflexivity].
    cbn [is_char]. now rewrite Ascii.eqb_sym.
  - pose proof (last_char_rstrip (Ascii.eqb "_")
                  (PyStr.lstrip (Ascii.eqb "_") body)) as Hlast.
    destruct (last_char _) as [a|]; [|reflexivity].
    cbn [is_char]. now rewrite Ascii.eqb_sym.
Qed.

(** *** Normalizing a normalized name *)

Lemma filter_all (p : ascii -> bool) (s : string) :
  PyStr.forallb p s = true -> PyStr.filter p s = s.
Proof.
  induction s as [|c s IH]; [reflexivity|]. cbn [PyStr.forallb PyStr.filter].
  intros Hs. apply andb_prop in Hs. destruct Hs as [Hc Hs].
  now rewrite Hc, IH.
Qed.

Lemma filter_agree (p q r : ascii -> bool) (s : string) :
  (forall c, p c = true -> q c = r c) ->
  PyStr.forallb p s = true -> PyStr.filter q s = PyStr.filter r s.
Proof.
  intros Hqr. induction s as [|c s IH]; [reflexivity|].
  cbn [PyStr.forallb PyStr.filter]. intros Hs. apply andb_prop in Hs.
  destruct Hs as [Hc Hs]. now rewrite (Hqr c Hc), IH.
Qed.

Lemma forallb_and (p q : ascii -> bool) (s : string) :
  PyStr.forallb p s = true -> PyStr.forallb q s = true ->
  PyStr.forallb (fun c => p c && q c) s = true.
Proof.
  induction s as [|c s IH]; [reflexivity|]. cbn [PyStr.forallb].
  intros Hp Hq. apply andb_prop in Hp, Hq. destruct Hp as [Hp Hps], Hq as [Hq Hqs].
  now rewrite Hp, Hq, IH.
Qed.

Lemma lstrip_nothing (drop : ascii -> bool) (s : string) :
  PyStr.forallb (fun c => negb (drop c)) s = true -> PyStr.lstrip drop s = s.
Proof.
  destruct s as [|c s]; [reflexivity|]. cbn [PyStr.forallb PyStr.lstrip].
  intros Hs. apply andb_prop in Hs. destruct Hs as [Hc _].
  apply negb_true_iff in Hc. now rewrite Hc.
Qed.

Lemma rstrip_nothing (drop : ascii -> bool) (s : string) :
  PyStr.forallb (fun c => negb (drop c)) s = true -> PyStr.rstrip drop s = s.
Proof.
  induction s as [|c s IH]; [reflexivity|]. cbn [PyStr.forallb PyStr.rstrip].
  intros Hs. apply andb_prop in Hs. destruct Hs as [Hc Hs].
  apply negb_true_iff in Hc. rewrite (IH Hs), Hc. now destruct s.
Qed.

Lemma strip_by_nothing (drop : ascii -> bool) (s : string) :
  PyStr.forallb (fun c => negb (drop c)) s = true -> PyStr.strip_by drop s = s.
Proof.
  intros Hs. unfold PyStr.strip_by.
  now rewrite (lstrip_nothing drop s Hs), (rstrip_nothing drop s Hs).
Qed.

Lemma map_nothing (p : ascii -> bool) (f : ascii -> ascii)
  (g : string -> string) (s : string) :
  (forall c r, g (String c r) = String (f c) (g r)) -> g "" = "" ->
  (forall c, p c = true -> f c = c) ->
  PyStr.forallb p s = true -> g s = s.
Proof.
  intros Hg Hnil Hf. induction s as [|c s IH]; [intros _; exact Hnil|].
  cbn [PyStr.forallb]. intros Hs. apply andb_prop in Hs. destruct Hs as [Hc Hs].
  now rewrite Hg, (Hf c Hc), IH.
Qed.

Lemma squeeze_nothing (c : ascii) (s : string) :
  PyStr.forallb (fun a => negb (Ascii.eqb a c)) s = true ->
  PyStr.squeeze c s = s.
Proof.
  induction s as [|a s IH]; [reflexivity|]. cbn [PyStr.forallb PyStr.squeeze].
  intros Hs. apply andb_prop in Hs. destruct Hs as [Ha Hs].
  apply negb_true_iff in Ha. now rewrite Ha, IH.
Qed.

(** Small letters and digits. *)
Definition plain_char (c : ascii) : bool :=
  PyStr.is_lower_az c || PyStr.is_digit c.

Lemma canonical_not_space (c : ascii) :
  canonical_char c = true -> negb (PyStr.is_space c) = true.
Proof. destruct c as [[] [] [] [] [] [] [] []]; vm_compute; trivial. Qed.

Lemma canonical_keep (c : ascii) :
  canonical_char c = true -> keep_class c = not_underscore c.
Proof. destruct c as [[] [] [] [] [] [] [] []]; vm_compute; trivial; discriminate. Qed.

Lemma canonical_plain (c : ascii) :
  canonical_char c && not_underscore c = true -> plain_char c = true.
Proof. destruct c as [[] [] [] [] [] [] [] []]; vm_compute; trivial. Qed.

Lemma plain_facts (c : ascii) :
  plain_char c = true ->
  negb (PyStr.is_space c) = true
  /\ keep_class c = true
  /\ (if Ascii.eqb c " " then "_"%char else c) = c
  /\ PyStr.lower_char c = c
  /\ negb (Ascii.eqb c "_") = true
  /\ negb (Ascii.eqb "_" c) = true.
Proof.
  destruct c as [[] [] [] [] [] [] [] []]; vm_compute; try discriminate;
    intros _; repeat split.
Qed.

(** A name of small letters and digits is its own normal form. *)
Lemma normalize_plain (s : string) :
  PyStr.forallb plain_char s = true -> normalize_column_name (Some s) = s.
Proof.
  intros Hs. unfold normalize_column_name, PyStr.strip.
  rewrite (strip_by_nothing PyStr.is_space s)
    by (revert Hs; apply forallb_impl; intros c Hc; apply (plain_facts c Hc)).
  rewrite (filter_all keep_class s)
    by (revert Hs; apply forallb_impl; intros c Hc; apply (plain_facts c Hc)).
  rewrite (map_nothing plain_char (fun c => if Ascii.eqb c " " then "_"%char else c)
             (PyStr.replace_char " " "_") s);
    [|reflexivity|reflexivity|intros c Hc; apply (plain_facts c Hc)|exact Hs].
  rewrite (map_nothing plain_char PyStr.lower_char PyStr.lower s);
    [|reflexivity|reflexivity|intros c Hc; apply (plain_facts c Hc)|exact Hs].
  rewrite (squeeze_nothing "_" s)
    by (revert Hs; apply forallb_impl; intros c Hc; apply (plain_facts c Hc)).
  apply strip_by_nothing.
  revert Hs. apply forallb_impl. intros c Hc. apply (plain_facts c Hc).
Qed.

Lemma unscored_plain (s : string) :
  PyStr.forallb canonical_char s = true ->
  PyStr.forallb plain_char (PyStr.filter not_underscore s) = true.
Proof.
  intros Hs.
  apply (forallb_impl (fun c => canonical_char c && not_underscore c));
    [exact canonical_plain|].
  apply forallb_and; [now apply forallb_filter_keeps|apply forallb_filter].
Qed.

(** X12.  What the normalizer does to a name it returned: it deletes the
    underscores, and nothing else; from the second application on the name
    no longer changes. *)
Theorem renormalizing_deletes_underscores (label : string) :
  let once := normalize_column_name (Some label) in
  let twice := normalize_column_name (Some once) in
  twice = PyStr.filter not_underscore once
  /\ normalize_column_name (Some twice) = twice.
Proof.
  cbv zeta. set (once := normalize_column_name (Some label)).
  pose proof (normalized_alphabet label) as Hcanon. fold once in Hcanon.
  assert (Htwice : normalize_column_name (Some once)
                   = PyStr.filter not_underscore once).
  { unfold normalize_column_name at 1. unfold PyStr.strip.
    rewrite (strip_by_nothing PyStr.is_space once)
      by (revert Hcanon; apply forallb_impl; exact canonical_not_space).
    rewrite (filter_agree canonical_char keep_class not_underscore once
               canonical_keep Hcanon).
    pose proof (unscored_plain once Hcanon) as Hplain.
    set (z := PyStr.filter not_underscore once) in *.
    rewrite (map_nothing plain_char (fun c => if Ascii.eqb c " " then "_"%char else c)
               (PyStr.replace_char " " "_") z);
      [|reflexivity|reflexivity|intros c Hc; apply (plain_facts c Hc)|exact Hplain].
    rewrite (map_nothing plain_char PyStr.lower_char PyStr.lower z);
      [|reflexivity|reflexivity|intros c Hc; apply (plain_facts c Hc)|exact Hplain].
    rewrite (squeeze_nothing "_" z)
      by (revert Hplain; apply forallb_impl; intros c Hc; apply (plain_facts c Hc)).
    apply strip_by_nothing.
    revert Hplain. apply forallb_impl. intros c Hc. apply (plain_facts c Hc). }
  split; [exact Htwice|]. rewrite Htwice.
  apply normalize_plain, unscored_plain, Hcanon.
Qed.

(** *** Where the underscores come from *)

(** Letters and digits. *)
Definition alnum_char (c : ascii) : bool :=
  PyStr.is_lower_az c || PyStr.is_upper_az c || PyStr.is_digit c.

Lemma kept_not_blank (c : ascii) :
  keep_class c && not_blank c = true -> alnum_char c = true.
Proof. destruct c as [[] [] [] [] [] [] [] []]; vm_compute; trivial. Qed.

Lemma alnum_facts (c : ascii) :
  alnum_char c = true ->
  (if Ascii.eqb c " " then "_"%char else c) = c
  /\ not_underscore (PyStr.lower_char c) = true.
Proof.
  destruct c as [[] [] [] [] [] [] [] []]; vm_compute; try discriminate;
    intros _; repeat split.
Qed.

(** A label without blanks normalizes to a name without underscores. *)
Lemma no_blank_no_underscore (label : string) :
  PyStr.forallb not_blank label = true ->
  PyStr.forallb not_underscore (normalize_column_name (Some label)) = true.
Proof.
  intros Hlabel. unfold normalize_column_name.
  apply forallb_strip_by, forallb_squeeze.
  set (kept := PyStr.filter keep_class (PyStr.strip label)).
  assert (Hkept : PyStr.forallb alnum_char kept = true).
  { apply (forallb_impl (fun c => keep_class c && not_blank c));
      [exact kept_not_blank|].
    apply forallb_and; [apply forallb_filter|].
    apply forallb_filter_keeps. unfold PyStr.strip.
    now apply forallb_strip_by. }
  rewrite (map_nothing alnum_char (fun c => if Ascii.eqb c " " then "_"%char else c)
             (PyStr.replace_char " " "_") kept);
    [|reflexivity|reflexivity|intros c Hc; apply (alnum_facts c Hc)|exact Hkept].
  apply (forallb_map alnum_char not_underscore PyStr.lower_char PyStr.lower);
    [reflexivity|reflexivity|intros c Hc; apply (alnum_facts c Hc)|exact Hkept].
Qed.


(** ** The validators *)

Lemma name_in_elem_of (x : string) (xs : list string) :
  name_in x xs = true <-> x ∈ xs.
Proof.
  unfold name_in. rewrite existsb_exists. split.
  - intros (y & Hy & He). apply String.eqb_eq in He. subst y.
    now apply list_elem_of_In.
  - intros Hx. exists x. split; [now apply list_elem_of_In|apply String.eqb_refl].
Qed.

Lemma normalized_columns_names (df : DataFrame) :
  column_names (normalize_columns df) = normalized_columns df.
Proof.
  unfold normalize_columns, normalized_columns, column_names. cbn [columns].
  rewrite !map_map. apply map_ext. now intros [col s].
Qed.

Lemma has_normalized_column (df : DataFrame) (name : string) :
  has_column (normalize_columns df) name = name_in name (normalized_columns df).
Proof. unfold has_column. now rewrite normalized_columns_names. Qed.

(** The verdict of [validate_campaign_data], computed directly. *)
Definition campaign_verdict (df : DataFrame) : bool :=
  negb (frame_empty df)
  && (name_in "ad_name" (normalized_columns df)
      || name_in "ad_set_name" (normalized_columns df))
  && List.forallb (fun col => negb (to_numeric_raises df col))
       ["Impressions"; "Results"; "Reach"].

Lemma raises_in (df : DataFrame) (col : string) :
  to_numeric_raises df col = true -> name_in col (column_names df) = true.
Proof.
  unfold to_numeric_raises, name_in. intros Hr. apply Nat.ltb_lt in Hr.
  destruct (List.filter (String.eqb col) (column_names df)) as [|x l] eqn:Hf;
    [cbn in Hr; lia|].
  assert (Hin : List.In x (List.filter (String.eqb col) (column_names df)))
    by (rewrite Hf; now left).
  apply filter_In in Hin. apply existsb_exists. now exists x.
Qed.

Lemma campaign_verdict_facts (df : DataFrame) :
  fst (fst (validate_campaign_data df)) = campaign_verdict df
  /\ fst (fst (validate_campaign_data df))
     = match snd (fst (validate_campaign_data df)) with
       | [] => true
       | _ :: _ => false
       end.
Proof.
  unfold validate_campaign_data, campaign_verdict.
  destruct (frame_empty df); [split; reflexivity|].
  cbv zeta. cbn [negb andb].
  set (has_ad_name := name_in "ad_name" (normalized_columns df)).
  set (has_ad_set_name := name_in "ad_set_name" (normalized_columns df)).
  set (type_errors :=
         map (fun col => "Cannot convert " ++ col ++ " to numeric")
           (List.filter
              (fun col => name_in col (column_names df) && to_numeric_raises df col)
              ["Impressions"; "Results"; "Reach"])).
  assert (Hraise : forall col,
            name_in col (column_names df) && to_numeric_raises df col
            = to_numeric_raises df col).
  { intros col. destruct (to_numeric_raises df col) eqn:Hr;
      [now rewrite (raises_in df col Hr)|apply andb_false_r]. }
  assert (Htype : (length type_errors =? 0)%nat
                  = List.forallb (fun col => negb (to_numeric_raises df col))
                      ["Impressions"; "Results"; "Reach"]).
  { subst type_errors. cbn [List.filter List.forallb]. rewrite !Hraise.
    destruct (to_numeric_raises df "Impressions"),
             (to_numeric_raises df "Results"),
             (to_numeric_raises df "Reach"); reflexivity. }
  assert (Hlen : forall l : list string,
            (length l =? 0)%nat = match l with [] => true | _ :: _ => false end).
  { now intros [|x l]. }
  destruct has_ad_name, has_ad_set_name; cbn [negb andb orb fst snd app];
    (split; [try exact Htype; try reflexivity|apply Hlen]).
Qed.

(** X13.  [validate_campaign_data] accepts a frame exactly when it has a row
    and a column, one of its labels normalizes to ad_name or to ad_set_name,
    and none of the labels Impressions, Results and Reach occurs twice; the
    verdict is true exactly when the list of errors is empty. *)
Theorem validate_campaign_data_verdict (df : DataFrame) :
  fst (fst (validate_campaign_data df)) = campaign_verdict df
  /\ fst (fst (validate_campaign_data df))
     = match snd (fst (validate_campaign_data df)) with
       | [] => true
       | _ :: _ => false
       end.
Proof. exact (campaign_verdict_facts df). Qed.

(** The verdict of [validate_naming_data], computed directly. *)
Definition naming_verdict (df : DataFrame) : bool :=
  negb (frame_empty df) && name_in "ad_set_name" (normalized_columns df).

Lemma naming_verdict_facts (df : DataFrame) :
  fst (fst (validate_naming_data df)) = naming_verdict df
  /\ length (snd (fst (validate_naming_data df)))
     = (if fst (fst (validate_naming_data df)) then 0 else 1)%nat
  /\ (length (snd (validate_naming_data df)) <= 1)%nat.
Proof.
  unfold validate_naming_data, naming_verdict.
  destruct (frame_empty df); [repeat split; cbn; lia|].
  cbv zeta. cbn [negb andb].
  destruct (name_in "ad_set_name" (normalized_columns df));
    cbn [negb fst snd length Nat.eqb];
    (split; [reflexivity|]); (split; [reflexivity|]);
    destruct (missing_optional_naming df); cbn; lia.
Qed.

(** X14.  [validate_naming_data] accepts a frame exactly when it has a row
    and a column and one of its labels normalizes to ad_set_name; a rejected
    frame comes with exactly one error, and there is at most one warning. *)
Theorem validate_naming_data_verdict (df : DataFrame) :
  fst (fst (validate_naming_data df)) = naming_verdict df
  /\ length (snd (fst (validate_naming_data df)))
     = (if fst (fst (validate_naming_data df)) then 0 else 1)%nat
  /\ (length (snd (validate_naming_data df)) <= 1)%nat.
Proof. exact (naming_verdict_facts df). Qed.

(** X15.  A frame none of whose labels has a blank is rejected by both
    validators: an underscore of a normalized name can only come from a
    blank, and both key names have underscores.  A frame whose labels are
    canonical already, as the processor returns it, does not pass. *)
Theorem labels_without_blanks_are_rejected (df : DataFrame) :
  Forall (fun col => PyStr.forallb not_blank col = true) (column_names df) ->
  fst (fst (validate_naming_data df)) = false
  /\ fst (fst (validate_campaign_data df)) = false.
Proof.
  intros Hlabels.
  assert (Hnone : forall key,
            PyStr.forallb not_underscore key = false ->
            name_in key (normalized_columns df) = false).
  { intros key Hkey. destruct (name_in key (normalized_columns df)) eqn:Hin;
      [|reflexivity].
    apply name_in_elem_of in Hin. unfold normalized_columns in Hin.
    apply list_elem_of_fmap in Hin. destruct Hin as (col & -> & Hcol).
    rewrite Forall_forall in Hlabels.
    rewrite (no_blank_no_underscore col (Hlabels col Hcol)) in Hkey.
    discriminate. }
  split.
  - rewrite (proj1 (naming_verdict_facts df)). unfold naming_verdict.
    rewrite (Hnone "ad_set_name" eq_refl). apply andb_false_r.
  - rewrite (proj1 (campaign_verdict_facts df)).
    unfold campaign_verdict.
    rewrite (Hnone "ad_set_name" eq_refl), (Hnone "ad_name" eq_refl).
    cbn [orb]. now rewrite andb_false_r.
Qed.

Lemma labels_without_blanks_are_rejected_witness :
  fst (fst (validate_naming_data Samples.only_ad_set_name)) = false
  /\ fst (fst (validate_campaign_data Samples.only_ad_set_name)) = false.
Proof.
  apply (labels_without_blanks_are_rejected Samples.only_ad_set_name).
  repeat constructor.
Defined.

(** The same frame with the label as an export writes it is accepted. *)
Example label_with_blanks_is_accepted :
  let frame :=
    mkFrame 2 [ ("Ad Set Name", mkSeries DObject [Str "X"; Str "Y"]) ] in
  fst (fst (validate_naming_data frame)) = true
  /\ fst (fst (validate_campaign_data frame)) = true.
Proof. split; reflexivity. Qed.

(** The validators' lists of expected columns are the declared schemas of
    the processor. *)
Lemma validator_lists_agree :
  validator_campaign_columns = map fst expected_campaign_columns
  /\ validator_naming_columns = map fst expected_naming_columns.
Proof. split; reflexivity. Qed.

Lemma missing_optional_campaign_elem (df : DataFrame) (col : string) :
  col ∈ missing_optional_campaign df ->
  col ∈ validator_campaign_columns
  /\ name_in col (normalized_columns df) = false.
Proof.
  unfold missing_optional_campaign. generalize validator_campaign_columns.
  intros names Hcol. apply elem_of_List_filter in Hcol.
  destruct Hcol as [Hcol Hmissing]. split; [exact Hcol|].
  apply andb_prop in Hmissing. destruct Hmissing as [Hmissing _].
  now apply negb_true_iff in Hmissing.
Qed.

Lemma missing_optional_naming_elem (df : DataFrame) (col : string) :
  col ∈ missing_optional_naming df ->
  col ∈ validator_naming_columns
  /\ name_in col (normalized_columns df) = false.
Proof.
  unfold missing_optional_naming. generalize validator_naming_columns.
  intros names Hcol. apply elem_of_List_filter in Hcol.
  destruct Hcol as [Hcol Hmissing]. split; [exact Hcol|].
  apply andb_prop in Hmissing. destruct Hmissing as [Hmissing _].
  now apply negb_true_iff in Hmissing.
Qed.

Section ReportedMissing.
Context `{Pandas}.

(** X16.  A column a validator reports as missing and to be filled is not in
    the normalized export and is in the frame the processor returns for that
    export: the validators' lists are the declared schemas of the
    processor. *)
Theorem reported_missing_columns_are_backfilled raw wave result col :
  (col ∈ missing_optional_campaign raw
   /\ preprocess_campaign_data raw wave = Some result)
  \/ (col ∈ missing_optional_naming raw
      /\ preprocess_naming_data raw wave = Some result) ->
  has_column (normalize_columns raw) col = false
  /\ has_column result col = true.
Proof.
  destruct validator_lists_agree as [Hcampaign Hnaming].
  intros [[Hcol Hrun]|[Hcol Hrun]].
  - apply missing_optional_campaign_elem in Hcol.
    destruct Hcol as [Hcol Hmissing].
    split; [now rewrite has_normalized_column|].
    rewrite Hcampaign in Hcol.
    destruct (campaign_result_shape _ _ _ Hrun) as (out & -> & Hnames & _).
    rewrite (has_column_names _ out) by apply drop_duplicates_names.
    rewrite (has_column_names _ _ col Hnames).
    rewrite campaign_backfilled_unfold. now apply add_missing_complete.
  - apply missing_optional_naming_elem in Hcol.
    destruct Hcol as [Hcol Hmissing].
    split; [now rewrite has_normalized_column|].
    rewrite Hnaming in Hcol.
    destruct (naming_result_shape _ _ _ Hrun) as (out & -> & Hnames & _).
    rewrite (has_column_names _ out) by apply drop_duplicates_names.
    rewrite (has_column_names _ _ col Hnames).
    now apply add_missing_complete.
Qed.

End ReportedMissing.

Lemma reported_missing_columns_are_backfilled_witness :
  has_column (normalize_columns Samples.campaign_raw) "reach" = false
  /\ has_column Samples.campaign_processed "reach" = true.
Proof.
  apply (@reported_missing_columns_are_backfilled toy_pandas
           Samples.campaign_raw 1 Samples.campaign_processed "reach").
  left. split.
  - apply (bool_decide_unpack _). vm_compute. reflexivity.
  - vm_compute. reflexivity.
Defined.

(** ** The upsert on the executable warehouse *)

Import Warehouse WarehouseRuns UpsertTwice.

(** X17.  The temporary table of an upsert is never the destination table,
    not even up to the case folding of unquoted identifiers, whatever the
    platform prefix and the wave number: the MERGE cannot read the table it
    writes, and the final DROP cannot remove the destination. *)
Theorem temporary_table_is_not_destination (prefix : string) (wave_number : Z) :
  PyStr.upper (prefix ++ table_suffix naming_keys)
  <> PyStr.upper (prefix ++ temp_infix naming_keys ++ PyStr.str_int wave_number)
  /\ PyStr.upper (prefix ++ table_suffix campaign_data)
     <> PyStr.upper (prefix ++ temp_infix campaign_data
                     ++ PyStr.str_int wave_number).
Proof.
  split; [apply naming_tables_differ|apply campaign_tables_differ].
Qed.

Lemma expand_columns_grows (names exclude cols : list string) :
  exists extra, expand_columns names exclude cols = (cols ++ extra)%list.
Proof.
  unfold expand_columns. destruct (bool_decide _).
  - exists []. now rewrite app_nil_r.
  - apply fold_alter_grows.
Qed.


Section ExpansionOnWarehouse.
Context `{Pandas}.

(** X18.  Schema expansion is additive on the warehouse: the table named
    keeps its columns, in their order, and its rows, and gains columns at the
    end; every other table, and the caller's frame, stay as they are; a table
    that does not exist is not created. *)
Theorem expansion_is_additive (t : TableRef) (df : DataFrame)
  (exclude : list string) (m : @Machine toy_warehouse) :
  let after := fst (expand_table_schema t df exclude m) in
  let key := resolve (warehouse m) t in
  caller_df after = caller_df m
  /\ (forall other, other <> key ->
        tables (warehouse after) !! other = tables (warehouse m) !! other)
  /\ match tables (warehouse m) !! key with
     | Some tb =>
         exists extra,
           tables (warehouse after) !! key
           = Some (mkTable (table_columns tb ++ extra)%list (table_rows tb))
     | None => tables (warehouse after) !! key = None
     end.
Proof.
  cbv zeta. destruct (expand_world t df exclude m) as (j & res & ->).
  cbn [fst warehouse caller_df]. split; [reflexivity|].
  unfold expanded_world.
  destruct (tables (warehouse m) !! resolve (warehouse m) t) as [tb|] eqn:Hl.
  - destruct (expand_columns_grows (column_names df) exclude (table_columns tb))
      as [extra ->].
    unfold set_table. cbn [tables]. split.
    + intros other Hother. now apply lookup_insert_ne.
    + exists extra. apply lookup_insert_eq.
  - split; [reflexivity|exact Hl].
Qed.


End ExpansionOnWarehouse.

Lemma merged_table_grows (plan : MergePlan) (tb src : Table) :
  exists rows,
    merged_table plan tb src = mkTable (table_columns tb) rows
    /\ (length (table_rows tb) <= length rows)%nat.
Proof.
  unfold merged_table. destruct (_ && _).
  - eexists. split; [reflexivity|]. unfold merged_rows.
    rewrite length_app, length_map. lia.
  - exists (table_rows tb). split; [now destruct tb|lia].
Qed.

(** What an upsert leaves of the tables, by the frame as stamped. *)
Lemma stamped_world_frame (kind : UpsertKind) (schema_name prefix : string)
  (wave_number : Z) (df : DataFrame) (w : State) :
  PyStr.upper (prefix ++ table_suffix kind)
  <> PyStr.upper (prefix ++ temp_infix kind ++ PyStr.str_int wave_number) ->
  let after := stamped_world kind schema_name prefix wave_number df w in
  let destination :=
    resolve w (mkRef None schema_name (prefix ++ table_suffix kind)) in
  let temporary :=
    resolve w (temp_table kind schema_name prefix wave_number
                 (current_database w)) in
  (forall other, other <> destination -> other <> temporary ->
     tables after !! other = tables w !! other)
  /\ (forall tb, tables w !! destination = Some tb ->
        exists extra rows,
          tables after !! destination
          = Some (mkTable (table_columns tb ++ extra)%list rows)
          /\ (length (table_rows tb) <= length rows)%nat).
Proof.
  intros Hne. cbv zeta.
  set (t := mkRef None schema_name (prefix ++ table_suffix kind)).
  set (temp := temp_table kind schema_name prefix wave_number (current_database w)).
  assert (Hkeys : resolve w t <> resolve w temp).
  { unfold resolve, t, temp, temp_table.
    cbn [ref_database ref_schema ref_table].
    intros [= Heq]. exact (Hne Heq). }
  destruct (tables w !! resolve w t) as [tb0|] eqn:Hl.
  2:{ rewrite (stamped_world_absent kind schema_name prefix wave_number df w Hl).
      split; [reflexivity|]. intros tb Htb. congruence. }
  rewrite (stamped_world_present kind schema_name prefix wave_number df w tb0 Hl).
  cbv zeta. fold t.
  destruct (expand_columns_grows (column_names df) ["upload_timestamp"]
              (table_columns tb0)) as [extra Hextra].
  rewrite Hextra.
  destruct (filtered_columns (lower_set (table_columns tb0 ++ extra)) df)
    as [|c0 cs].
  - unfold set_table. cbn [tables]. split.
    + intros other Hother _. now apply lookup_insert_ne.
    + intros tb [= <-]. exists extra, (table_rows tb0).
      split; [apply lookup_insert_eq|lia].
  - fold temp. cbn [tables].
    set (plan := merge_plan kind schema_name prefix wave_number
                   (current_database w) (c0 :: cs)).
    destruct (merged_table_grows plan
                (mkTable (table_columns tb0 ++ extra)%list (table_rows tb0))
                (staged_table df (c0 :: cs))) as (rows & -> & Hrows).
    cbn [table_columns table_rows] in *. split.
    + intros other Hother Htemp.
      rewrite lookup_delete_ne by congruence. now apply lookup_insert_ne.
    + intros tb [= <-]. exists extra, rows. split; [|exact Hrows].
      rewrite lookup_delete_ne by congruence. apply lookup_insert_eq.
Qed.

Section UpsertFrame.
Context `{Pandas}.

(** X20.  An upsert changes no table of the warehouse but its destination
    and its temporary table; and the destination keeps its columns, in their
    order, gaining columns at the end only, and has at least the rows it
    had. *)
Theorem upsert_touches_destination_and_temporary_only (kind : UpsertKind)
  (schema_name platform : string) (wave_number now : Z)
  (conn provider : option Conn) (m : @Machine toy_warehouse) :
  kind = campaign_data \/ kind = naming_keys ->
  let after :=
    warehouse (fst (populate_table kind schema_name platform wave_number
                      conn provider now m)) in
  let w := warehouse m in
  let prefix := PyStr.upper platform in
  let destination :=
    resolve w (mkRef None schema_name (prefix ++ table_suffix kind)) in
  let temporary :=
    resolve w (temp_table kind schema_name prefix wave_number
                 (current_database w)) in
  (forall other, other <> destination -> other <> temporary ->
     tables after !! other = tables w !! other)
  /\ (forall tb, tables w !! destination = Some tb ->
        exists extra rows,
          tables after !! destination
          = Some (mkTable (table_columns tb ++ extra)%list rows)
          /\ (length (table_rows tb) <= length rows)%nat).
Proof.
  intros Hkind. cbv zeta.
  assert (Hne : PyStr.upper (PyStr.upper platform ++ table_suffix kind)
                <> PyStr.upper (PyStr.upper platform ++ temp_infix kind
                                ++ PyStr.str_int wave_number)).
  { destruct Hkind as [-> | ->];
      [apply campaign_tables_differ|apply naming_tables_differ]. }
  assert (Hcases : (conn = None /\ provider = None)
                   \/ (conn <> None \/ provider <> None)).
  { destruct conn; [right; left; discriminate|].
    destruct provider; [right; right; discriminate|]. now left. }
  destruct Hcases as [[-> ->]|Hsession].
  - rewrite populate_no_session. cbn [fst]. split; [reflexivity|].
    intros tb Htb. exists [], (table_rows tb). rewrite app_nil_r.
    split; [rewrite Htb; now destruct tb|lia].
  - destruct (populate_world kind schema_name platform wave_number now
                conn provider m Hne Hsession) as (j & out & ->).
    cbn [fst warehouse].
    exact (stamped_world_frame kind schema_name (PyStr.upper platform)
             wave_number (stamp (caller_df m) wave_number now) (warehouse m) Hne).
Qed.

End UpsertFrame.

Lemma upsert_touches_destination_and_temporary_only_witness :
  let after :=
    warehouse (fst (populate_table campaign_data "CLIENT_X_2024" "meta" 1
                      (Some LiveSession) None 1000 (Runs.start Runs.wave1))) in
  let destination := ("DB", "CLIENT_X_2024", "META_PROCESSED_CAMPAIGN_DATA") in
  let temporary := ("DB", "CLIENT_X_2024", "META_CAMPAIGN_DATA_TEMP_1") in
  (forall other, other <> destination -> other <> temporary ->
     tables after !! other = tables Runs.world !! other)
  /\ (forall tb, tables Runs.world !! destination = Some tb ->
        exists extra rows,
          tables after !! destination
          = Some (mkTable (table_columns tb ++ extra)%list rows)
          /\ (length (table_rows tb) <= length rows)%nat).
Proof.
  apply (@upsert_touches_destination_and_temporary_only toy_pandas
           campaign_data "CLIENT_X_2024" "meta" 1 1000 (Some LiveSession) None
           (Runs.start Runs.wave1)).
  left. reflexivity.
Defined.

(** ** File names *)

Lemma forallb_app (p : ascii -> bool) (a b : string) :
  PyStr.forallb p (a ++ b) = PyStr.forallb p a && PyStr.forallb p b.
Proof.
  induction a as [|c a IH]; [reflexivity|].
  change (String c a ++ b) with (String c (a ++ b)).
  cbn [PyStr.forallb]. now rewrite IH, andb_assoc.
Qed.

Lemma digit_char_digit (n : N) :
  (n < 10)%N -> PyStr.is_digit (PyStr.digit_char n) = true.
Proof.
  intros Hn. unfold PyStr.is_digit, PyStr.in_range, PyStr.code, PyStr.digit_char.
  rewrite N_ascii_embedding by lia.
  apply andb_true_intro. split; apply N.leb_le; lia.
Qed.

(** The characters of [str(n)]. *)
Definition numeral_char (c : ascii) : bool :=
  PyStr.is_digit c || Ascii.eqb c "-".

Lemma digits_of_numeral (fuel : nat) : forall (n : N) (acc : string),
  PyStr.forallb numeral_char acc = true ->
  PyStr.forallb numeral_char (PyStr.digits_of fuel n acc) = true.
Proof.
  induction fuel as [|fuel IH]; intros n acc Hacc; [exact Hacc|].
  cbn [PyStr.digits_of].
  assert (Hstep : PyStr.forallb numeral_char
                    (String (PyStr.digit_char (n mod 10)) acc) = true).
  { cbn [PyStr.forallb]. unfold numeral_char at 1.
    rewrite digit_char_digit by (apply N.mod_lt; lia). exact Hacc. }
  destruct (n <? 10)%N; [exact Hstep|]. now apply IH.
Qed.

Lemma str_int_numeral (z : Z) :
  PyStr.forallb numeral_char (PyStr.str_int z) = true.
Proof.
  unfold PyStr.str_int. destruct (z <? 0)%Z.
  - cbn [PyStr.forallb]. rewrite digits_of_numeral; reflexivity.
  - apply digits_of_numeral. reflexivity.
Qed.

Lemma numeral_not_blank (c : ascii) : numeral_char c = true -> not_blank c = true.
Proof. destruct c as [[] [] [] [] [] [] [] []]; vm_compute; trivial. Qed.

Lemma replaced_not_blank (s : string) :
  PyStr.forallb not_blank (PyStr.replace_char " " "_" s) = true.
Proof.
  induction s as [|c s IH]; [reflexivity|].
  cbn [PyStr.replace_char PyStr.forallb]. rewrite IH, andb_true_r.
  unfold not_blank. destruct (Ascii.eqb c " ") eqn:E; [reflexivity|].
  now rewrite E.
Qed.

Lemma lower_char_twice (c : ascii) :
  PyStr.lower_char (PyStr.lower_char c) = PyStr.lower_char c.
Proof. destruct c as [[] [] [] [] [] [] [] []]; vm_compute; reflexivity. Qed.

Lemma lower_twice (s : string) : PyStr.lower (PyStr.lower s) = PyStr.lower s.
Proof.
  induction s as [|c s IH]; [reflexivity|]. cbn [PyStr.lower].
  now rewrite lower_char_twice, IH.
Qed.

(** X21.  The standardized file name has no blank in it when the file type
    has none: the blanks of the client and of the platform are replaced,
    and the numbers have none. *)
Theorem standardized_name_has_no_blank (original_filename : string)
  (wave_number : Z) (client_name platform : string) (year : Z)
  (file_type : string) :
  PyStr.forallb not_blank file_type = true ->
  PyStr.forallb not_blank
    (rename_uploaded_file original_filename wave_number client_name platform
       year file_type) = true.
Proof.
  intros Htype. unfold rename_uploaded_file. cbv zeta.
  assert (Hint : forall z, PyStr.forallb not_blank (PyStr.str_int z) = true).
  { intros z. apply (forallb_impl numeral_char); [exact numeral_not_blank|].
    apply str_int_numeral. }
  rewrite !forallb_app, !replaced_not_blank, !Hint, Htype. reflexivity.
Qed.

(** X22.  The standardized file name does not depend on the name the file
    was uploaded under, nor on the letter case of the client and of the
    platform. *)
Theorem standardized_name_ignores_case_and_original
  (original other_original : string) (wave_number : Z)
  (client_name platform : string) (year : Z) (file_type : string) :
  rename_uploaded_file original wave_number
    (PyStr.lower client_name) (PyStr.lower platform) year file_type
  = rename_uploaded_file other_original wave_number client_name platform
      year file_type.
Proof. unfold rename_uploaded_file. now rewrite !lower_twice. Qed.

Lemma standardized_name_has_no_blank_witness :
  PyStr.forallb not_blank
    (rename_uploaded_file "Wave 1 export.csv" 1 "Cater Pillar" "Meta" 2024
       "campaigns") = true.
Proof.
  apply (standardized_name_has_no_blank "Wave 1 export.csv" 1 "Cater Pillar"
           "Meta" 2024 "campaigns").
  reflexivity.
Defined.

Example standardized_name_example :
  rename_uploaded_file "Wave 1 export.csv" 1 "Cater Pillar" "Meta" 2024
    "campaigns"
  = "cater_pillar_meta_2024_wave1_campaigns.csv".
Proof. reflexivity. Qed.

(** ** Tables as created, frames as processed *)

Import Warehouse WarehouseRuns UpsertTwice.

(** The columns of a table after the CREATE TABLE statement that lists
    [ddl]: unquoted identifiers are kept in upper case. *)
Definition created_columns (ddl : list (string * string)) : list string :=
  map (fun entry => PyStr.upper (fst entry)) ddl.

Lemma names_set_column_elem (df : DataFrame) (col : string) (s : Series)
  (c : string) :
  c ∈ column_names (set_column df col s) -> c ∈ column_names df \/ c = col.
Proof.
  destruct (get_column df col) as [s0|] eqn:Hg.
  - rewrite (names_set_column_present _ _ _ _ Hg). now left.
  - rewrite (names_set_column_absent _ _ _ Hg). intros Hc.
    apply elem_of_app in Hc. destruct Hc as [Hc|Hc]; [now left|right].
    now apply list_elem_of_singleton in Hc.
Qed.

Section CreatedTables.
Context `{Pandas}.

Lemma add_missing_column_names_elem (df : DataFrame) (entry : string * ctype)
  (c : string) :
  c ∈ column_names (add_missing_column df entry) ->
  c ∈ column_names df \/ c = fst entry.
Proof.
  destruct entry as [col ty]. unfold add_missing_column. cbn [fst].
  destruct (has_column df col); [now left|].
  destruct ty; apply names_set_column_elem.
Qed.

Lemma add_missing_names_elem (expected : list (string * ctype)) :
  forall (df : DataFrame) (c : string),
    c ∈ column_names (add_missing_columns expected df) ->
    c ∈ column_names df \/ c ∈ map fst expected.
Proof.
  induction expected as [|entry expected IH]; intros df c Hc; [now left|].
  unfold add_missing_columns in Hc. cbn [fold_left] in Hc.
  fold (add_missing_columns expected (add_missing_column df entry)) in Hc.
  destruct (IH _ _ Hc) as [Hin|Hin].
  - destruct (add_missing_column_names_elem _ _ _ Hin) as [Hdf| ->];
      [now left|right].
    cbn [map]. apply elem_of_cons. now left.
  - right. cbn [map]. apply elem_of_cons. now right.
Qed.

Lemma reconcile_names_elem (df : DataFrame) (c : string) :
  c ∈ column_names (reconcile_keys df) ->
  c ∈ column_names df \/ c = "ad_name" \/ c = "ad_set_name".
Proof.
  unfold reconcile_keys.
  destruct (negb (has_column df "ad_name") && has_column df "ad_set_name").
  { destruct (get_column df "ad_set_name"); [|now left].
    intros Hc. apply names_set_column_elem in Hc. tauto. }
  destruct (has_column df "ad_name" && negb (has_column df "ad_set_name")).
  { destruct (get_column df "ad_name"); [|now left].
    intros Hc. apply names_set_column_elem in Hc. tauto. }
  destruct (has_column df "ad_name" && has_column df "ad_set_name");
    [|now left].
  rewrite !fill_from_names. now left.
Qed.

Lemma campaign_backfilled_names_elem raw wave c :
  c ∈ column_names (campaign_backfilled raw wave) ->
  c ∈ normalized_columns raw
  \/ c ∈ ["wave_number"; "ad_name"; "ad_set_name"]
  \/ c ∈ map fst expected_campaign_columns.
Proof.
  rewrite campaign_backfilled_unfold. intros Hc.
  apply add_missing_names_elem in Hc. destruct Hc as [Hc|Hc]; [|tauto].
  apply reconcile_names_elem in Hc.
  destruct Hc as [Hc|[-> | ->]];
    [|right; left; repeat constructor|right; left; repeat constructor].
  unfold assign_wave_number in Hc. apply names_set_column_elem in Hc.
  destruct Hc as [Hc| ->]; [|right; left; repeat constructor].
  destruct (clean_shape (normalize_columns raw)) as [Hnames _].
  rewrite Hnames, normalized_columns_names in Hc. now left.
Qed.

Lemma in_schema_elem_of (expected : list (string * ctype)) (c : string) :
  in_schema expected c = true -> c ∈ map fst expected.
Proof.
  unfold in_schema. rewrite existsb_exists. intros (x & Hx & He).
  apply String.eqb_eq in He. subst x. now apply list_elem_of_In.
Qed.

(** Expansion finds nothing to add when every label of the frame is, up to
    case, a column of the table. *)
Lemma expansion_nothing_new (t : TableRef) (df : DataFrame)
  (exclude : list string) (m : @Machine toy_warehouse) (tb : Table) :
  tables (warehouse m) !! resolve (warehouse m) t = Some tb ->
  table_columns tb <> [] ->
  (forall c, c ∈ column_names df ->
     PyStr.lower c ∈ map PyStr.lower (table_columns tb)) ->
  expand_table_schema t df exclude m
  = (@mkMachine toy_warehouse (warehouse m)
       (journal m
        ++ [(DescribeTable t,
             Returned (map (fun c => [c]) (table_columns tb)))])%list
       (caller_df m),
     Done (true, "Schema is up to date", 0%nat)).
Proof.
  intros Hl Hcols Hsub. unfold expand_table_schema, try_except.
  unfold bind at 1.
  rewrite (get_table_columns_run t m _ _ (execute_describe_present _ _ _ Hl)).
  rewrite described_table.
  rewrite bool_decide_eq_false_2.
  2:{ destruct (table_columns tb) as [|c0 cs]; [congruence|].
      intros Hempty.
      assert (Hin : PyStr.lower c0 ∈ lower_set (c0 :: cs)).
      { unfold lower_set. apply elem_of_list_to_set. cbn [map].
        apply elem_of_cons. now left. }
      rewrite Hempty in Hin. now apply elem_of_empty in Hin. }
  rewrite bool_decide_eq_true_2; [reflexivity|].
  apply elem_of_equiv_empty_L. intros x Hx.
  apply elem_of_difference in Hx. destruct Hx as [Hx _].
  apply elem_of_difference in Hx. destruct Hx as [Hx Hnot]. apply Hnot.
  unfold lower_set in Hx |- *. apply elem_of_list_to_set in Hx.
  apply elem_of_list_to_set.
  apply list_elem_of_fmap in Hx. destruct Hx as (c & -> & Hc). now apply Hsub.
Qed.


Lemma campaign_ddl_lower :
  map PyStr.lower (created_columns campaign_table_columns)
  = map fst campaign_table_columns.
Proof. vm_compute. reflexivity. Qed.

Lemma campaign_ddl_covers_schema :
  map fst campaign_table_columns
  = (map fst expected_campaign_columns ++ ["upload_timestamp"])%list.
Proof. vm_compute. reflexivity. Qed.

Lemma campaign_schema_lower :
  map PyStr.lower (map fst expected_campaign_columns)
  = map fst expected_campaign_columns.
Proof. vm_compute. reflexivity. Qed.

Lemma campaign_keys_declared :
  Forall (fun c => c ∈ map fst expected_campaign_columns)
         ["wave_number"; "ad_name"; "ad_set_name"].
Proof. repeat constructor; apply (bool_decide_unpack _); vm_compute; reflexivity. Qed.

Lemma naming_ddl_lower :
  map PyStr.lower (created_columns naming_table_columns)
  = map fst naming_table_columns.
Proof. vm_compute. reflexivity. Qed.

Lemma naming_ddl_covers_schema :
  map fst naming_table_columns
  = ("wave_number" :: map fst expected_naming_columns
     ++ ["upload_timestamp"])%list.
Proof. vm_compute. reflexivity. Qed.

Lemma naming_schema_lower :
  map PyStr.lower ("wave_number" :: map fst expected_naming_columns)
  = "wave_number" :: map fst expected_naming_columns.
Proof. vm_compute. reflexivity. Qed.

Lemma campaign_result_declared raw wave result c :
  preprocess_campaign_data raw wave = Some result ->
  Forall (fun name => in_schema expected_campaign_columns name = true)
         (normalized_columns raw) ->
  c ∈ column_names result ->
  c ∈ map fst expected_campaign_columns.
Proof.
  intros Hrun Hlabels Hc.
  destruct (campaign_result_shape _ _ _ Hrun) as (out & -> & Hnames & _).
  rewrite drop_duplicates_names, Hnames in Hc.
  apply campaign_backfilled_names_elem in Hc.
  destruct Hc as [Hc|[Hc|Hc]]; [| |exact Hc].
  - rewrite Forall_forall in Hlabels. apply in_schema_elem_of. now apply Hlabels.
  - pose proof campaign_keys_declared as Hkeys. rewrite Forall_forall in Hkeys.
    now apply Hkeys.
Qed.

Lemma naming_result_declared raw wave result c :
  preprocess_naming_data raw wave = Some result ->
  Forall (fun name => in_schema expected_naming_columns name = true)
         (normalized_columns raw) ->
  c ∈ column_names result ->
  c ∈ "wave_number" :: map fst expected_naming_columns.
Proof.
  intros Hrun Hlabels Hc.
  destruct (naming_result_shape _ _ _ Hrun) as (out & -> & Hnames & _).
  rewrite drop_duplicates_names, Hnames in Hc.
  apply add_missing_names_elem in Hc. apply elem_of_cons.
  destruct Hc as [Hc|Hc]; [|now right].
  unfold assign_wave_number in Hc. apply names_set_column_elem in Hc.
  destruct Hc as [Hc| ->]; [right|now left].
  rewrite normalized_columns_names in Hc.
  rewrite Forall_forall in Hlabels. apply in_schema_elem_of. now apply Hlabels.
Qed.

(** X23.  An export all of whose labels normalize to declared columns needs
    no schema expansion on a table with the columns of the CREATE TABLE
    statement: the preprocessed frame has no column the table lacks, the
    expansion sends its DESCRIBE and nothing else, and reports the schema up
    to date.  The statements of sql_templates.py list every column of the
    schemas the processor declares. *)
Theorem declared_export_needs_no_expansion raw wave result (t : TableRef)
  (m : @Machine toy_warehouse) (tb : Table) :
  (preprocess_campaign_data raw wave = Some result
   /\ Forall (fun name => in_schema expected_campaign_columns name = true)
             (normalized_columns raw)
   /\ table_columns tb = created_columns campaign_table_columns)
  \/ (preprocess_naming_data raw wave = Some result
      /\ Forall (fun name => in_schema expected_naming_columns name = true)
                (normalized_columns raw)
      /\ table_columns tb = created_columns naming_table_columns) ->
  tables (warehouse m) !! resolve (warehouse m) t = Some tb ->
  expand_table_schema t result ["upload_timestamp"] m
  = (@mkMachine toy_warehouse (warehouse m)
       (journal m
        ++ [(DescribeTable t,
             Returned (map (fun c => [c]) (table_columns tb)))])%list
       (caller_df m),
     Done (true, "Schema is up to date", 0%nat)).
Proof.
  intros [(Hrun & Hlabels & Hcols)|(Hrun & Hlabels & Hcols)] Hl;
    apply expansion_nothing_new; try exact Hl.
  - rewrite Hcols. vm_compute. discriminate.
  - intros c Hc. rewrite Hcols, campaign_ddl_lower, campaign_ddl_covers_schema.
    apply elem_of_app. left. rewrite <- campaign_schema_lower.
    apply list_elem_of_fmap. exists c. split; [reflexivity|].
    exact (campaign_result_declared raw wave result c Hrun Hlabels Hc).
  - rewrite Hcols. vm_compute. discriminate.
  - intros c Hc. rewrite Hcols, naming_ddl_lower, naming_ddl_covers_schema.
    rewrite app_comm_cons. apply elem_of_app. left.
    rewrite <- naming_schema_lower.
    apply list_elem_of_fmap. exists c. split; [reflexivity|].
    exact (naming_result_declared raw wave result c Hrun Hlabels Hc).
Qed.

End CreatedTables.

(** A warehouse with the campaign table as the CREATE TABLE statement makes
    it. *)
Definition created_world : State :=
  mkState "DB"
    {[ ("DB", "CLIENT_X_2024", "META_PROCESSED_CAMPAIGN_DATA") :=
         mkTable (created_columns campaign_table_columns) [] ]}.

Lemma declared_export_needs_no_expansion_witness :
  expand_table_schema Runs.campaign_table Samples.campaign_processed
    ["upload_timestamp"]
    (@mkMachine toy_warehouse created_world [] Samples.campaign_processed)
  = (@mkMachine toy_warehouse created_world
       ([] ++ [(DescribeTable Runs.campaign_table,
                Returned (map (fun c => [c])
                            (created_columns campaign_table_columns)))])%list
       Samples.campaign_processed,
     Done (true, "Schema is up to date", 0%nat)).
Proof.
  apply (@declared_export_needs_no_expansion toy_pandas Samples.campaign_raw 1
           Samples.campaign_processed Runs.campaign_table
           (@mkMachine toy_warehouse created_world [] Samples.campaign_processed)
           (mkTable (created_columns campaign_table_columns) [])).
  - left. split; [vm_compute; reflexivity|]. split; [|reflexivity].
    repeat constructor.
  - vm_compute. reflexivity.
Defined.
